(** * DMARC-Analizer: the report decoding pipeline and its callers

    A shallow embedding of [dmarc_analizer/parser.py] ([_parse_xml] and
    [parse_report_file]), of the methods of the model classes of
    [models.py], of the upload, settings and schedule routes of
    [routes.py], together with the small part of the Python runtime they
    rely on ([str] truthiness and [or], [int], [str.lower],
    [str.endswith], [datetime.utcfromtimestamp], [Element.find] /
    [findall], [dict]).

    Conventions.
    - A Python [str] is a [string] whose characters are the code points
      U+0000..U+00FF; [bytes] is [list byte].
    - A call that may raise returns a [result]: [Ok v] or [Raise e] with [e]
      the exception.  Exceptions are an enumeration of the classes that can
      reach the parser, and each [except] clause is a class test.
    - The XML parser, gzip and zipfile are library code: they enter as the
      section variables [fromstring], [gzip_decompress] and [ZipFile].
    - A generator is modelled by what it yields, in order, and by how it
      ends.
    - The database is SQLite, as the application configures it: a table
      is the list of its committed rows, in insertion order; a session
      inserts the added rows when it flushes, which it does before a
      query and on commit, and an integer outside of 64 bits raises
      [OverflowError] there. *)

From Stdlib Require Import ZArith List String Ascii Bool Lia.
From Stdlib.Strings Require Import Byte.
Import ListNotations.
Local Open Scope string_scope.
Local Open Scope Z_scope.

(** ** Exceptions and results *)

Inductive exn : Type :=
| UploadError (message : string) (filename : option string)
| ValueError
| OverflowError
| OSError
| BadGzipFile            (* gzip.BadGzipFile, a subclass of OSError *)
| EOFError
| ZlibError              (* zlib.error *)
| BadZipFile             (* zipfile.BadZipFile *)
| KeyError
| LookupError            (* the class itself, not its subclass KeyError *)
| NotImplementedError
| RuntimeError.

Definition is_ValueError (e : exn) : bool :=
  match e with ValueError => true | _ => false end.

Definition is_OSError (e : exn) : bool :=
  match e with OSError | BadGzipFile => true | _ => false end.

Definition is_BadZipFile_or_KeyError (e : exn) : bool :=
  match e with BadZipFile | KeyError => true | _ => false end.

Definition is_UploadError (e : exn) : bool :=
  match e with UploadError _ _ => true | _ => false end.

Inductive result (A : Type) : Type :=
| Ok (a : A)
| Raise (e : exn).
Arguments Ok {A} a.
Arguments Raise {A} e.

Definition bind {A B : Type} (r : result A) (k : A -> result B) : result B :=
  match r with
  | Ok a => k a
  | Raise e => Raise e
  end.

Notation "x <- r ;; k" := (bind r (fun x => k))
  (at level 61, r at next level, right associativity).

(** ** Python builtins *)

Module Py.

Definition bytes := list Byte.byte.

(** Truthiness of an optional [str]: [None] and [""] are falsy. *)
Definition truthy (v : option string) : bool :=
  match v with
  | None => false
  | Some "" => false
  | Some _ => true
  end.

(** [v or d] when both sides are strings. *)
Definition or_str (v : option string) (d : string) : string :=
  match v with
  | None => d
  | Some "" => d
  | Some s => s
  end.

(** The operand of [int(text or 0)]: a [str] or the [int] default. *)
Inductive str_or_int : Type :=
| VStr (s : string)
| VInt (z : Z).

Definition or_int (v : option string) (d : Z) : str_or_int :=
  match v with
  | None => VInt d
  | Some "" => VInt d
  | Some s => VStr s
  end.

Definition code (c : ascii) : N := N_of_ascii c.

(** White space skipped by [int]: the ASCII set of [Py_ISSPACE] and the
    two space characters of U+0080..U+00FF (NEL and NBSP). *)
Definition is_space (c : ascii) : bool :=
  let n := code c in
  ((9 <=? n) && (n <=? 13) || (n =? 32) || (n =? 133) || (n =? 160))%N.

Definition is_digit (c : ascii) : bool :=
  let n := code c in ((48 <=? n) && (n <=? 57))%N.

Definition digit_val (c : ascii) : Z := Z.of_N (code c) - 48.

Fixpoint lstrip (s : string) : string :=
  match s with
  | String c rest => if is_space c then lstrip rest else s
  | EmptyString => s
  end.

Fixpoint all_space (s : string) : bool :=
  match s with
  | String c rest => is_space c && all_space rest
  | EmptyString => true
  end.

(** Scans the digits that follow a first digit: a single underscore is
    allowed between two digits.  Returns the value, the number of digits
    and the unread rest. *)
Fixpoint scan_digits (s : string) (acc : Z) (n : N) : option (Z * N * string) :=
  match s with
  | EmptyString => Some (acc, n, s)
  | String c rest =>
      if is_digit c then scan_digits rest (10 * acc + digit_val c) (n + 1)%N
      else if Ascii.eqb c "_" then
        match rest with
        | String d rest' =>
            if is_digit d
            then scan_digits rest' (10 * acc + digit_val d) (n + 1)%N
            else None
        | EmptyString => None
        end
      else Some (acc, n, s)
  end.

(** [sys.get_int_max_str_digits()], CPython's default. *)
Definition int_max_str_digits : N := 4300.

Definition int_unsigned (s : string) : result Z :=
  match s with
  | String c rest =>
      if is_digit c then
        match scan_digits rest (digit_val c) 1%N with
        | Some (v, n, tail) =>
            if all_space tail && (n <=? int_max_str_digits)%N
            then Ok v else Raise ValueError
        | None => Raise ValueError
        end
      else Raise ValueError
  | EmptyString => Raise ValueError
  end.

(** [int(s)] for a [str] in base 10. *)
Definition int_of_str (s : string) : result Z :=
  match lstrip s with
  | String "+" rest => int_unsigned rest
  | String "-" rest => v <- int_unsigned rest ;; Ok (- v)
  | t => int_unsigned t
  end.

Definition int (v : str_or_int) : result Z :=
  match v with
  | VInt z => Ok z
  | VStr s => int_of_str s
  end.

(** [str.lower] on U+0000..U+00FF. *)
Definition lower_char (c : ascii) : ascii :=
  let n := code c in
  if ((65 <=? n) && (n <=? 90)
      || (192 <=? n) && (n <=? 222) && negb (n =? 215))%N
  then ascii_of_N (n + 32) else c.

Fixpoint lower (s : string) : string :=
  match s with
  | String c rest => String (lower_char c) (lower rest)
  | EmptyString => EmptyString
  end.

Fixpoint rev_append (s acc : string) : string :=
  match s with
  | String c rest => rev_append rest (String c acc)
  | EmptyString => acc
  end.

Definition rev (s : string) : string := rev_append s "".

(** [s.endswith(suffix)] *)
Definition endswith (s suffix : string) : bool :=
  String.prefix (rev suffix) (rev s).

End Py.

(** ** xml.etree.ElementTree *)

Module ET.

(** An element: its tag, its [text] ([None] when the element has no
    character data before its first child) and its children in document
    order.  Attributes and tails are never read by the parser. *)
#[warning="-register-all"]
Inductive Element : Type :=
| Elem (tag : string) (text : option string) (children : list Element).

Definition tag (e : Element) : string :=
  match e with Elem t _ _ => t end.

Definition text (e : Element) : option string :=
  match e with Elem _ t _ => t end.

Definition children (e : Element) : list Element :=
  match e with Elem _ _ c => c end.

(** What [ET.fromstring] does with a [bytes] argument: it returns the
    root element, or raises [ET.ParseError] (not well-formed), [LookupError]
    (the declared encoding is unknown or is not a text encoding) or
    [ValueError] (a multi-byte encoding, which is not supported, or the
    [UnicodeError] of a codec). *)
Inductive fromstring_result : Type :=
| Parsed (root : Element)
| Raises_ParseError
| Raises_LookupError
| Raises_ValueError.

(** [ET.Element(tag)] *)
Definition new (t : string) : Element := Elem t None [].

(** Truth value of an element: it has children. *)
Definition truthy (e : Element) : bool :=
  match children e with
  | [] => false
  | _ :: _ => true
  end.

(** [found or fresh] for the result of [find]. *)
Definition or_element (found : option Element) (fresh : Element) : Element :=
  match found with
  | Some e => if truthy e then e else fresh
  | None => fresh
  end.

(** The steps of a path such as ["row/source_ip"]. *)
Fixpoint split_path (path : string) : list string :=
  match path with
  | EmptyString => [EmptyString]
  | String c rest =>
      if Ascii.eqb c "/" then EmptyString :: split_path rest
      else match split_path rest with
           | t :: ts => String c t :: ts
           | [] => [String c EmptyString]
           end
  end.

(** One step of a path: the children with that tag, of every element of
    the context, in document order. *)
Definition select_child (t : string) (context : list Element) : list Element :=
  flat_map (fun e => filter (fun c => String.eqb (tag c) t) (children e)) context.

Fixpoint select (steps : list string) (context : list Element) : list Element :=
  match steps with
  | [] => context
  | t :: rest => select rest (select_child t context)
  end.

(** [elem.findall(path)] *)
Definition findall (elem : Element) (path : string) : list Element :=
  select (split_path path) [elem].

(** [elem.find(path)]: the first match, or [None]. *)
Definition find (elem : Element) (path : string) : option Element :=
  hd_error (findall elem path).

End ET.

(** ** datetime *)

Module DT.

(** A naive [datetime] with whole seconds. *)
Record datetime : Type := mk_datetime {
  year : Z; month : Z; day : Z; hour : Z; minute : Z; second : Z
}.

Definition MINYEAR : Z := 1.
Definition MAXYEAR : Z := 9999.

(** Proleptic Gregorian date of a day number counted from 1970-01-01. *)
Definition civil_from_days (z : Z) : Z * Z * Z :=
  let z := z + 719468 in
  let era := z / 146097 in
  let doe := z - era * 146097 in
  let yoe := (doe - doe / 1460 + doe / 36524 - doe / 146096) / 365 in
  let y := yoe + era * 400 in
  let doy := doe - (365 * yoe + yoe / 4 - yoe / 100) in
  let mp := (5 * doy + 2) / 153 in
  let d := doy - (153 * mp + 2) / 5 + 1 in
  let m := if mp <? 10 then mp + 3 else mp - 9 in
  (if m <=? 2 then y + 1 else y, m, d).

(** Day number, counted from 1970-01-01, of a proleptic Gregorian date. *)
Definition days_from_civil (y m d : Z) : Z :=
  let y := if m <=? 2 then y - 1 else y in
  let era := y / 400 in
  let yoe := y - era * 400 in
  let mp := if 2 <? m then m - 3 else m + 9 in
  let doy := (153 * mp + 2) / 5 + d - 1 in
  let doe := yoe * 365 + yoe / 4 - yoe / 100 + doy in
  era * 146097 + doe - 719468.

(** The instant of a datetime read as UTC, in seconds since the epoch
    ([calendar.timegm]). *)
Definition to_epoch (t : datetime) : Z :=
  days_from_civil (year t) (month t) (day t) * 86400
  + hour t * 3600 + minute t * 60 + second t.

(** C [gmtime_r] on a 64-bit [time_t]: fails when the year does not fit
    the [int] field [tm_year], which holds the year minus 1900. *)
Definition gmtime (t : Z) : result datetime :=
  let days := t / 86400 in
  let rem := t mod 86400 in
  let '(y, m, d) := civil_from_days days in
  if (- 2 ^ 31 <=? y - 1900) && (y - 1900 <? 2 ^ 31)
  then Ok (mk_datetime y m d (rem / 3600) (rem mod 3600 / 60) (rem mod 60))
  else Raise OSError.

(** [datetime.utcfromtimestamp(n)] for an [int] [n]. *)
Definition utcfromtimestamp (n : Z) : result datetime :=
  if (- 2 ^ 63 <=? n) && (n <? 2 ^ 63) then
    tm <- gmtime n ;;
    if (MINYEAR <=? year tm) && (year tm <=? MAXYEAR)
    then Ok tm else Raise ValueError
  else Raise OverflowError.

Definition is_leap (y : Z) : bool :=
  (y mod 4 =? 0) && (negb (y mod 100 =? 0) || (y mod 400 =? 0)).

Definition days_in_month (y m : Z) : Z :=
  if m =? 2 then (if is_leap y then 29 else 28)
  else if (m =? 4) || (m =? 6) || (m =? 9) || (m =? 11) then 30
  else 31.

(** The fields the constructor of [datetime] accepts. *)
Definition valid (t : datetime) : bool :=
  (MINYEAR <=? year t) && (year t <=? MAXYEAR)
  && (1 <=? month t) && (month t <=? 12)
  && (1 <=? day t) && (day t <=? days_in_month (year t) (month t))
  && (0 <=? hour t) && (hour t <? 24)
  && (0 <=? minute t) && (minute t <? 60)
  && (0 <=? second t) && (second t <? 60).

Definition year_of_days (z : Z) : Z := fst (fst (civil_from_days z)).

(** A check of the calendar on one day of the 400-year cycle, the day
    number counted from 0000-03-01: the date converts back to the day
    number, the fields are in range and the year does not decrease on
    the next day. *)
Definition cycle_day_ok (doe : Z) : bool :=
  let '(y, m, d) := civil_from_days (doe - 719468) in
  (days_from_civil y m d =? doe - 719468)
  && (0 <=? y) && (y <=? 400)
  && (y <=? year_of_days (doe + 1 - 719468))
  && (1 <=? m) && (m <=? 12) && (1 <=? d) && (d <=? 31)
  && (d <=? days_in_month y m).

Fixpoint days_ok (n : nat) (i : Z) : bool :=
  match n with
  | O => true
  | S n' => if cycle_day_ok i then days_ok n' (i + 1) else false
  end.

(** A check of the calendar on one date of the 400-year cycle: the date
    of index [i] is year [i / 372], month [i mod 372 / 31 + 1], day
    [i mod 372 mod 31 + 1]; when the month has that day, the day number
    of the date converts back to the date. *)
Definition date_ok (i : Z) : bool :=
  let y := i / 372 in
  let m := i mod 372 / 31 + 1 in
  let d := (i mod 372) mod 31 + 1 in
  if d <=? days_in_month y m then
    let '(y', m', d') := civil_from_days (days_from_civil y m d) in
    (y' =? y) && (m' =? m) && (d' =? d)
  else true.

Fixpoint dates_ok (n : nat) (i : Z) : bool :=
  match n with
  | O => true
  | S n' => if date_ok i then dates_ok n' (i + 1) else false
  end.

(** 400 years of 12 months of 31 days. *)
Definition dates_length : nat := Z.to_nat 148800.

(** The days of 400 Gregorian years. *)
Definition cycle_length : nat := Z.to_nat 146097.

(** The instants of 0001-01-01T00:00:00 and 9999-12-31T23:59:59. *)
Definition min_timestamp : Z := -62135596800.
Definition max_timestamp : Z := 253402300799.

End DT.

(** ** gzip and zipfile *)

Module zipfile.

Record ZipInfo : Type := { filename : string }.

(** An open archive: the member list of [infolist()], and what
    [zf.open(name).read()] gives for a member name. *)
Record ZipFile : Type := {
  infolist : list ZipInfo;
  read : string -> result Py.bytes
}.

End zipfile.

(** ** models.py *)

Module Models.

Record ReportRecord : Type := {
  source_ip : string;
  count : Z;
  disposition : option string;
  dkim_aligned : option string;
  spf_aligned : option string;
  header_from : option string;
  envelope_from : option string;
  auth_dkim_domain : option string;
  auth_spf_domain : option string
}.

Record Report : Type := {
  report_id : string;
  org_name : option string;
  email : option string;
  extra_contact_info : option string;
  date_range_start : DT.datetime;
  date_range_end : DT.datetime;
  domain : string;
  adkim : option string;
  aspf : option string;
  p : option string;
  sp : option string;
  pct : Z;
  filename : string;
  records : list ReportRecord
}.

(** The same report with another [records] list. *)
Definition set_records (report : Report) (rs : list ReportRecord) : Report :=
  {| report_id := report_id report;
     org_name := org_name report;
     email := email report;
     extra_contact_info := extra_contact_info report;
     date_range_start := date_range_start report;
     date_range_end := date_range_end report;
     domain := domain report;
     adkim := adkim report;
     aspf := aspf report;
     p := p report;
     sp := sp report;
     pct := pct report;
     filename := filename report;
     records := rs |}.

(** [report.records.append(record)] *)
Definition append_record (report : Report) (record : ReportRecord) : Report :=
  set_records report (records report ++ [record]).

(** [UploadError(message)] leaves the [filename] attribute at its default. *)
Definition UploadError1 (message : string) : exn := UploadError message None.

(** [UploadError(message, filename)] *)
Definition UploadError2 (message filename : string) : exn :=
  UploadError message (Some filename).

End Models.

(** ** parser.py *)

Module Messages.

(** A one-character [str] from its code point. *)
Definition chr (n : N) : string := String (ascii_of_N n) EmptyString.

Definition unparseable_xml (filename : string) : string :=
  "No se pudo interpretar el XML en " ++ filename.

Definition invalid_date_range : string :=
  "El informe no contiene un rango de fechas v" ++ chr 225 ++ "lido".

Definition no_traffic_records : string :=
  "El informe no contiene registros de tr" ++ chr 225 ++ "fico".

Definition corrupt_gzip : string :=
  "El archivo .gz est" ++ chr 225 ++ " da" ++ chr 241
  ++ "ado o no es v" ++ chr 225 ++ "lido".

Definition corrupt_zip : string :=
  "El archivo .zip est" ++ chr 225 ++ " da" ++ chr 241
  ++ "ado o vac" ++ chr 237 ++ "o".

End Messages.

(** What a generator produced when run to its end: the values it yielded,
    in order, and the exception that ended it, if one did. *)
Record generated (A : Type) : Type := {
  yielded : list A;
  raised : option exn
}.
Arguments yielded {A} g.
Arguments raised {A} g.

Definition gen_return {A : Type} : generated A :=
  {| yielded := []; raised := None |}.

Definition gen_raise {A : Type} (e : exn) : generated A :=
  {| yielded := []; raised := Some e |}.

Definition gen_yield {A : Type} (a : A) (rest : generated A) : generated A :=
  {| yielded := a :: yielded rest; raised := raised rest |}.

Section Parser.

Import Models.

(** [ET.fromstring] *)
Variable fromstring : Py.bytes -> ET.fromstring_result.

(** [gzip.decompress] *)
Variable gzip_decompress : Py.bytes -> result Py.bytes.

(** [zipfile.ZipFile(io.BytesIO(data))] *)
Variable ZipFile : Py.bytes -> result zipfile.ZipFile.

Definition _find_text (parent : ET.Element) (path : string) : option string :=
  match ET.find parent path with
  | Some element => ET.text element
  | None => None
  end.

Definition _ts (value : option string) : result (option DT.datetime) :=
  match value with
  | None => Ok None
  | Some s =>
      if negb (Py.truthy value) then Ok None
      else
        match n <- Py.int (Py.VStr s) ;; DT.utcfromtimestamp n with
        | Ok t => Ok (Some t)
        | Raise e => if is_ValueError e then Ok None else Raise e
        end
  end.

(** The body of [for record_element in root.findall("record")]. *)
Fixpoint record_loop (elements : list ET.Element) (report : Report)
  : result Report :=
  match elements with
  | [] => Ok report
  | record_element :: rest =>
      let source_ip := Py.or_str (_find_text record_element "row/source_ip") "" in
      if negb (Py.truthy (Some source_ip)) then record_loop rest report
      else
        count <- Py.int (Py.or_int (_find_text record_element "row/count") 0) ;;
        let record :=
          {| source_ip := source_ip;
             count := count;
             disposition := _find_text record_element "row/policy_evaluated/disposition";
             dkim_aligned := _find_text record_element "row/policy_evaluated/dkim";
             spf_aligned := _find_text record_element "row/policy_evaluated/spf";
             header_from := _find_text record_element "identifiers/header_from";
             envelope_from := _find_text record_element "identifiers/envelope_from";
             auth_dkim_domain := _find_text record_element "auth_results/dkim/domain";
             auth_spf_domain := _find_text record_element "auth_results/spf/domain" |} in
        record_loop rest (append_record report record)
  end.

Definition _parse_xml (xml_bytes : Py.bytes) (filename : string) : result Report :=
  match fromstring xml_bytes with
  | ET.Raises_ParseError => Raise (UploadError1 (Messages.unparseable_xml filename))
  | ET.Raises_LookupError => Raise LookupError
  | ET.Raises_ValueError => Raise ValueError
  | ET.Parsed root =>
      let metadata :=
        ET.or_element (ET.find root "report_metadata") (ET.new "report_metadata") in
      let policy :=
        ET.or_element (ET.find root "policy_published") (ET.new "policy_published") in
      date_start <- _ts (_find_text metadata "date_range/begin") ;;
      date_end <- _ts (_find_text metadata "date_range/end") ;;
      match date_start, date_end with
      | Some date_start, Some date_end =>
          pct <- Py.int (Py.or_int (_find_text policy "pct") 0) ;;
          let report :=
            {| report_id := Py.or_str (_find_text metadata "report_id") filename;
               org_name := _find_text metadata "org_name";
               email := _find_text metadata "email";
               extra_contact_info := _find_text metadata "extra_contact_info";
               date_range_start := date_start;
               date_range_end := date_end;
               domain := Py.or_str (_find_text policy "domain") "desconocido";
               adkim := _find_text policy "adkim";
               aspf := _find_text policy "aspf";
               p := _find_text policy "p";
               sp := _find_text policy "sp";
               pct := pct;
               filename := filename;
               records := [] |} in
          report <- record_loop (ET.findall root "record") report ;;
          match records report with
          | [] => Raise (UploadError2 Messages.no_traffic_records filename)
          | _ :: _ => Ok report
          end
      | _, _ => Raise (UploadError2 Messages.invalid_date_range filename)
      end
  end.

(** The [except (zipfile.BadZipFile, KeyError)] clause around the zip
    branch. *)
Definition zip_except (filename : string) (e : exn) : exn :=
  if is_BadZipFile_or_KeyError e
  then UploadError2 Messages.corrupt_zip filename else e.

(** The body of [for info in zf.infolist()]. *)
Fixpoint zip_loop (zf : zipfile.ZipFile) (infos : list zipfile.ZipInfo)
    (filename : string) : generated Report :=
  match infos with
  | [] => gen_return
  | info :: rest =>
      if Py.endswith (zipfile.filename info) "/" then zip_loop zf rest filename
      else
        match data <- zipfile.read zf (zipfile.filename info) ;;
              _parse_xml data (zipfile.filename info) with
        | Ok report => gen_yield report (zip_loop zf rest filename)
        | Raise e => gen_raise (zip_except filename e)
        end
  end.

(** [file_stream] stands for the bytes [file_stream.read()] returns. *)
Definition parse_report_file (file_stream : Py.bytes) (filename : string)
  : generated Report :=
  let lower_name := Py.lower filename in
  let data := file_stream in
  if Py.endswith lower_name ".gz" then
    match gzip_decompress data with
    | Raise e =>
        if is_OSError e
        then gen_raise (UploadError2 Messages.corrupt_gzip filename)
        else gen_raise e
    | Ok data =>
        match _parse_xml data filename with
        | Ok report => gen_yield report gen_return
        | Raise e => gen_raise e
        end
    end
  else if Py.endswith lower_name ".zip" then
    match ZipFile data with
    | Raise e => gen_raise (zip_except filename e)
    | Ok zf => zip_loop zf (zipfile.infolist zf) filename
    end
  else
    match _parse_xml data filename with
    | Ok report => gen_yield report gen_return
    | Raise e => gen_raise e
    end.

End Parser.

(** ** Views of a document used in the statements *)

Module Doc.

Import Models.

(** The element the parser reads the report metadata from: the first
    [report_metadata] child of the root, or a fresh empty element when
    there is none or when it has no children. *)
Definition metadata (root : ET.Element) : ET.Element :=
  ET.or_element (ET.find root "report_metadata") (ET.new "report_metadata").

Definition policy (root : ET.Element) : ET.Element :=
  ET.or_element (ET.find root "policy_published") (ET.new "policy_published").

Definition begin_text (root : ET.Element) : option string :=
  _find_text (metadata root) "date_range/begin".

Definition end_text (root : ET.Element) : option string :=
  _find_text (metadata root) "date_range/end".

Definition pct_text (root : ET.Element) : option string :=
  _find_text (policy root) "pct".

(** The report as it stands before the loop over the records. *)
Definition header (root : ET.Element) (filename : string)
    (date_start date_end : DT.datetime) (pct : Z) : Report :=
  {| report_id := Py.or_str (_find_text (metadata root) "report_id") filename;
     org_name := _find_text (metadata root) "org_name";
     email := _find_text (metadata root) "email";
     extra_contact_info := _find_text (metadata root) "extra_contact_info";
     date_range_start := date_start;
     date_range_end := date_end;
     domain := Py.or_str (_find_text (policy root) "domain") "desconocido";
     adkim := _find_text (policy root) "adkim";
     aspf := _find_text (policy root) "aspf";
     p := _find_text (policy root) "p";
     sp := _find_text (policy root) "sp";
     pct := pct;
     filename := filename;
     records := [] |}.

(** A [<record>] the loop passes over: no [row/source_ip], or one
    without text. *)
Definition skipped (record_element : ET.Element) : bool :=
  negb (Py.truthy (_find_text record_element "row/source_ip")).

Definition kept (record_element : ET.Element) : bool :=
  negb (skipped record_element).

(** The element at [path] is missing, or is there with empty text. *)
Definition absent_or_empty (parent : ET.Element) (path : string) : Prop :=
  ET.find parent path = None
  \/ exists element, ET.find parent path = Some element
       /\ (ET.text element = None \/ ET.text element = Some EmptyString).

(** The text is an integer literal that denotes an instant a [datetime]
    can hold (years 1 to 9999). *)
Definition datable (v : option string) : Prop :=
  exists s n, v = Some s /\ Py.int_of_str s = Ok n
    /\ DT.min_timestamp <= n <= DT.max_timestamp.

(** The widest range of instants C [gmtime_r] breaks down on a platform
    with a 64-bit [time_t] and a 32-bit [int]. *)
Definition gmtime_min : Z := -67768040609740800.
Definition gmtime_max : Z := 67768036191676799.

(** The text, when it is an integer literal, is one [gmtime_r] accepts. *)
Definition within_platform (v : option string) : Prop :=
  forall s n, v = Some s -> Py.int_of_str s = Ok n ->
    gmtime_min <= n <= gmtime_max.

(** Both ends of the date range convert to a datetime. *)
Definition valid_date_range (root : ET.Element) : Prop :=
  exists date_start date_end,
    _ts (begin_text root) = Ok (Some date_start)
    /\ _ts (end_text root) = Ok (Some date_end).

(** The optional text is empty or an integer literal: [int(v or 0)]
    returns [c]. *)
Definition numeric_or_empty (v : option string) (c : Z) : Prop :=
  (Py.truthy v = false /\ c = 0)
  \/ (exists s, v = Some s /\ Py.truthy v = true /\ Py.int_of_str s = Ok c).

(** The field mapping of a [<record>] element to a [ReportRecord]. *)
Definition maps_to (e : ET.Element) (r : ReportRecord) : Prop :=
  _find_text e "row/source_ip" = Some (source_ip r)
  /\ source_ip r <> EmptyString
  /\ numeric_or_empty (_find_text e "row/count") (count r)
  /\ disposition r = _find_text e "row/policy_evaluated/disposition"
  /\ dkim_aligned r = _find_text e "row/policy_evaluated/dkim"
  /\ spf_aligned r = _find_text e "row/policy_evaluated/spf"
  /\ header_from r = _find_text e "identifiers/header_from"
  /\ envelope_from r = _find_text e "identifiers/envelope_from"
  /\ auth_dkim_domain r = _find_text e "auth_results/dkim/domain"
  /\ auth_spf_domain r = _find_text e "auth_results/spf/domain".

(** The record the loop appends for an element it keeps. *)
Definition record_of (e : ET.Element) (count : Z) : ReportRecord :=
  {| source_ip := Py.or_str (_find_text e "row/source_ip") "";
     count := count;
     disposition := _find_text e "row/policy_evaluated/disposition";
     dkim_aligned := _find_text e "row/policy_evaluated/dkim";
     spf_aligned := _find_text e "row/policy_evaluated/spf";
     header_from := _find_text e "identifiers/header_from";
     envelope_from := _find_text e "identifiers/envelope_from";
     auth_dkim_domain := _find_text e "auth_results/dkim/domain";
     auth_spf_domain := _find_text e "auth_results/spf/domain" |}.

(** The text is there and [int] accepts it. *)
Definition integer_text (v : option string) : Prop :=
  exists s n, v = Some s /\ Py.int_of_str s = Ok n.

(** What reading an archive member and parsing it under its own name
    gives. *)
Definition member_report (fromstring : Py.bytes -> ET.fromstring_result)
    (zf : zipfile.ZipFile) (info : zipfile.ZipInfo) : result Report :=
  data <- zipfile.read zf (zipfile.filename info) ;;
  _parse_xml fromstring data (zipfile.filename info).

(** How a failure on a member shows: a failed parse passes unchanged, a
    failed read goes through the [except] clause of the zip branch. *)
Definition member_failure (fromstring : Py.bytes -> ET.fromstring_result)
    (zf : zipfile.ZipFile) (outer : string) (info : zipfile.ZipInfo)
    (e : exn) : Prop :=
  (exists data, zipfile.read zf (zipfile.filename info) = Ok data
     /\ _parse_xml fromstring data (zipfile.filename info) = Raise e)
  \/ (exists e0, zipfile.read zf (zipfile.filename info) = Raise e0
        /\ e = zip_except outer e0).

(** The archive members the zip branch builds a report from. *)
Definition is_directory (info : zipfile.ZipInfo) : bool :=
  Py.endswith (zipfile.filename info) "/".

Definition file_members (zf : zipfile.ZipFile) : list zipfile.ZipInfo :=
  filter (fun info => negb (is_directory info)) (zipfile.infolist zf).

End Doc.

(** ** Sample documents and library behaviours *)

Module Samples.

Import ET.

Definition leaf (t s : string) : Element := Elem t (Some s) [].
Definition node (t : string) (cs : list Element) : Element := Elem t None cs.
Definition empty (t : string) : Element := Elem t None [].

Definition date_range (b e : string) : Element :=
  node "date_range" [leaf "begin" b; leaf "end" e].

Definition record (ip : Element) (count : Element) : Element :=
  node "record"
    [node "row" [ip; count; node "policy_evaluated" [leaf "disposition" "none"]]].

Definition feedback (metadata policy records : list Element) : Element :=
  node "feedback"
    (node "report_metadata" metadata :: node "policy_published" policy :: records).

Definition record_10_0_0_1 : Element :=
  record (leaf "source_ip" "10.0.0.1") (leaf "count" "5").

(** The scenario of the specification: one record, 2023-11-14. *)
Definition doc_scenario : Element :=
  feedback [leaf "report_id" "r-1"; date_range "1700000000" "1700003600"]
           [leaf "domain" "example.com"; leaf "pct" "100"]
           [record_10_0_0_1].

(** [begin] is the first second of the year 10000. *)
Definition doc_year_10000 : Element :=
  feedback [date_range "253402300800" "253402304400"]
           [leaf "domain" "example.com"]
           [record_10_0_0_1].

Definition doc_pct_abc : Element :=
  feedback [date_range "1700000000" "1700003600"]
           [leaf "domain" "example.com"; leaf "pct" "abc"]
           [record_10_0_0_1].

Definition doc_pct_abc_no_records : Element :=
  feedback [date_range "1700000000" "1700003600"]
           [leaf "domain" "example.com"; leaf "pct" "abc"]
           [].

Definition doc_count_abc : Element :=
  feedback [date_range "1700000000" "1700003600"]
           [leaf "domain" "example.com"]
           [record (leaf "source_ip" "10.0.0.1") (leaf "count" "abc")].

Definition doc_no_records : Element :=
  feedback [date_range "1700000000" "1700003600"]
           [leaf "domain" "example.com"]
           [].

(** No [report_id], no [domain], no [pct]. *)
Definition doc_defaults : Element :=
  feedback [date_range "1700000000" "1700003600"]
           [leaf "p" "none"]
           [record_10_0_0_1].

(** A record without source address; its [count] is not a number. *)
Definition record_without_ip : Element :=
  record (empty "source_ip") (leaf "count" "abc").

Definition record_192_0_2_7 : Element :=
  record (leaf "source_ip" "192.0.2.7") (empty "count").

Definition doc_with_skipped : Element :=
  feedback [leaf "report_id" "r-2"; date_range "1700000000" "1700003600"]
           [leaf "domain" "example.com"]
           [record_10_0_0_1; record_without_ip; record_192_0_2_7].

Definition doc_without_skipped : Element :=
  feedback [leaf "report_id" "r-2"; date_range "1700000000" "1700003600"]
           [leaf "domain" "example.com"]
           [record_10_0_0_1; record_192_0_2_7].

Definition doc_all_skipped : Element :=
  feedback [date_range "1700000000" "1700003600"]
           [leaf "domain" "example.com"]
           [record_without_ip; record (leaf "source_ip" "") (leaf "count" "1")].

(** [report_id], [domain], [pct] and a [count] are present and empty. *)
Definition doc_empty_fields : Element :=
  feedback [empty "report_id"; date_range "1700000000" "1700003600"]
           [leaf "domain" ""; empty "pct"]
           [record_192_0_2_7; record_without_ip].

(** An XML parser that returns [root] whatever the bytes. *)
Definition parses_to (root : Element) : Py.bytes -> fromstring_result :=
  fun _ => Parsed root.

(** An XML parser that raises [ParseError] whatever the bytes. *)
Definition unparseable : Py.bytes -> fromstring_result :=
  fun _ => Raises_ParseError.

(** An XML parser given by a table from the first byte to the document. *)
Definition parses_by_first_byte (table : Byte.byte -> option Element)
  : Py.bytes -> fromstring_result :=
  fun data => match data with
              | b :: _ => match table b with
                          | Some root => Parsed root
                          | None => Raises_ParseError
                          end
              | [] => Raises_ParseError
              end.

Definition three_documents (b : Byte.byte) : option Element :=
  match b with
  | x01 => Some doc_scenario
  | x02 => Some doc_defaults
  | x03 => Some doc_with_skipped
  | _ => None
  end.

Definition skip_documents (b : Byte.byte) : option Element :=
  match b with
  | x01 => Some doc_with_skipped
  | x02 => Some doc_without_skipped
  | _ => None
  end.

(** [gzip.decompress] that raises [e] / that returns its argument. *)
Definition gzip_raises (e : exn) : Py.bytes -> result Py.bytes :=
  fun _ => Raise e.

Definition gzip_stored : Py.bytes -> result Py.bytes :=
  fun data => Ok data.

(** [ZipFile] that raises [BadZipFile] / that opens the archive [zf]. *)
Definition not_a_zip : Py.bytes -> result zipfile.ZipFile :=
  fun _ => Raise BadZipFile.

Definition opens_as (zf : zipfile.ZipFile) : Py.bytes -> result zipfile.ZipFile :=
  fun _ => Ok zf.

Definition member (name : string) : zipfile.ZipInfo :=
  {| zipfile.filename := name |}.

(** Three documents and a directory entry. *)
Definition archive : zipfile.ZipFile :=
  {| zipfile.infolist :=
       [member "a.xml"; member "dir/"; member "dir/b.xml"; member "c.xml"];
     zipfile.read := fun name =>
       if String.eqb name "a.xml" then Ok [x01]
       else if String.eqb name "dir/b.xml" then Ok [x02]
       else if String.eqb name "c.xml" then Ok [x03]
       else if String.eqb name "dir/" then Ok []
       else Raise KeyError |}.

(** The second document of the archive is not XML. *)
Definition archive_bad_second : zipfile.ZipFile :=
  {| zipfile.infolist :=
       [member "a.xml"; member "dir/"; member "dir/b.xml"; member "c.xml"];
     zipfile.read := fun name =>
       if String.eqb name "a.xml" then Ok [x01]
       else if String.eqb name "dir/b.xml" then Ok [xff]
       else if String.eqb name "c.xml" then Ok [x03]
       else if String.eqb name "dir/" then Ok []
       else Raise KeyError |}.

End Samples.

(** ** More of models.py: the methods of the model classes *)

Module Dict.

(** A [dict] from [str] to [int], as the list of its items in insertion
    order; a key occurs once. *)
Definition dict : Type := list (string * Z).

(** [d.get(k, default)] *)
Fixpoint get (d : dict) (k : string) (default : Z) : Z :=
  match d with
  | [] => default
  | (k', v) :: rest => if String.eqb k' k then v else get rest k default
  end.

(** [d[k] = v]: the value of a key that is there is replaced where it
    stands, a new key goes to the end. *)
Fixpoint set (d : dict) (k : string) (v : Z) : dict :=
  match d with
  | [] => [(k, v)]
  | (k', v') :: rest =>
      if String.eqb k' k then (k', v) :: rest else (k', v') :: set rest k v
  end.

Definition keys (d : dict) : list string := map fst d.

Definition values (d : dict) : list Z := map snd d.

Definition sum (l : list Z) : Z := fold_right Z.add 0 l.

End Dict.

Module Methods.

Import Models.

(** The loop of [Report.summary_counts], from the dict built so far. *)
Fixpoint summary_loop (rs : list ReportRecord) (counts : Dict.dict) : Dict.dict :=
  match rs with
  | [] => counts
  | record :: rest =>
      let disposition := Py.or_str (disposition record) "unknown" in
      summary_loop rest
        (Dict.set counts disposition
           (Dict.get counts disposition 0 + count record))
  end.

(** [Report.summary_counts] *)
Definition summary_counts (self : Report) : Dict.dict :=
  summary_loop (records self) [].

(** [ReportRecord.alignment_status()] *)
Definition alignment_status (self : ReportRecord) : string :=
  let dkim := Py.or_str (dkim_aligned self) "?" in
  let spf := Py.or_str (spf_aligned self) "?" in
  "dkim:" ++ dkim ++ " / spf:" ++ spf.

(** [ReportRecord.identifier] *)
Definition identifier (self : ReportRecord) : string :=
  Py.or_str (header_from self) (Py.or_str (envelope_from self) "Unknown").

(** The label a record is counted under. *)
Definition label (record : ReportRecord) : string :=
  Py.or_str (disposition record) "unknown".

(** The counts of the records with a given label, added up. *)
Definition total_of (k : string) (rs : list ReportRecord) : Z :=
  Dict.sum (map count (filter (fun r => String.eqb (label r) k) rs)).

End Methods.

(** ** The other model classes, and more of Python's [or] *)

Module Tables.

(** [ScheduledReport], without the columns the database fills in ([id],
    [created_at]).  An attribute holds a value or [None]. *)
Record ScheduledReport : Type := {
  name : option string;
  recipient : option string;
  domain_filter : option string;
  days_back : option Z;
  frequency : option string;
  last_sent_at : option DT.datetime
}.

(** [MailSettings], without [id]. *)
Record MailSettings : Type := {
  mail_server : option string;
  mail_port : option Z;
  connection_type : option string;
  username : option string;
  password : option string;
  use_ssl : option bool;
  smtp_server : option string;
  smtp_port : option Z;
  use_tls : option bool;
  sender : option string
}.

End Tables.

Module PyOr.

(** [a or b] for two optional strings. *)
Definition or_opt (a b : option string) : option string :=
  if Py.truthy a then a else b.

(** [a or d] for an optional [int] and an [int]. *)
Definition int_or (a : option Z) (d : Z) : Z :=
  match a with
  | Some n => if n =? 0 then d else n
  | None => d
  end.

(** [n or None] for an [int]. *)
Definition or_None (n : Z) : option Z :=
  if n =? 0 then None else Some n.

End PyOr.

(** ** routes.py *)

Module werkzeug.

(** An uploaded file: the bytes of its stream and its name. *)
Record FileStorage : Type := {
  stream : Py.bytes;
  filename : string
}.

End werkzeug.

Module sqlite3.

(** An [INTEGER] column holds a signed 64-bit value: binding a Python
    [int] outside of it raises [OverflowError]. *)
Definition fits_integer (n : Z) : bool :=
  (- 2 ^ 63 <=? n) && (n <? 2 ^ 63).

End sqlite3.

Module Routes.

Import Models Tables.

(** The text of a flashed message, with what its f-string puts in. *)
Inductive flash_text : Type :=
| choose_a_file                          (* "Sube un archivo XML, GZ o ZIP ..." *)
| already_loaded (report_id : string)    (* "El reporte {report_id} ya está cargado." *)
| loaded (reports_saved : Z)             (* "Se cargaron {reports_saved} reportes." *)
| str_of_exception (e : exn)             (* str(exc) *)
| unexpected (e : exn)                   (* "Error inesperado: {exc}" *)
| complete_name_and_recipient            (* "Completa el nombre y el destinatario." *)
| schedule_created                       (* "Reporte programado creado." *)
| settings_saved.                        (* "Configuración de correo guardada." *)

(** [flash(message, category)] *)
Definition flash : Type := (flash_text * string)%type.

(** Whether the INSERTs of a report and of its records go through: the
    integer columns they fill are [pct] and the [count] of each record. *)
Definition storable (report : Report) : bool :=
  sqlite3.fits_integer (pct report)
  && forallb (fun r => sqlite3.fits_integer (count r)) (records report).

(** [db.session] on the table of the reports: the rows that are
    committed, the rows the open transaction has inserted, and the objects
    added since the last flush. *)
Record session : Type := {
  committed : list Report;
  flushed : list Report;
  pending : list Report
}.

(** [db.session.add(report)] *)
Definition add (s : session) (report : Report) : session :=
  {| committed := committed s;
     flushed := flushed s;
     pending := (pending s ++ [report])%list |}.

(** [db.session.flush()]: the pending objects are inserted, and an
    integer that does not fit its column raises. *)
Definition flush (s : session) : result session :=
  if forallb storable (pending s)
  then Ok {| committed := committed s;
             flushed := (flushed s ++ pending s)%list;
             pending := [] |}
  else Raise OverflowError.

(** [db.session.commit()] flushes, then ends the transaction. *)
Definition commit (s : session) : result session :=
  s <- flush s ;;
  Ok {| committed := (committed s ++ flushed s)%list;
        flushed := [];
        pending := [] |}.

(** [db.session.rollback()] *)
Definition rollback (s : session) : session :=
  {| committed := committed s; flushed := []; pending := [] |}.

(** [Report.query.filter_by(report_id=rid).first()]: the session flushes
    before the query runs, and the query sees what the transaction has
    inserted. *)
Definition first_by_report_id (s : session) (rid : string)
  : result (option Report * session) :=
  s <- flush s ;;
  Ok (find (fun r => String.eqb (report_id r) rid)
           (committed s ++ flushed s)%list, s).

(** The state of the loop of [upload]. *)
Record upload_state : Type := {
  db_session : session;
  flashed : list flash;
  reports_saved : Z
}.

(** The body of [for report in parse_report_file(...)], over the reports
    the generator yields: the state the loop is left in, and the exception
    that ended it, if one did. *)
Fixpoint upload_loop (reports : list Report) (st : upload_state)
  : upload_state * option exn :=
  match reports with
  | [] => (st, None)
  | report :: rest =>
      match first_by_report_id (db_session st) (report_id report) with
      | Raise exc => (st, Some exc)
      | Ok (Some existing, s) =>
          upload_loop rest
            {| db_session := s;
               flashed :=
                 (flashed st ++ [(already_loaded (report_id report), "info")])%list;
               reports_saved := reports_saved st |}
      | Ok (None, s) =>
          upload_loop rest
            {| db_session := add s report;
               flashed := flashed st;
               reports_saved := reports_saved st + 1 |}
      end
  end.

(** The two [except] clauses of [upload]. *)
Definition upload_except (st : upload_state) (exc : exn)
  : list Report * list flash :=
  (committed (rollback (db_session st)),
   (flashed st ++
      [if is_UploadError exc then (str_of_exception exc, "danger")
       else (unexpected exc, "danger")])%list).

Section Upload.

Variable fromstring : Py.bytes -> ET.fromstring_result.
Variable gzip_decompress : Py.bytes -> result Py.bytes.
Variable ZipFile : Py.bytes -> result zipfile.ZipFile.

(** [upload()] for a POST request: [file] is [request.files.get("report")],
    [db] the committed rows of the table.  Returns the committed rows and
    the messages flashed.  The generator is resumed only after the body of
    the loop has run for the report before: an exception of the body ends
    the loop before the generator can raise. *)
Definition upload (file : option werkzeug.FileStorage) (db : list Report)
  : list Report * list flash :=
  match file with
  | None => (db, [(choose_a_file, "warning")])
  | Some file =>
      if String.eqb (werkzeug.filename file) "" then (db, [(choose_a_file, "warning")])
      else
        let g := parse_report_file fromstring gzip_decompress ZipFile
                   (werkzeug.stream file) (werkzeug.filename file) in
        let (st, failed) :=
          upload_loop (yielded g)
            {| db_session := {| committed := db; flushed := []; pending := [] |};
               flashed := [];
               reports_saved := 0 |} in
        match failed with
        | Some exc => upload_except st exc
        | None =>
            match raised g with
            | Some exc => upload_except st exc
            | None =>
                match commit (db_session st) with
                | Raise exc => upload_except st exc
                | Ok s =>
                    (committed s,
                     (flashed st ++ [(loaded (reports_saved st), "success")])%list)
                end
            end
        end
  end.

End Upload.

(** [request.form]: what [form.get(key)] returns. *)
Definition form : Type := string -> option string.

(** The assignments of [settings()] for a POST of the mail form. *)
Definition update_settings (request_form : form) (settings : MailSettings)
  : result MailSettings :=
  let mail_server := PyOr.or_opt (request_form "mail_server") (mail_server settings) in
  mail_port <- Py.int (Py.or_int (request_form "mail_port")
                         (PyOr.int_or (mail_port settings) 0)) ;;
  let mail_port := PyOr.or_None mail_port in
  let connection_type :=
    PyOr.or_opt (request_form "connection_type") (connection_type settings) in
  let username := PyOr.or_opt (request_form "username") (username settings) in
  let password := request_form "password" in
  let password := if Py.truthy password then password else Tables.password settings in
  let use_ssl := Some (Py.truthy (request_form "use_ssl")) in
  let smtp_server := PyOr.or_opt (request_form "smtp_server") (smtp_server settings) in
  smtp_port <- Py.int (Py.or_int (request_form "smtp_port")
                         (PyOr.int_or (smtp_port settings) 0)) ;;
  let smtp_port := PyOr.or_None smtp_port in
  let use_tls := Some (Py.truthy (request_form "use_tls")) in
  let sender := PyOr.or_opt (request_form "sender") (sender settings) in
  Ok {| mail_server := mail_server;
        mail_port := mail_port;
        connection_type := connection_type;
        username := username;
        password := password;
        use_ssl := use_ssl;
        smtp_server := smtp_server;
        smtp_port := smtp_port;
        use_tls := use_tls;
        sender := sender |}.

(** [db.session.add(schedule)] and [db.session.commit()] on the table of
    the schedules: the row goes after the others, when its [days_back]
    fits the column. *)
Definition add_and_commit (schedules : list ScheduledReport)
    (schedule : ScheduledReport) : result (list ScheduledReport) :=
  match days_back schedule with
  | Some n =>
      if sqlite3.fits_integer n then Ok (schedules ++ [schedule])%list
      else Raise OverflowError
  | None => Ok (schedules ++ [schedule])%list
  end.

(** [create_schedule()]: the rows of the table of schedules afterwards,
    and the message flashed. *)
Definition create_schedule (request_form : form) (schedules : list ScheduledReport)
  : result (list ScheduledReport * flash) :=
  let name := request_form "name" in
  let recipient := request_form "recipient" in
  days_back <- Py.int (Py.or_int (request_form "days_back") 7) ;;
  let frequency := Py.or_str (request_form "frequency") "semanal" in
  let domain_filter := PyOr.or_opt (request_form "domain_filter") None in
  if negb (Py.truthy name) || negb (Py.truthy recipient) then
    Ok (schedules, (complete_name_and_recipient, "warning"))
  else
    let schedule :=
      {| Tables.name := name;
         Tables.recipient := recipient;
         Tables.days_back := Some days_back;
         Tables.frequency := Some frequency;
         Tables.domain_filter := domain_filter;
         Tables.last_sent_at := None |} in
    schedules <- add_and_commit schedules schedule ;;
    Ok (schedules, (schedule_created, "success")).

End Routes.

(** ** Views of an upload used in the statements *)

Module Uploaded.

Import Models.

(** Whether a [report_id] is among those seen. *)
Definition known (seen : list string) (rid : string) : bool :=
  existsb (fun s => String.eqb s rid) seen.

(** The reports of a sequence that come with a [report_id] for the first
    time: it is none of [seen] and of no earlier report of the sequence. *)
Fixpoint new_reports (seen : list string) (reports : list Report) : list Report :=
  match reports with
  | [] => []
  | r :: rest =>
      if known seen (report_id r) then new_reports seen rest
      else r :: new_reports (seen ++ [report_id r]) rest
  end.

(** The other reports of the sequence: their [report_id] is one of [seen]
    or of an earlier report. *)
Fixpoint repeated_reports (seen : list string) (reports : list Report)
  : list Report :=
  match reports with
  | [] => []
  | r :: rest =>
      if known seen (report_id r) then r :: repeated_reports seen rest
      else repeated_reports (seen ++ [report_id r]) rest
  end.

(** The message flashed for a report that is not new. *)
Definition already_loaded (r : Report) : Routes.flash :=
  (Routes.already_loaded (report_id r), "info").

(** All the rows of a session, in the order they were added. *)
Definition rows (s : Routes.session) : list Report :=
  (Routes.committed s ++ Routes.flushed s ++ Routes.pending s)%list.

(** Whether every flush of the loop goes through: the loop flushes what
    is pending before it looks at a report, so the last new report of the
    sequence is not flushed by the loop. *)
Definition loop_flushes (pending : list Report) (seen : list string)
    (reports : list Report) : bool :=
  match reports with
  | [] => true
  | _ :: _ =>
      forallb Routes.storable (pending ++ new_reports seen (removelast reports))
  end.

End Uploaded.

(** ** More samples *)

Module MoreSamples.

Import ET Samples.

Definition metadata_2023 : Element :=
  node "report_metadata" [leaf "report_id" "r-3"; date_range "1700000000" "1700003600"].

Definition metadata_other : Element :=
  node "report_metadata" [leaf "report_id" "r-4"; date_range "x" "y"].

Definition policy_example : Element :=
  node "policy_published" [leaf "domain" "example.com"].

(** A second [report_metadata] after the record. *)
Definition doc_two_metadata : Element :=
  node "feedback" [metadata_2023; policy_example; record_10_0_0_1; metadata_other].

Definition doc_one_metadata : Element :=
  node "feedback" [metadata_2023; policy_example; record_10_0_0_1].

(** The first [report_metadata] is empty, the second one is not. *)
Definition doc_empty_first_metadata : Element :=
  node "feedback"
    [empty "report_metadata"; metadata_2023; policy_example; record_10_0_0_1].

Definition metadata_documents (b : Byte.byte) : option Element :=
  match b with
  | x01 => Some doc_two_metadata
  | x02 => Some doc_one_metadata
  | _ => None
  end.

(** An archive that holds a directory entry and nothing else. *)
Definition archive_of_directories : zipfile.ZipFile :=
  {| zipfile.infolist := [member "dir/"];
     zipfile.read := fun _ => Ok [] |}.

(** A document with a [version] element before the metadata. *)
Definition doc_with_version : Element :=
  node "feedback"
    [leaf "version" "1.0"; metadata_2023; policy_example; record_10_0_0_1].

Definition version_documents (b : Byte.byte) : option Element :=
  match b with
  | x01 => Some doc_with_version
  | x02 => Some doc_one_metadata
  | _ => None
  end.

Definition zip_upload : werkzeug.FileStorage :=
  {| werkzeug.stream := []; werkzeug.filename := "Reports.ZIP" |}.

Definition xml_upload : werkzeug.FileStorage :=
  {| werkzeug.stream := [x01]; werkzeug.filename := "report.xml" |}.

(** A form with the given fields; every other key is missing. *)
Fixpoint form_of (fields : list (string * string)) : Routes.form :=
  fun key =>
    match fields with
    | [] => None
    | (k, v) :: rest => if String.eqb k key then Some v else form_of rest key
    end.

Definition mail_form : Routes.form :=
  form_of [("form_type", "mail"); ("mail_server", "imap.example.com");
           ("mail_port", "0"); ("smtp_port", "2525"); ("use_tls", "on")].

Definition schedule_form : Routes.form :=
  form_of [("name", "weekly"); ("recipient", "postmaster@example.com")].

Definition schedule_form_bad_days : Routes.form :=
  form_of [("days_back", "a week")].

(** A record that counts 2^63 messages. *)
Definition doc_huge_count : Element :=
  feedback [leaf "report_id" "r-9"; date_range "1700000000" "1700003600"]
           [leaf "domain" "example.com"]
           [record (leaf "source_ip" "10.0.0.1") (leaf "count" "9223372036854775808")].

Definition huge_documents (b : Byte.byte) : option Element :=
  match b with
  | x01 => Some doc_scenario
  | x02 => Some doc_huge_count
  | x03 => Some doc_with_skipped
  | _ => None
  end.

(** The archive that holds [a.xml] twice. *)
Definition archive_twice : zipfile.ZipFile :=
  {| zipfile.infolist := [member "a.xml"; member "a.xml"; member "c.xml"];
     zipfile.read := zipfile.read archive |}.

Definition schedule_form_huge_days : Routes.form :=
  form_of [("name", "weekly"); ("recipient", "postmaster@example.com");
           ("days_back", "9223372036854775808")].

Definition old_settings : Tables.MailSettings :=
  {| Tables.mail_server := None;
     Tables.mail_port := Some 993;
     Tables.connection_type := Some "IMAP";
     Tables.username := Some "dmarc";
     Tables.password := Some "secret";
     Tables.use_ssl := Some true;
     Tables.smtp_server := Some "smtp.example.com";
     Tables.smtp_port := None;
     Tables.use_tls := Some true;
     Tables.sender := None |}.

Definition weekly : Tables.ScheduledReport :=
  {| Tables.name := Some "weekly";
     Tables.recipient := Some "postmaster@example.com";
     Tables.domain_filter := None;
     Tables.days_back := Some 7;
     Tables.frequency := Some "semanal";
     Tables.last_sent_at := None |}.

End MoreSamples.

(** ** Basic facts on the builtins and on element lookup *)

Section BuiltinFacts.

Lemma truthy_or_str (v : option string) :
  Py.truthy (Some (Py.or_str v "")) = Py.truthy v.
Proof.
  destruct v as [[|c s]|]; reflexivity.
Qed.

Lemma or_str_truthy (v : option string) (d : string) :
  Py.truthy v = true -> v = Some (Py.or_str v d).
Proof.
  destruct v as [[|c s]|]; simpl; intros H; try discriminate; reflexivity.
Qed.

Lemma or_str_falsy (v : option string) (d : string) :
  Py.truthy v = false -> Py.or_str v d = d.
Proof.
  destruct v as [[|c s]|]; simpl; intros H; try discriminate; reflexivity.
Qed.

Lemma truthy_nonempty (s : string) :
  Py.truthy (Some s) = true -> s <> EmptyString.
Proof.
  destruct s; simpl; intros H; congruence.
Qed.

Lemma int_or_int_falsy (v : option string) (d : Z) :
  Py.truthy v = false -> Py.int (Py.or_int v d) = Ok d.
Proof.
  destruct v as [[|c s]|]; simpl; intros H; try discriminate; reflexivity.
Qed.

Lemma int_or_int_truthy (s : string) (d : Z) :
  Py.truthy (Some s) = true ->
  Py.int (Py.or_int (Some s) d) = Py.int_of_str s.
Proof.
  destruct s; simpl; intros H; try discriminate; reflexivity.
Qed.

Lemma int_or_int_numeric (v : option string) (c : Z) :
  Py.int (Py.or_int v 0) = Ok c <-> Doc.numeric_or_empty v c.
Proof.
  unfold Doc.numeric_or_empty. split.
  - intros H. destruct (Py.truthy v) eqn:T.
    + right. destruct v as [s|]; [|discriminate].
      rewrite (int_or_int_truthy s 0 T) in H. eauto.
    + left. rewrite (int_or_int_falsy v 0 T) in H. split; congruence.
  - intros [[T ->]|(s & -> & T & H)].
    + now apply int_or_int_falsy.
    + now rewrite int_or_int_truthy.
Qed.

Lemma int_unsigned_raises (s : string) (e : exn) :
  Py.int_unsigned s = Raise e -> e = ValueError.
Proof.
  unfold Py.int_unsigned. destruct s as [|c s]; [congruence|].
  destruct (Py.is_digit c); [|congruence].
  destruct (Py.scan_digits s (Py.digit_val c) 1) as [[[v n] tl]|]; [|congruence].
  destruct (Py.all_space tl && (n <=? Py.int_max_str_digits)%N); congruence.
Qed.

(** [int] raises nothing but [ValueError]. *)
Lemma int_of_str_raises (s : string) (e : exn) :
  Py.int_of_str s = Raise e -> e = ValueError.
Proof.
  unfold Py.int_of_str.
  destruct (Py.lstrip s) as [|c t] eqn:E.
  - apply int_unsigned_raises.
  - destruct (Ascii.eqb c "+") eqn:Hp.
    + apply Ascii.eqb_eq in Hp. subst c. apply int_unsigned_raises.
    + destruct (Ascii.eqb c "-") eqn:Hm.
      * apply Ascii.eqb_eq in Hm. subst c.
        destruct (Py.int_unsigned t) eqn:U; simpl; [congruence|].
        intros H. injection H as <-. eapply int_unsigned_raises; eassumption.
      * intros H.
        assert (U : Py.int_unsigned (String c t) = Raise e).
        { destruct c as [[] [] [] [] [] [] [] []]; try discriminate; exact H. }
        eapply int_unsigned_raises; eassumption.
Qed.

Lemma int_of_str_empty : Py.int_of_str "" = Raise ValueError.
Proof. reflexivity. Qed.

Lemma int_of_str_ok_truthy (s : string) (n : Z) :
  Py.int_of_str s = Ok n -> Py.truthy (Some s) = true.
Proof.
  destruct s; [discriminate|reflexivity].
Qed.

Lemma select_one (t : string) (root : ET.Element) :
  ET.select [t] [root]
  = filter (fun c => String.eqb (ET.tag c) t) (ET.children root).
Proof.
  cbn [ET.select ET.select_child flat_map]. apply app_nil_r.
Qed.

Lemma select_two (a b : string) (root : ET.Element) :
  ET.select [a; b] [root]
  = flat_map (fun e => filter (fun c => String.eqb (ET.tag c) b) (ET.children e))
      (filter (fun c => String.eqb (ET.tag c) a) (ET.children root)).
Proof.
  cbn [ET.select]. unfold ET.select_child at 2.
  cbn [flat_map]. rewrite app_nil_r. reflexivity.
Qed.

(** When no [a/b] path leaves the root, the element the parser takes for
    [a] has no child [b]. *)
Lemma nested_absent (a b : string) (root : ET.Element) :
  hd_error (ET.select [a; b] [root]) = None ->
  hd_error (ET.select [b] [ET.or_element (hd_error (ET.select [a] [root])) (ET.new a)])
  = None.
Proof.
  rewrite select_two, !select_one.
  destruct (filter (fun c => String.eqb (ET.tag c) a) (ET.children root))
    as [|x xs]; [reflexivity|].
  cbn [hd_error ET.or_element flat_map].
  destruct (ET.truthy x); [|reflexivity].
  destruct (filter (fun c => String.eqb (ET.tag c) b) (ET.children x));
    [reflexivity|discriminate].
Qed.

Lemma absent_or_empty_falsy (parent : ET.Element) (path : string) :
  Doc.absent_or_empty parent path ->
  Py.truthy (_find_text parent path) = false.
Proof.
  unfold _find_text. intros [H|(el & H & [T|T])]; rewrite H; [|rewrite T..];
    reflexivity.
Qed.

Lemma falsy_absent_or_empty (parent : ET.Element) (path : string) :
  Py.truthy (_find_text parent path) = false ->
  Doc.absent_or_empty parent path.
Proof.
  unfold _find_text, Doc.absent_or_empty.
  destruct (ET.find parent path) as [el|]; [|now left].
  intros H. right. exists el. split; [reflexivity|].
  destruct (ET.text el) as [[|c s]|]; simpl in H; try discriminate; auto.
Qed.

End BuiltinFacts.

(** ** The loop over the records *)

Section RecordLoop.

Import Models.

Lemma record_loop_skipped (e : ET.Element) (rest : list ET.Element) (r : Report) :
  Doc.skipped e = true -> record_loop (e :: rest) r = record_loop rest r.
Proof.
  unfold Doc.skipped. intros H. cbn [record_loop].
  rewrite truthy_or_str, H. reflexivity.
Qed.

Lemma record_loop_kept (e : ET.Element) (rest : list ET.Element) (r : Report) :
  Doc.skipped e = false ->
  record_loop (e :: rest) r
  = (count <- Py.int (Py.or_int (_find_text e "row/count") 0) ;;
     record_loop rest (append_record r (Doc.record_of e count))).
Proof.
  unfold Doc.skipped. intros H. cbn [record_loop].
  rewrite truthy_or_str, H. reflexivity.
Qed.

Lemma record_of_maps_to (e : ET.Element) (c : Z) :
  Doc.skipped e = false ->
  Py.int (Py.or_int (_find_text e "row/count") 0) = Ok c ->
  Doc.maps_to e (Doc.record_of e c).
Proof.
  unfold Doc.skipped. intros K C.
  apply negb_false_iff in K.
  unfold Doc.maps_to, Doc.record_of; cbn [source_ip count disposition dkim_aligned
    spf_aligned header_from envelope_from auth_dkim_domain auth_spf_domain].
  repeat split.
  - now apply or_str_truthy.
  - apply truthy_nonempty. now rewrite truthy_or_str.
  - now apply int_or_int_numeric.
Qed.

(** A skipped element anywhere in the list leaves the loop unchanged. *)
Lemma record_loop_remove (pre post : list ET.Element) (e : ET.Element) :
  Doc.skipped e = true ->
  forall r, record_loop (pre ++ e :: post) r = record_loop (pre ++ post) r.
Proof.
  intros S. induction pre as [|x pre IH]; intros r; cbn [app].
  - now apply record_loop_skipped.
  - destruct (Doc.skipped x) eqn:X.
    + rewrite !record_loop_skipped by assumption. apply IH.
    + rewrite !record_loop_kept by assumption.
      destruct (Py.int _) as [c|err]; cbn [bind]; [apply IH|reflexivity].
  Qed.

(** What a run of the loop that returns has appended. *)
Lemma record_loop_ok (els : list ET.Element) :
  forall r0 r, record_loop els r0 = Ok r ->
  exists rs, r = set_records r0 (records r0 ++ rs)
             /\ Forall2 Doc.maps_to (filter Doc.kept els) rs.
Proof.
  induction els as [|e els IH]; intros r0 r H.
  - cbn in H. injection H as <-. exists []. split; [|constructor].
    rewrite app_nil_r. now destruct r0.
  - cbn [filter]. unfold Doc.kept at 1. destruct (Doc.skipped e) eqn:S.
    + rewrite record_loop_skipped in H by assumption. cbn [negb]. now apply IH.
    + rewrite record_loop_kept in H by assumption. cbn [negb].
      destruct (Py.int _) as [c|err] eqn:C; cbn [bind] in H; [|discriminate].
      destruct (IH _ _ H) as (rs & -> & F).
      exists (Doc.record_of e c :: rs). split.
      * unfold append_record, set_records; cbn. now rewrite <- app_assoc.
      * constructor; [now apply record_of_maps_to|exact F].
Qed.

(** The loop returns when every kept element has a numeric or empty
    [row/count]. *)
Lemma record_loop_total (els : list ET.Element) :
  Forall (fun e => Doc.kept e = true ->
                   exists c, Doc.numeric_or_empty (_find_text e "row/count") c) els ->
  forall r0, exists r, record_loop els r0 = Ok r.
Proof.
  induction 1 as [|e els He _ IH]; intros r0.
  - exists r0. reflexivity.
  - destruct (Doc.skipped e) eqn:S.
    + rewrite record_loop_skipped by assumption. apply IH.
    + rewrite record_loop_kept by assumption.
      destruct He as [c Hc]; [unfold Doc.kept; now rewrite S|].
      apply int_or_int_numeric in Hc. rewrite Hc. cbn [bind]. apply IH.
Qed.

(** When every element is skipped the report is returned as it came. *)
Lemma record_loop_all_skipped (els : list ET.Element) (r0 : Report) :
  Forall (fun e => Doc.skipped e = true) els ->
  record_loop els r0 = Ok r0.
Proof.
  induction 1 as [|e els He _ IH]; [reflexivity|].
  now rewrite record_loop_skipped.
Qed.

Lemma filter_kept_all (els : list ET.Element) :
  Forall (fun e => Doc.kept e = true) els -> filter Doc.kept els = els.
Proof.
  induction 1 as [|e els He _ IH]; [reflexivity|].
  cbn [filter]. now rewrite He, IH.
Qed.

End RecordLoop.

(** ** [_parse_xml] step by step *)

Section ParseXml.

Import Models.

Variable fromstring : Py.bytes -> ET.fromstring_result.

Lemma parse_xml_parsed (xml_bytes : Py.bytes) (filename : string)
    (root : ET.Element) :
  fromstring xml_bytes = ET.Parsed root ->
  _parse_xml fromstring xml_bytes filename
  = (date_start <- _ts (Doc.begin_text root) ;;
     date_end <- _ts (Doc.end_text root) ;;
     match date_start, date_end with
     | Some date_start, Some date_end =>
         pct <- Py.int (Py.or_int (Doc.pct_text root) 0) ;;
         report <- record_loop (ET.findall root "record")
                     (Doc.header root filename date_start date_end pct) ;;
         match records report with
         | [] => Raise (UploadError2 Messages.no_traffic_records filename)
         | _ :: _ => Ok report
         end
     | _, _ => Raise (UploadError2 Messages.invalid_date_range filename)
     end).
Proof.
  intros H. unfold _parse_xml. rewrite H. reflexivity.
Qed.

(** What is known of a document for which a report is returned. *)
Lemma parse_xml_ok (xml_bytes : Py.bytes) (filename : string)
    (root : ET.Element) (report : Report) :
  fromstring xml_bytes = ET.Parsed root ->
  _parse_xml fromstring xml_bytes filename = Ok report ->
  exists date_start date_end pct rs,
    _ts (Doc.begin_text root) = Ok (Some date_start)
    /\ _ts (Doc.end_text root) = Ok (Some date_end)
    /\ Py.int (Py.or_int (Doc.pct_text root) 0) = Ok pct
    /\ report = set_records (Doc.header root filename date_start date_end pct) rs
    /\ rs <> []
    /\ Forall2 Doc.maps_to (filter Doc.kept (ET.findall root "record")) rs.
Proof.
  intros P H. rewrite (parse_xml_parsed _ _ _ P) in H.
  destruct (_ts (Doc.begin_text root)) as [[ds|]|] eqn:B; cbn [bind] in H;
    try discriminate;
    destruct (_ts (Doc.end_text root)) as [[de|]|] eqn:E; cbn [bind] in H;
    try discriminate.
  destruct (Py.int _) as [pct|] eqn:Pc; cbn [bind] in H; [|discriminate].
  destruct (record_loop _ _) as [r|] eqn:L; cbn [bind] in H; [|discriminate].
  destruct (record_loop_ok _ _ _ L) as (rs & -> & F).
  cbn [Doc.header records set_records app] in H.
  destruct rs as [|x rs]; [discriminate|]. injection H as <-.
  exists ds, de, pct, (x :: rs). repeat split; try assumption. discriminate.
Qed.

(** [_parse_xml] raises nothing that the zip branch would catch. *)
Lemma ts_raises (v : option string) (e : exn) :
  _ts v = Raise e -> e = OSError \/ e = OverflowError.
Proof.
  unfold _ts. destruct v as [s|]; [|discriminate].
  destruct (negb (Py.truthy (Some s))); [discriminate|].
  cbn [Py.int].
  destruct (Py.int_of_str s) as [n|e1] eqn:I; cbn [bind].
  - unfold DT.utcfromtimestamp, DT.gmtime.
    destruct (_ && _); [|intros H; injection H as <-; now right].
    destruct (DT.civil_from_days _) as [[y m] d].
    destruct (_ && _); cbn [bind].
    + destruct (_ && _); cbn [is_ValueError]; discriminate.
    + cbn [is_ValueError]. intros H; injection H as <-; now left.
  - apply int_of_str_raises in I. subst e1. discriminate.
Qed.

Lemma int_raises (v : Py.str_or_int) (e : exn) :
  Py.int v = Raise e -> e = ValueError.
Proof.
  destruct v; [apply int_of_str_raises|discriminate].
Qed.

Lemma record_loop_raises (els : list ET.Element) :
  forall r0 e, record_loop els r0 = Raise e -> e = ValueError.
Proof.
  induction els as [|x els IH]; intros r0 e H; [discriminate|].
  destruct (Doc.skipped x) eqn:S.
  - rewrite record_loop_skipped in H by assumption. eapply IH; eassumption.
  - rewrite record_loop_kept in H by assumption.
    destruct (Py.int _) as [c|e1] eqn:C; cbn [bind] in H.
    + eapply IH; eassumption.
    + injection H as <-. eapply int_raises; eassumption.
Qed.

Lemma parse_xml_raises (xml_bytes : Py.bytes) (filename : string) (e : exn) :
  _parse_xml fromstring xml_bytes filename = Raise e ->
  is_BadZipFile_or_KeyError e = false.
Proof.
  unfold _parse_xml. destruct (fromstring xml_bytes) as [root| | |].
  2,3,4:(intros H; injection H as <-; reflexivity).
  fold (Doc.metadata root) (Doc.policy root).
  destruct (_ts _) as [ds|e1] eqn:B; cbn [bind].
  2:{ intros H; injection H as <-. now destruct (ts_raises _ _ B) as [-> | ->]. }
  destruct (_ts (_find_text (Doc.metadata root) "date_range/end")) as [de|e1] eqn:E;
    cbn [bind].
  2:{ intros H; injection H as <-. now destruct (ts_raises _ _ E) as [-> | ->]. }
  destruct ds as [ds|]; [destruct de as [de|]|];
    try (intros H; injection H as <-; reflexivity).
  destruct (Py.int _) as [pct|e1] eqn:Pc; cbn [bind].
  2:{ intros H; injection H as <-. now rewrite (int_raises _ _ Pc). }
  destruct (record_loop _ _) as [r|e1] eqn:L; cbn [bind].
  2:{ intros H; injection H as <-. now rewrite (record_loop_raises _ _ _ L). }
  destruct (records r); [|discriminate].
  intros H; injection H as <-; reflexivity.
Qed.

End ParseXml.

(** ** The calendar *)

Section Calendar.

Import DT.

Lemma cycle_table : days_ok cycle_length 0 = true.
Proof. vm_compute. reflexivity. Qed.

Lemma days_ok_all (n : nat) :
  forall i, days_ok n i = true ->
  forall k, i <= k < i + Z.of_nat n -> cycle_day_ok k = true.
Proof.
  induction n as [|n IH]; intros i H k R; [lia|].
  cbn [days_ok] in H. destruct (cycle_day_ok i) eqn:E; [|discriminate].
  destruct (Z.eq_dec k i) as [->|N]; [exact E|].
  apply (IH (i + 1) H). lia.
Qed.

Lemma cycle_length_Z : Z.of_nat cycle_length = 146097.
Proof. unfold cycle_length. apply Z2Nat.id. discriminate. Qed.

Lemma cycle_day (doe : Z) : 0 <= doe < 146097 -> cycle_day_ok doe = true.
Proof.
  intros H. apply (days_ok_all cycle_length 0 cycle_table).
  rewrite cycle_length_Z. lia.
Qed.

Lemma civil_shift (z k : Z) :
  civil_from_days (z + 146097 * k)
  = let '(y, m, d) := civil_from_days z in (y + 400 * k, m, d).
Proof.
  unfold civil_from_days.
  replace (z + 146097 * k + 719468) with (z + 719468 + k * 146097) by lia.
  rewrite Z.div_add by lia.
  set (era := (z + 719468) / 146097).
  replace (z + 719468 + k * 146097 - (era + k) * 146097)
    with (z + 719468 - era * 146097) by lia.
  set (doe := z + 719468 - era * 146097).
  set (yoe := (doe - doe / 1460 + doe / 36524 - doe / 146096) / 365).
  set (doy := doe - (365 * yoe + yoe / 4 - yoe / 100)).
  set (mp := (5 * doy + 2) / 153).
  destruct ((if mp <? 10 then mp + 3 else mp - 9) <=? 2); f_equal; f_equal; lia.
Qed.

Lemma days_shift (y m d k : Z) :
  days_from_civil (y + 400 * k) m d = days_from_civil y m d + 146097 * k.
Proof.
  unfold days_from_civil.
  assert (E : (if m <=? 2 then y + 400 * k - 1 else y + 400 * k)
              = (if m <=? 2 then y - 1 else y) + k * 400)
    by (destruct (m <=? 2); lia).
  rewrite E. set (y' := if m <=? 2 then y - 1 else y).
  rewrite Z.div_add by lia.
  replace (y' + k * 400 - (y' / 400 + k) * 400) with (y' - y' / 400 * 400) by lia.
  lia.
Qed.

Lemma cycle_split (z : Z) :
  exists era doe, 0 <= doe < 146097 /\ z = doe - 719468 + 146097 * era.
Proof.
  exists ((z + 719468) / 146097), ((z + 719468) mod 146097).
  pose proof (Z.mod_pos_bound (z + 719468) 146097 ltac:(lia)).
  pose proof (Z.div_mod (z + 719468) 146097 ltac:(lia)). lia.
Qed.

Lemma days_from_civil_from_days (z : Z) :
  let '(y, m, d) := civil_from_days z in days_from_civil y m d = z.
Proof.
  destruct (cycle_split z) as (era & doe & R & ->).
  rewrite civil_shift. pose proof (cycle_day doe R) as T.
  unfold cycle_day_ok in T.
  destruct (civil_from_days (doe - 719468)) as [[y m] d].
  rewrite days_shift.
  rewrite !andb_true_iff in T. destruct T as [[[[[[[[T _] _] _] _] _] _] _] _].
  apply Z.eqb_eq in T. lia.
Qed.

Lemma year_of_days_shift (z k : Z) :
  year_of_days (z + 146097 * k) = year_of_days z + 400 * k.
Proof.
  unfold year_of_days. rewrite civil_shift.
  now destruct (civil_from_days z) as [[y m] d].
Qed.

Lemma year_of_days_step (z : Z) : year_of_days z <= year_of_days (z + 1).
Proof.
  destruct (cycle_split z) as (era & doe & R & ->).
  replace (doe - 719468 + 146097 * era + 1)
    with (doe + 1 - 719468 + 146097 * era) by lia.
  rewrite !year_of_days_shift.
  pose proof (cycle_day doe R) as T. unfold cycle_day_ok in T.
  unfold year_of_days at 1.
  destruct (civil_from_days (doe - 719468)) as [[y m] d]. cbn [fst].
  rewrite !andb_true_iff in T. destruct T as [[[[[[[[_ _] _] T] _] _] _] _] _].
  apply Z.leb_le in T. lia.
Qed.

Lemma year_of_days_mono (z1 z2 : Z) :
  z1 <= z2 -> year_of_days z1 <= year_of_days z2.
Proof.
  intros H. replace z2 with (z1 + Z.of_nat (Z.to_nat (z2 - z1))) by lia.
  induction (Z.to_nat (z2 - z1)) as [|n IH].
  - rewrite Z.add_0_r. lia.
  - replace (z1 + Z.of_nat (S n)) with (z1 + Z.of_nat n + 1) by lia.
    pose proof (year_of_days_step (z1 + Z.of_nat n)). lia.
Qed.

Lemma epoch_of_gmtime (n : Z) (t : datetime) :
  gmtime n = Ok t -> to_epoch t = n /\ year t = year_of_days (n / 86400).
Proof.
  unfold gmtime, year_of_days.
  pose proof (days_from_civil_from_days (n / 86400)) as R.
  destruct (civil_from_days (n / 86400)) as [[y m] d].
  destruct (_ && _); [|discriminate].
  intros H. injection H as <-. unfold to_epoch. cbn [year month day hour minute second fst].
  rewrite R. split; [|reflexivity].
  Z.to_euclidean_division_equations. lia.
Qed.

Lemma year_bounds :
  year_of_days (min_timestamp / 86400) = 1
  /\ year_of_days (min_timestamp / 86400 - 1) = 0
  /\ year_of_days (max_timestamp / 86400) = 9999
  /\ year_of_days (max_timestamp / 86400 + 1) = 10000
  /\ year_of_days (Doc.gmtime_min / 86400) = 1900 - 2 ^ 31
  /\ year_of_days (Doc.gmtime_max / 86400) = 1899 + 2 ^ 31.
Proof. vm_compute. repeat split. Qed.

(** Inside the years 1 to 9999 the conversion returns the datetime of
    the instant. *)
Lemma utcfromtimestamp_in_range (n : Z) :
  min_timestamp <= n <= max_timestamp ->
  exists t, utcfromtimestamp n = Ok t /\ to_epoch t = n.
Proof.
  intros R. destruct year_bounds as (Y1 & _ & Y2 & _).
  assert (D : min_timestamp / 86400 <= n / 86400 <= max_timestamp / 86400)
    by (split; apply Z.div_le_mono; lia).
  pose proof (year_of_days_mono _ _ (proj1 D)) as L.
  pose proof (year_of_days_mono _ _ (proj2 D)) as U.
  rewrite Y1 in L. rewrite Y2 in U.
  unfold utcfromtimestamp.
  assert (T : (- 2 ^ 63 <=? n) && (n <? 2 ^ 63) = true).
  { unfold min_timestamp, max_timestamp in R.
    apply andb_true_iff. split; [apply Z.leb_le|apply Z.ltb_lt]; lia. }
  rewrite T.
  destruct (gmtime n) as [t|e] eqn:G.
  - destruct (epoch_of_gmtime _ _ G) as [E Y]. cbn [bind].
    assert (C : (MINYEAR <=? year t) && (year t <=? MAXYEAR) = true).
    { rewrite Y. unfold MINYEAR, MAXYEAR.
      apply andb_true_iff. split; apply Z.leb_le; lia. }
    rewrite C. eauto.
  - exfalso. unfold gmtime in G. fold (year_of_days (n / 86400)) in L, U.
    unfold year_of_days in L, U.
    destruct (civil_from_days (n / 86400)) as [[y m] d]. cbn [fst] in L, U.
    assert (C : (- 2 ^ 31 <=? y - 1900) && (y - 1900 <? 2 ^ 31) = true)
      by (apply andb_true_iff; split; [apply Z.leb_le|apply Z.ltb_lt]; lia).
    rewrite C in G. discriminate.
Qed.

Lemma utcfromtimestamp_ok (n : Z) (t : datetime) :
  utcfromtimestamp n = Ok t ->
  min_timestamp <= n <= max_timestamp /\ to_epoch t = n.
Proof.
  unfold utcfromtimestamp. destruct (_ && _); [|discriminate].
  destruct (gmtime n) as [t'|e] eqn:G; cbn [bind]; [|discriminate].
  destruct (_ && _) eqn:C; [|discriminate].
  intros H. injection H as <-.
  destruct (epoch_of_gmtime _ _ G) as [E Y]. split; [|exact E].
  apply andb_true_iff in C. destruct C as [C1 C2].
  apply Z.leb_le in C1, C2. rewrite Y in C1, C2. unfold MINYEAR, MAXYEAR in *.
  destruct year_bounds as (_ & Y0 & _ & Y3 & _).
  split.
  - destruct (Z_lt_le_dec n min_timestamp) as [Lt|]; [exfalso|assumption].
    assert (D : n / 86400 <= min_timestamp / 86400 - 1).
    { unfold min_timestamp in *.
      change (-62135596800 / 86400 - 1) with (-719163).
      apply Z.lt_succ_r. apply Z.div_lt_upper_bound; lia. }
    pose proof (year_of_days_mono _ _ D). lia.
  - destruct (Z_lt_le_dec max_timestamp n) as [Lt|]; [exfalso|assumption].
    assert (D : max_timestamp / 86400 + 1 <= n / 86400).
    { unfold max_timestamp in *.
      change (253402300799 / 86400 + 1) with 2932897.
      apply Z.div_le_lower_bound; lia. }
    pose proof (year_of_days_mono _ _ D). lia.
Qed.

(** Outside the years 1 to 9999, and as far as [gmtime_r] goes, the
    conversion raises [ValueError]. *)
Lemma utcfromtimestamp_out_of_range (n : Z) :
  Doc.gmtime_min <= n <= Doc.gmtime_max ->
  ~ (min_timestamp <= n <= max_timestamp) ->
  utcfromtimestamp n = Raise ValueError.
Proof.
  intros P R. destruct year_bounds as (_ & _ & _ & _ & G1 & G2).
  assert (D : Doc.gmtime_min / 86400 <= n / 86400 <= Doc.gmtime_max / 86400)
    by (split; apply Z.div_le_mono; lia).
  pose proof (year_of_days_mono _ _ (proj1 D)) as L.
  pose proof (year_of_days_mono _ _ (proj2 D)) as U.
  rewrite G1 in L. rewrite G2 in U.
  destruct (utcfromtimestamp n) as [t|e] eqn:E.
  - apply utcfromtimestamp_ok in E. tauto.
  - revert E. unfold utcfromtimestamp.
    assert (T : (- 2 ^ 63 <=? n) && (n <? 2 ^ 63) = true).
    { unfold Doc.gmtime_min, Doc.gmtime_max in P.
      apply andb_true_iff. split; [apply Z.leb_le|apply Z.ltb_lt]; lia. }
    rewrite T. unfold gmtime. unfold year_of_days in L, U.
    destruct (civil_from_days (n / 86400)) as [[y m] d]. cbn [fst] in L, U.
    assert (C : (- 2 ^ 31 <=? y - 1900) && (y - 1900 <? 2 ^ 31) = true)
      by (apply andb_true_iff; split; [apply Z.leb_le|apply Z.ltb_lt]; lia).
    rewrite C. cbn [bind year].
    destruct ((MINYEAR <=? y) && (y <=? MAXYEAR)); congruence.
Qed.

Lemma dates_table : dates_ok dates_length 0 = true.
Proof. vm_compute. reflexivity. Qed.

Lemma dates_ok_all (n : nat) :
  forall i, dates_ok n i = true ->
  forall k, i <= k < i + Z.of_nat n -> date_ok k = true.
Proof.
  induction n as [|n IH]; intros i H k R; [lia|].
  cbn [dates_ok] in H. destruct (date_ok i) eqn:E; [|discriminate].
  destruct (Z.eq_dec k i) as [->|N]; [exact E|].
  apply (IH (i + 1) H). lia.
Qed.

Lemma dates_length_Z : Z.of_nat dates_length = 148800.
Proof. unfold dates_length. apply Z2Nat.id. discriminate. Qed.

Lemma is_leap_shift (y k : Z) : is_leap (y + 400 * k) = is_leap y.
Proof.
  unfold is_leap.
  replace (y + 400 * k) with (y + (100 * k) * 4) at 1 by lia.
  replace (y + 400 * k) with (y + (4 * k) * 100) at 1 by lia.
  replace (y + 400 * k) with (y + k * 400) by lia.
  now rewrite !Z.mod_add by lia.
Qed.

Lemma days_in_month_shift (y m k : Z) :
  days_in_month (y + 400 * k) m = days_in_month y m.
Proof.
  unfold days_in_month. now rewrite is_leap_shift.
Qed.

(** The date of a day number is a date of the calendar. *)
Lemma civil_from_days_valid (z : Z) :
  let '(y, m, d) := civil_from_days z in
  1 <= m <= 12 /\ 1 <= d <= days_in_month y m.
Proof.
  destruct (cycle_split z) as (era & doe & R & ->).
  rewrite civil_shift. pose proof (cycle_day doe R) as T.
  unfold cycle_day_ok in T.
  destruct (civil_from_days (doe - 719468)) as [[y m] d].
  rewrite days_in_month_shift.
  rewrite !andb_true_iff in T.
  destruct T as [[[[[[[[_ _] _] _] M1] M2] D1] _] D2].
  apply Z.leb_le in M1, M2, D1, D2. lia.
Qed.

(** In the cycle, the day number of a date converts back to the date. *)
Lemma civil_from_days_from_civil_cycle (y m d : Z) :
  0 <= y < 400 -> 1 <= m <= 12 -> 1 <= d <= days_in_month y m ->
  civil_from_days (days_from_civil y m d) = (y, m, d).
Proof.
  intros Y M D.
  assert (D31 : d <= 31).
  { unfold days_in_month in D.
    destruct (m =? 2); [destruct (is_leap y); lia|].
    destruct ((m =? 4) || (m =? 6) || (m =? 9) || (m =? 11)); lia. }
  set (i := y * 372 + ((m - 1) * 31 + (d - 1))).
  assert (I : 0 <= i < 0 + Z.of_nat dates_length)
    by (rewrite dates_length_Z; unfold i; lia).
  pose proof (dates_ok_all dates_length 0 dates_table i I) as T.
  unfold date_ok in T.
  assert (Q : i / 372 = y)
    by (symmetry; apply (Z.div_unique_pos i 372 y ((m - 1) * 31 + (d - 1)));
        unfold i; lia).
  assert (R : i mod 372 = (m - 1) * 31 + (d - 1))
    by (symmetry; apply (Z.mod_unique_pos i 372 y); unfold i; lia).
  assert (Q' : ((m - 1) * 31 + (d - 1)) / 31 = m - 1)
    by (symmetry; apply (Z.div_unique_pos _ 31 (m - 1) (d - 1)); lia).
  assert (R' : ((m - 1) * 31 + (d - 1)) mod 31 = d - 1)
    by (symmetry; apply (Z.mod_unique_pos _ 31 (m - 1)); lia).
  rewrite Q, R, Q', R' in T.
  replace (m - 1 + 1) with m in T by lia.
  replace (d - 1 + 1) with d in T by lia.
  destruct (d <=? days_in_month y m) eqn:L; [|apply Z.leb_gt in L; lia].
  destruct (civil_from_days (days_from_civil y m d)) as [[y' m'] d'].
  rewrite !andb_true_iff in T. destruct T as [[Ey Em] Ed].
  apply Z.eqb_eq in Ey, Em, Ed. congruence.
Qed.

Lemma civil_from_days_from_civil (y m d : Z) :
  1 <= m <= 12 -> 1 <= d <= days_in_month y m ->
  civil_from_days (days_from_civil y m d) = (y, m, d).
Proof.
  intros M D.
  pose proof (Z.div_mod y 400 ltac:(lia)) as E.
  pose proof (Z.mod_pos_bound y 400 ltac:(lia)) as B.
  set (k := y / 400) in *. set (r := y mod 400) in *.
  assert (Y : y = r + 400 * k) by lia.
  rewrite Y in D |- *. rewrite days_in_month_shift in D.
  rewrite days_shift, civil_shift.
  now rewrite (civil_from_days_from_civil_cycle r m d B M D).
Qed.

Lemma valid_fields (t : datetime) :
  valid t = true ->
  MINYEAR <= year t <= MAXYEAR
  /\ 1 <= month t <= 12
  /\ 1 <= day t <= days_in_month (year t) (month t)
  /\ 0 <= hour t < 24 /\ 0 <= minute t < 60 /\ 0 <= second t < 60.
Proof.
  unfold valid. rewrite !andb_true_iff. rewrite !Z.leb_le, !Z.ltb_lt. lia.
Qed.

(** Two datetimes of the same instant are the same. *)
Lemma to_epoch_injective (t1 t2 : datetime) :
  valid t1 = true -> valid t2 = true -> to_epoch t1 = to_epoch t2 -> t1 = t2.
Proof.
  intros V1 V2 E.
  destruct (valid_fields _ V1) as (_ & M1 & D1 & H1 & I1 & S1).
  destruct (valid_fields _ V2) as (_ & M2 & D2 & H2 & I2 & S2).
  destruct t1 as [y1 m1 d1 h1 i1 s1], t2 as [y2 m2 d2 h2 i2 s2].
  unfold to_epoch in E. cbn [year month day hour minute second] in *.
  assert (Dd : days_from_civil y1 m1 d1 = days_from_civil y2 m2 d2) by lia.
  assert (C : (y1, m1, d1) = (y2, m2, d2)).
  { rewrite <- (civil_from_days_from_civil y1 m1 d1 M1 D1).
    rewrite <- (civil_from_days_from_civil y2 m2 d2 M2 D2).
    now rewrite Dd. }
  injection C as -> -> ->.
  assert (h1 = h2 /\ i1 = i2 /\ s1 = s2) as (-> & -> & ->) by lia.
  reflexivity.
Qed.

(** What the conversion returns is a datetime as the constructor accepts
    it. *)
Lemma utcfromtimestamp_valid (n : Z) (t : datetime) :
  utcfromtimestamp n = Ok t -> valid t = true.
Proof.
  unfold utcfromtimestamp. destruct (_ && _); [|discriminate].
  unfold gmtime. pose proof (civil_from_days_valid (n / 86400)) as V.
  destruct (civil_from_days (n / 86400)) as [[y m] d].
  destruct (_ && _); cbn [bind]; [|discriminate].
  cbn [year]. destruct ((MINYEAR <=? y) && (y <=? MAXYEAR)) eqn:Y; [|discriminate].
  intros H. injection H as <-. unfold valid.
  cbn [year month day hour minute second]. rewrite Y.
  pose proof (Z.mod_pos_bound n 86400 ltac:(lia)) as B.
  set (r := n mod 86400) in *.
  assert (0 <= r / 3600 < 24) by (split; [apply Z.div_pos|apply Z.div_lt_upper_bound]; lia).
  pose proof (Z.mod_pos_bound r 3600 ltac:(lia)).
  assert (0 <= r mod 3600 / 60 < 60) by (split; [apply Z.div_pos|apply Z.div_lt_upper_bound]; lia).
  pose proof (Z.mod_pos_bound r 60 ltac:(lia)).
  cbn [andb].
  repeat (apply andb_true_iff; split);
    try (apply Z.leb_le; lia); try (apply Z.ltb_lt; lia); reflexivity.
Qed.

(** The calendar date and time of the scenario of the specification. *)
Lemma utcfromtimestamp_1700000000 :
  utcfromtimestamp 1700000000 = Ok (mk_datetime 2023 11 14 22 13 20)
  /\ utcfromtimestamp 1700003600 = Ok (mk_datetime 2023 11 14 23 13 20).
Proof. split; reflexivity. Qed.

End Calendar.

(** ** The date range *)

Section DateRange.

Import Models.

Variable fromstring : Py.bytes -> ET.fromstring_result.

Lemma ts_some (v : option string) (t : DT.datetime) :
  _ts v = Ok (Some t) ->
  exists s n, v = Some s /\ Py.int_of_str s = Ok n
              /\ DT.utcfromtimestamp n = Ok t.
Proof.
  unfold _ts. destruct v as [s|]; [|discriminate].
  destruct (negb (Py.truthy (Some s))); [discriminate|].
  cbn [Py.int].
  destruct (Py.int_of_str s) as [n|e] eqn:I; cbn [bind].
  - destruct (DT.utcfromtimestamp n) as [t'|e] eqn:U.
    + intros H. injection H as <-. eauto.
    + destruct (is_ValueError e); discriminate.
  - destruct (is_ValueError e); discriminate.
Qed.

Lemma ts_of_integer (s : string) (n : Z) :
  Py.int_of_str s = Ok n ->
  _ts (Some s)
  = match DT.utcfromtimestamp n with
    | Ok t => Ok (Some t)
    | Raise e => if is_ValueError e then Ok None else Raise e
    end.
Proof.
  intros I. unfold _ts.
  rewrite (int_of_str_ok_truthy _ _ I). cbn [negb Py.int].
  rewrite I. reflexivity.
Qed.

Lemma ts_datable (v : option string) :
  Doc.datable v ->
  exists s n t, v = Some s /\ Py.int_of_str s = Ok n
                /\ _ts v = Ok (Some t) /\ DT.to_epoch t = n.
Proof.
  intros (s & n & -> & I & R).
  destruct (utcfromtimestamp_in_range n R) as (t & U & E).
  exists s, n, t. rewrite (ts_of_integer _ _ I), U. auto.
Qed.

Lemma ts_some_datable (v : option string) (t : DT.datetime) :
  _ts v = Ok (Some t) ->
  Doc.datable v
  /\ exists s n, v = Some s /\ Py.int_of_str s = Ok n /\ DT.to_epoch t = n.
Proof.
  intros H. destruct (ts_some _ _ H) as (s & n & -> & I & U).
  destruct (utcfromtimestamp_ok _ _ U) as [R E].
  split; [exists s, n; auto|exists s, n; auto].
Qed.

Lemma ts_some_valid (v : option string) (t : DT.datetime) :
  _ts v = Ok (Some t) -> DT.valid t = true.
Proof.
  intros H. destruct (ts_some _ _ H) as (s & n & _ & _ & U).
  eapply utcfromtimestamp_valid; eassumption.
Qed.

Lemma ts_not_datable (v : option string) :
  Doc.within_platform v -> ~ Doc.datable v -> _ts v = Ok None.
Proof.
  intros P N. destruct v as [s|]; [|reflexivity].
  destruct (Py.int_of_str s) as [n|e] eqn:I.
  - rewrite (ts_of_integer _ _ I).
    rewrite utcfromtimestamp_out_of_range; [reflexivity|now apply (P s)|].
    intros R. apply N. exists s, n. auto.
  - unfold _ts. destruct (negb (Py.truthy (Some s))); [reflexivity|].
    cbn [Py.int]. rewrite I. cbn [bind].
    now rewrite (int_of_str_raises _ _ I).
Qed.

Lemma ts_within_platform (v : option string) :
  Doc.within_platform v -> exists o, _ts v = Ok o.
Proof.
  intros P.
  destruct (_ts v) as [o|e] eqn:T; [eauto|exfalso].
  assert (N : ~ Doc.datable v).
  { intros D. destruct (ts_datable _ D) as (s & n & t & _ & _ & T' & _).
    congruence. }
  rewrite (ts_not_datable _ P N) in T. discriminate.
Qed.

Lemma messages_differ :
  Messages.no_traffic_records <> Messages.invalid_date_range.
Proof. vm_compute. discriminate. Qed.

(** C1 (amended).  For a document that parses, and date texts that, where
    they are integers, are instants the platform can break down:
    [_parse_xml] raises the date-range [UploadError] exactly when
    [date_range/begin] or [date_range/end], looked up in the metadata
    element, is missing, has no text, has text [int] rejects, or holds an
    integer outside the years 1 to 9999.  When a report is returned, its
    [date_range_start] and [date_range_end] are the UTC datetimes of the
    two integers: datetimes as the constructor accepts them, of those
    instants, and the only such ones. *)
Theorem C1_date_range (xml_bytes : Py.bytes) (filename : string)
    (root : ET.Element) :
  fromstring xml_bytes = ET.Parsed root ->
  Doc.within_platform (Doc.begin_text root) ->
  Doc.within_platform (Doc.end_text root) ->
  (_parse_xml fromstring xml_bytes filename
     = Raise (UploadError2 Messages.invalid_date_range filename)
   <-> ~ Doc.datable (Doc.begin_text root) \/ ~ Doc.datable (Doc.end_text root))
  /\ (forall report,
        _parse_xml fromstring xml_bytes filename = Ok report ->
        exists sb se b e,
          Doc.begin_text root = Some sb /\ Py.int_of_str sb = Ok b
          /\ Doc.end_text root = Some se /\ Py.int_of_str se = Ok e
          /\ DT.to_epoch (date_range_start report) = b
          /\ DT.to_epoch (date_range_end report) = e
          /\ DT.valid (date_range_start report) = true
          /\ DT.valid (date_range_end report) = true
          /\ (forall t, DT.valid t = true -> DT.to_epoch t = b ->
                        t = date_range_start report)
          /\ (forall t, DT.valid t = true -> DT.to_epoch t = e ->
                        t = date_range_end report)).
Proof.
  intros P PB PE. split; [split|].
  - rewrite (parse_xml_parsed _ _ _ _ P).
    destruct (_ts (Doc.begin_text root)) as [[ds|]|e1] eqn:B; cbn [bind].
    + destruct (_ts (Doc.end_text root)) as [[de|]|e2] eqn:E; cbn [bind].
      * destruct (Py.int _) as [pct|e3] eqn:I; cbn [bind].
        -- destruct (record_loop _ _) as [r|e4] eqn:L; cbn [bind].
           ++ destruct (records r); [|discriminate].
              pose proof messages_differ as MD. revert MD.
              generalize Messages.no_traffic_records, Messages.invalid_date_range.
              intros m1 m2 MD H. injection H as ->. now destruct MD.
           ++ apply record_loop_raises in L. subst e4. discriminate.
        -- apply int_raises in I. subst e3. discriminate.
      * intros _. right. intros D.
        destruct (ts_datable _ D) as (s & n & t & _ & _ & T & _). congruence.
      * destruct (ts_raises _ _ E) as [-> | ->]; discriminate.
    + intros _. left. intros D.
      destruct (ts_datable _ D) as (s & n & t & _ & _ & T & _). congruence.
    + destruct (ts_raises _ _ B) as [-> | ->]; discriminate.
  - intros N. rewrite (parse_xml_parsed _ _ _ _ P).
    destruct (ts_within_platform _ PB) as [ob B].
    destruct (ts_within_platform _ PE) as [oe E].
    rewrite B, E. cbn [bind].
    destruct ob as [ds|]; [|reflexivity].
    destruct oe as [de|]; [|reflexivity].
    exfalso. destruct N as [N|N]; apply N.
    + exact (proj1 (ts_some_datable _ _ B)).
    + exact (proj1 (ts_some_datable _ _ E)).
  - intros report H.
    destruct (parse_xml_ok _ _ _ _ _ P H)
      as (ds & de & pct & rs & B & E & _ & -> & _).
    destruct (ts_some_datable _ _ B) as (_ & sb & b & Hb & Ib & Eb).
    destruct (ts_some_datable _ _ E) as (_ & se & e & He & Ie & Ee).
    pose proof (ts_some_valid _ _ B) as Vb.
    pose proof (ts_some_valid _ _ E) as Ve.
    exists sb, se, b, e.
    cbn [set_records Doc.header date_range_start date_range_end].
    repeat split; try assumption.
    + intros t V T. apply to_epoch_injective; congruence.
    + intros t V T. apply to_epoch_injective; congruence.
Qed.

End DateRange.

Lemma C1_date_range_witness :
  (_parse_xml (Samples.parses_to Samples.doc_scenario) [] "report.xml"
     = Raise (Models.UploadError2 Messages.invalid_date_range "report.xml")
   <-> ~ Doc.datable (Doc.begin_text Samples.doc_scenario)
       \/ ~ Doc.datable (Doc.end_text Samples.doc_scenario))
  /\ (forall report,
        _parse_xml (Samples.parses_to Samples.doc_scenario) [] "report.xml"
          = Ok report ->
        exists sb se b e,
          Doc.begin_text Samples.doc_scenario = Some sb /\ Py.int_of_str sb = Ok b
          /\ Doc.end_text Samples.doc_scenario = Some se /\ Py.int_of_str se = Ok e
          /\ DT.to_epoch (Models.date_range_start report) = b
          /\ DT.to_epoch (Models.date_range_end report) = e
          /\ DT.valid (Models.date_range_start report) = true
          /\ DT.valid (Models.date_range_end report) = true
          /\ (forall t, DT.valid t = true -> DT.to_epoch t = b ->
                        t = Models.date_range_start report)
          /\ (forall t, DT.valid t = true -> DT.to_epoch t = e ->
                        t = Models.date_range_end report)).
Proof.
  apply (C1_date_range (Samples.parses_to Samples.doc_scenario) []
           "report.xml" Samples.doc_scenario).
  - reflexivity.
  - intros s n H I. vm_compute in H. injection H as <-.
    vm_compute in I. injection I as <-. vm_compute. split; discriminate.
  - intros s n H I. vm_compute in H. injection H as <-.
    vm_compute in I. injection I as <-. vm_compute. split; discriminate.
Defined.

(** C1 as stated fails: both ends of the date range of this document are
    integer literals, the first one being the first second of the year
    10000, and [_parse_xml] raises the date-range [UploadError]. *)
Lemma C1_counterexample :
  ~ (_parse_xml (Samples.parses_to Samples.doc_year_10000) [] "report.xml"
       = Raise (Models.UploadError2 Messages.invalid_date_range "report.xml")
     <-> ~ Doc.integer_text (Doc.begin_text Samples.doc_year_10000)
         \/ ~ Doc.integer_text (Doc.end_text Samples.doc_year_10000)).
Proof.
  intros [H _].
  destruct (H ltac:(vm_compute; reflexivity)) as [N|N]; apply N.
  - exists "253402300800", 253402300800. split; vm_compute; reflexivity.
  - exists "253402304400", 253402304400. split; vm_compute; reflexivity.
Qed.

(** ** Records, defaults and skipped elements *)

Section Reports.

Import Models.

Variable fromstring : Py.bytes -> ET.fromstring_result.

Lemma parse_xml_valid (xml_bytes : Py.bytes) (filename : string)
    (root : ET.Element) (pct : Z) :
  fromstring xml_bytes = ET.Parsed root ->
  Doc.valid_date_range root ->
  Py.int (Py.or_int (Doc.pct_text root) 0) = Ok pct ->
  exists date_start date_end,
    _parse_xml fromstring xml_bytes filename
    = (report <- record_loop (ET.findall root "record")
                   (Doc.header root filename date_start date_end pct) ;;
       match records report with
       | [] => Raise (UploadError2 Messages.no_traffic_records filename)
       | _ :: _ => Ok report
       end).
Proof.
  intros P (ds & de & B & E) I. exists ds, de.
  rewrite (parse_xml_parsed _ _ _ _ P), B, E. cbn [bind].
  rewrite I. reflexivity.
Qed.

(** C2 (amended).  For a document that parses, with a valid date range
    and a [policy_published/pct] that is missing, empty or an integer
    literal: when every [<record>] is skipped, or there is none,
    [_parse_xml] raises the no-traffic-records [UploadError].  And
    [_parse_xml] never returns a report without records. *)
Theorem C2_empty_report (xml_bytes : Py.bytes) (filename : string)
    (root : ET.Element) :
  fromstring xml_bytes = ET.Parsed root ->
  (Doc.valid_date_range root ->
   (exists c, Doc.numeric_or_empty (Doc.pct_text root) c) ->
   Forall (fun e => Doc.skipped e = true) (ET.findall root "record") ->
   _parse_xml fromstring xml_bytes filename
   = Raise (UploadError2 Messages.no_traffic_records filename))
  /\ (forall report,
        _parse_xml fromstring xml_bytes filename = Ok report ->
        records report <> nil).
Proof.
  intros P. split.
  - intros V [c C] S. apply int_or_int_numeric in C.
    destruct (parse_xml_valid _ filename _ _ P V C) as (ds & de & ->).
    rewrite record_loop_all_skipped by assumption. reflexivity.
  - intros report H.
    destruct (parse_xml_ok _ _ _ _ _ P H) as (ds & de & pct & rs & _ & _ & _ & -> & N & _).
    exact N.
Qed.

(** C3 (amended).  For a document that parses, with a valid date range, a
    [pct] that is missing, empty or an integer literal, and at least one
    [<record>], all of them with a non-empty [row/source_ip] and a
    [row/count] that is missing, empty or an integer literal:
    [_parse_xml] returns a report with one record per element, in
    document order, each with the fields of its element. *)
Theorem C3_round_trip (xml_bytes : Py.bytes) (filename : string)
    (root : ET.Element) :
  fromstring xml_bytes = ET.Parsed root ->
  Doc.valid_date_range root ->
  (exists c, Doc.numeric_or_empty (Doc.pct_text root) c) ->
  ET.findall root "record" <> nil ->
  Forall (fun e => Doc.kept e = true
                   /\ exists c, Doc.numeric_or_empty (_find_text e "row/count") c)
         (ET.findall root "record") ->
  exists report,
    _parse_xml fromstring xml_bytes filename = Ok report
    /\ List.length (records report) = List.length (ET.findall root "record")
    /\ Forall2 Doc.maps_to (ET.findall root "record") (records report).
Proof.
  intros P V [c C] N A. apply int_or_int_numeric in C.
  destruct (parse_xml_valid _ filename _ _ P V C) as (ds & de & E).
  assert (K : Forall (fun e => Doc.kept e = true) (ET.findall root "record"))
    by (eapply Forall_impl; [|exact A]; now intros e [H _]).
  assert (T : Forall (fun e => Doc.kept e = true ->
              exists c, Doc.numeric_or_empty (_find_text e "row/count") c)
            (ET.findall root "record"))
    by (eapply Forall_impl; [|exact A]; now intros e [_ H] _).
  destruct (record_loop_total _ T (Doc.header root filename ds de c)) as [r L].
  destruct (record_loop_ok _ _ _ L) as (rs & -> & F).
  rewrite (filter_kept_all _ K) in F.
  rewrite E, L. cbn [bind set_records records Doc.header app].
  pose proof (Forall2_length F) as Len.
  destruct rs as [|x rs].
  - destruct (ET.findall root "record"); [congruence|discriminate].
  - eexists. split; [reflexivity|]. cbn [records]. split; [now symmetry|exact F].
Qed.

Lemma findall_filter (t : string) (x : option string) (cs : list ET.Element)
    (path : string) :
  ET.split_path path = [path] ->
  ET.findall (ET.Elem t x cs) path
  = filter (fun c => String.eqb (ET.tag c) path) cs.
Proof.
  intros H. unfold ET.findall. rewrite H. apply select_one.
Qed.

Lemma find_remove (t : string) (x : option string)
    (pre post : list ET.Element) (e : ET.Element) (path : string) :
  ET.split_path path = [path] ->
  String.eqb (ET.tag e) path = false ->
  ET.find (ET.Elem t x (pre ++ e :: post)) path
  = ET.find (ET.Elem t x (pre ++ post)) path.
Proof.
  intros S H. unfold ET.find. rewrite !findall_filter by assumption.
  rewrite !filter_app. cbn [filter]. now rewrite H.
Qed.

(** C4.  A [<record>] whose [row/source_ip] is missing or empty adds no
    record and raises nothing, whatever else it holds: [_parse_xml]
    gives the same result, report or exception, for the document and
    for the document without that element.  The records of a returned
    report are those of the elements that are kept, in order. *)
Theorem C4_skip_law (with_record without_record : Py.bytes) (filename : string)
    (t : string) (x : option string) (pre post : list ET.Element)
    (e : ET.Element) :
  fromstring with_record = ET.Parsed (ET.Elem t x (pre ++ e :: post)) ->
  fromstring without_record = ET.Parsed (ET.Elem t x (pre ++ post)) ->
  ET.tag e = "record" ->
  Doc.skipped e = true ->
  _parse_xml fromstring with_record filename
  = _parse_xml fromstring without_record filename
  /\ forall report,
       _parse_xml fromstring with_record filename = Ok report ->
       Forall2 Doc.maps_to
         (filter Doc.kept (ET.findall (ET.Elem t x (pre ++ post)) "record"))
         (records report).
Proof.
  intros P1 P2 T S.
  assert (E : _parse_xml fromstring with_record filename
              = _parse_xml fromstring without_record filename).
  { rewrite (parse_xml_parsed _ _ _ _ P1), (parse_xml_parsed _ _ _ _ P2).
    unfold Doc.begin_text, Doc.end_text, Doc.pct_text, Doc.header,
      Doc.metadata, Doc.policy.
    rewrite !(find_remove t x pre post e "report_metadata")
      by (try reflexivity; now rewrite T).
    rewrite !(find_remove t x pre post e "policy_published")
      by (try reflexivity; now rewrite T).
    rewrite !findall_filter by reflexivity.
    assert (R : String.eqb (ET.tag e) "record" = true) by now rewrite T.
    rewrite !filter_app. cbn [filter]. rewrite R.
    destruct (_ts _) as [[ds|]|]; cbn [bind]; try reflexivity.
    destruct (_ts _) as [[de|]|]; cbn [bind]; try reflexivity.
    destruct (Py.int _) as [pct|]; cbn [bind]; try reflexivity.
    now rewrite (record_loop_remove _ _ _ S). }
  split; [exact E|].
  intros report H. rewrite E in H.
  destruct (parse_xml_ok _ _ _ _ _ P2 H) as (ds & de & pct & rs & _ & _ & _ & -> & _ & F).
  exact F.
Qed.

(** C5 (amended).  With a valid date range: a [policy_published/pct]
    whose text [int] rejects, such as ["abc"], makes [_parse_xml] raise
    [ValueError]; and the [pct] of a returned report is 0 when the text
    is missing or empty and the integer of the literal otherwise. *)
Theorem C5_pct (xml_bytes : Py.bytes) (filename : string) (root : ET.Element) :
  fromstring xml_bytes = ET.Parsed root ->
  Doc.valid_date_range root ->
  (forall s, Doc.pct_text root = Some s -> s <> EmptyString ->
             Py.int_of_str s = Raise ValueError ->
             _parse_xml fromstring xml_bytes filename = Raise ValueError)
  /\ (forall report,
        _parse_xml fromstring xml_bytes filename = Ok report ->
        Doc.numeric_or_empty (Doc.pct_text root) (pct report)).
Proof.
  intros P V. split.
  - intros s T N I. destruct V as (ds & de & B & E).
    rewrite (parse_xml_parsed _ _ _ _ P), B, E. cbn [bind].
    rewrite T. destruct s as [|c s]; [congruence|].
    cbn [Py.or_int Py.int]. rewrite I. reflexivity.
  - intros report H.
    destruct (parse_xml_ok _ _ _ _ _ P H) as (ds & de & c & rs & _ & _ & I & -> & _).
    now apply int_or_int_numeric.
Qed.

Lemma find_text_nested_absent (root : ET.Element) (a b ab : string) :
  ET.split_path ab = [a; b] ->
  ET.split_path a = [a] ->
  ET.split_path b = [b] ->
  ET.find root ab = None ->
  _find_text (ET.or_element (ET.find root a) (ET.new a)) b = None.
Proof.
  unfold _find_text, ET.find, ET.findall. intros -> -> -> H.
  now rewrite (nested_absent a b root H).
Qed.

(** C9.  For a document that parses and for which a report is returned:
    without a [policy_published/domain] the report's [domain] is
    ["desconocido"], without a [policy_published/pct] its [pct] is 0,
    and without a [report_metadata/report_id] its [report_id] is the
    file name. *)
Theorem C9_defaults (xml_bytes : Py.bytes) (filename : string)
    (root : ET.Element) (report : Report) :
  fromstring xml_bytes = ET.Parsed root ->
  _parse_xml fromstring xml_bytes filename = Ok report ->
  (ET.find root "policy_published/domain" = None ->
   domain report = "desconocido")
  /\ (ET.find root "policy_published/pct" = None -> pct report = 0)
  /\ (ET.find root "report_metadata/report_id" = None ->
      report_id report = filename).
Proof.
  intros P H.
  destruct (parse_xml_ok _ _ _ _ _ P H) as (ds & de & c & rs & _ & _ & I & -> & _).
  cbn [set_records Doc.header domain pct report_id].
  repeat split; intros A.
  - unfold Doc.policy.
    now rewrite (find_text_nested_absent root "policy_published" "domain"
                   "policy_published/domain"
                   eq_refl eq_refl eq_refl A).
  - unfold Doc.pct_text, Doc.policy in I.
    rewrite (find_text_nested_absent root "policy_published" "pct"
               "policy_published/pct"
               eq_refl eq_refl eq_refl A) in I.
    cbn in I. congruence.
  - unfold Doc.metadata.
    now rewrite (find_text_nested_absent root "report_metadata" "report_id"
                   "report_metadata/report_id"
                   eq_refl eq_refl eq_refl A).
Qed.

(** C10.  An element that is there with empty text counts as a missing
    one: for an empty or missing [report_id] the report has the file
    name, for an empty or missing [domain] it has ["desconocido"], for
    an empty or missing [pct] it has 0; a record whose [row/count] is
    empty or missing has count 0; and a [<record>] whose
    [row/source_ip] is empty or missing is not kept. *)
Theorem C10_empty_as_absent (xml_bytes : Py.bytes) (filename : string)
    (root : ET.Element) (report : Report) :
  fromstring xml_bytes = ET.Parsed root ->
  _parse_xml fromstring xml_bytes filename = Ok report ->
  (Doc.absent_or_empty (Doc.metadata root) "report_id" ->
   report_id report = filename)
  /\ (Doc.absent_or_empty (Doc.policy root) "domain" ->
      domain report = "desconocido")
  /\ (Doc.absent_or_empty (Doc.policy root) "pct" -> pct report = 0)
  /\ Forall2 (fun e r => Doc.maps_to e r
                         /\ (Doc.absent_or_empty e "row/count" -> count r = 0))
       (filter Doc.kept (ET.findall root "record")) (records report)
  /\ (forall e, Doc.absent_or_empty e "row/source_ip" -> Doc.kept e = false).
Proof.
  intros P H.
  destruct (parse_xml_ok _ _ _ _ _ P H) as (ds & de & c & rs & _ & _ & I & -> & _ & F).
  cbn [set_records Doc.header domain pct report_id records].
  repeat split.
  - intros A. apply or_str_falsy. now apply absent_or_empty_falsy.
  - intros A. apply or_str_falsy. now apply absent_or_empty_falsy.
  - intros A. apply absent_or_empty_falsy in A.
    unfold Doc.pct_text in I. rewrite (int_or_int_falsy _ 0 A) in I. congruence.
  - eapply Forall2_impl; [|exact F].
    intros e r M. split; [exact M|]. intros A.
    apply absent_or_empty_falsy in A.
    destruct M as (_ & _ & [[_ Z0]|(s & _ & T & _)] & _); congruence.
  - intros e A. apply absent_or_empty_falsy in A.
    unfold Doc.kept, Doc.skipped. now rewrite A.
Qed.

End Reports.

(** ** The archive dispatcher *)

Section Dispatcher.

Import Models.

Variable fromstring : Py.bytes -> ET.fromstring_result.
Variable gzip_decompress : Py.bytes -> result Py.bytes.
Variable ZipFile : Py.bytes -> result zipfile.ZipFile.

Lemma zip_is_not_gz (s : string) :
  Py.endswith s ".zip" = true -> Py.endswith s ".gz" = false.
Proof.
  unfold Py.endswith. generalize (Py.rev s). intros r.
  change (Py.rev ".zip") with "piz.". change (Py.rev ".gz") with "zg.".
  destruct r as [|c r]; [discriminate|]. cbn [String.prefix].
  destruct (ascii_dec "p" c) as [<-|]; [|discriminate].
  reflexivity.
Qed.

Lemma parse_xml_filename (xml_bytes : Py.bytes) (name : string) (report : Report) :
  _parse_xml fromstring xml_bytes name = Ok report -> filename report = name.
Proof.
  intros H. destruct (fromstring xml_bytes) as [root| | |] eqn:P.
  - destruct (parse_xml_ok _ _ _ _ _ P H) as (ds & de & c & rs & _ & _ & _ & -> & _).
    reflexivity.
  - unfold _parse_xml in H. rewrite P in H. discriminate.
  - unfold _parse_xml in H. rewrite P in H. discriminate.
  - unfold _parse_xml in H. rewrite P in H. discriminate.
Qed.

Lemma member_report_filename (zf : zipfile.ZipFile) (info : zipfile.ZipInfo)
    (report : Report) :
  Doc.member_report fromstring zf info = Ok report ->
  filename report = zipfile.filename info.
Proof.
  unfold Doc.member_report.
  destruct (zipfile.read zf (zipfile.filename info)) as [data|]; cbn [bind];
    [apply parse_xml_filename|discriminate].
Qed.

Lemma member_report_failure (zf : zipfile.ZipFile) (outer : string)
    (info : zipfile.ZipInfo) (e : exn) :
  Doc.member_report fromstring zf info = Raise e ->
  Doc.member_failure fromstring zf outer info (zip_except outer e).
Proof.
  unfold Doc.member_report, Doc.member_failure.
  destruct (zipfile.read zf (zipfile.filename info)) as [data|e0]; cbn [bind].
  - intros H. left. exists data. split; [reflexivity|].
    unfold zip_except. now rewrite (parse_xml_raises _ _ _ _ H).
  - intros H. injection H as <-. right. eauto.
Qed.

Lemma zip_loop_spec (zf : zipfile.ZipFile) (outer : string)
    (infos : list zipfile.ZipInfo) :
  let g := zip_loop fromstring zf infos outer in
  let members := filter (fun info => negb (Doc.is_directory info)) infos in
  exists k, (k <= List.length members)%nat
    /\ Forall2 (fun info report =>
                  Doc.member_report fromstring zf info = Ok report
                  /\ filename report = zipfile.filename info)
         (firstn k members) (yielded g)
    /\ match raised g with
       | None => k = List.length members
       | Some e => exists info, nth_error members k = Some info
                     /\ Doc.member_failure fromstring zf outer info e
       end.
Proof.
  induction infos as [|info infos IH]; cbn zeta.
  - exists 0%nat. cbn. repeat split; constructor.
  - cbn [zip_loop filter]. fold (Doc.is_directory info).
    destruct (Doc.is_directory info); cbn [negb]; [exact IH|].
    fold (Doc.member_report fromstring zf info).
    destruct (Doc.member_report fromstring zf info) as [report|e] eqn:M.
    + destruct IH as (k & L & F & R). exists (S k).
      cbn [List.length firstn gen_yield yielded raised nth_error].
      split; [lia|]. split.
      * constructor; [|exact F].
        split; [exact M|exact (member_report_filename _ _ _ M)].
      * destruct (raised (zip_loop fromstring zf infos outer));
          [exact R|now rewrite R].
    + exists 0%nat. cbn [List.length firstn gen_raise yielded raised nth_error].
      split; [lia|]. split; [constructor|].
      exists info. split; [reflexivity|now apply member_report_failure].
Qed.

(** C8.  For a file name that ends in [.zip], whatever the case, and
    bytes that open as an archive: the generator yields one report per
    member whose name does not end in ["/"], in the order of the member
    list, each built from what reading the member by its name gives and
    carrying the member's name; it stops at the first member that
    fails, after the reports of the members before it, and an exception
    of [_parse_xml] leaves the generator as it is. *)
Theorem C8_zip_fan_out (data : Py.bytes) (name : string) (zf : zipfile.ZipFile) :
  Py.endswith (Py.lower name) ".zip" = true ->
  ZipFile data = Ok zf ->
  let g := parse_report_file fromstring gzip_decompress ZipFile data name in
  exists k, (k <= List.length (Doc.file_members zf))%nat
    /\ Forall2 (fun info report =>
                  Doc.member_report fromstring zf info = Ok report
                  /\ filename report = zipfile.filename info)
         (firstn k (Doc.file_members zf)) (yielded g)
    /\ match raised g with
       | None => k = List.length (Doc.file_members zf)
       | Some e => exists info, nth_error (Doc.file_members zf) k = Some info
                     /\ Doc.member_failure fromstring zf name info e
       end.
Proof.
  intros Z O. unfold parse_report_file.
  rewrite (zip_is_not_gz _ Z), Z, O. apply zip_loop_spec.
Qed.

(** C6, the failing case.  When the bytes are not XML the [UploadError]
    of [_parse_xml] has the file name in its message only: its
    [filename] attribute is [None]; so has the exception that ends the
    generator for a file that is neither [.gz] nor [.zip]. *)
Theorem C6_unparseable_xml_without_filename (xml_bytes : Py.bytes)
    (name : string) :
  fromstring xml_bytes = ET.Raises_ParseError ->
  _parse_xml fromstring xml_bytes name
  = Raise (UploadError (Messages.unparseable_xml name) None)
  /\ (Py.endswith (Py.lower name) ".gz" = false ->
      Py.endswith (Py.lower name) ".zip" = false ->
      parse_report_file fromstring gzip_decompress ZipFile xml_bytes name
      = gen_raise (UploadError (Messages.unparseable_xml name) None)).
Proof.
  intros P.
  assert (E : _parse_xml fromstring xml_bytes name
              = Raise (UploadError (Messages.unparseable_xml name) None))
    by (unfold _parse_xml; now rewrite P).
  split; [exact E|]. intros G Z. unfold parse_report_file.
  now rewrite G, Z, E.
Qed.

(** C7, the failing case.  An exception of [gzip.decompress] that is not
    an [OSError], such as the [EOFError] of a truncated stream or a
    [zlib.error], ends the generator as it is: no [UploadError] is
    raised. *)
Theorem C7_gzip_error_not_caught (data : Py.bytes) (name : string) (e : exn) :
  Py.endswith (Py.lower name) ".gz" = true ->
  gzip_decompress data = Raise e ->
  is_OSError e = false ->
  parse_report_file fromstring gzip_decompress ZipFile data name = gen_raise e.
Proof.
  intros G D N. unfold parse_report_file. now rewrite G, D, N.
Qed.

End Dispatcher.

(** ** The theorems at sample documents *)

Lemma C2_empty_report_witness :
  _parse_xml (Samples.parses_to Samples.doc_all_skipped) [] "report.xml"
  = Raise (Models.UploadError2 Messages.no_traffic_records "report.xml")
  /\ (forall report,
        _parse_xml (Samples.parses_to Samples.doc_all_skipped) [] "report.xml"
          = Ok report ->
        Models.records report <> nil).
Proof.
  destruct (C2_empty_report (Samples.parses_to Samples.doc_all_skipped) []
              "report.xml" Samples.doc_all_skipped eq_refl) as [A B].
  split; [apply A|exact B].
  - eexists; eexists; split; vm_compute; reflexivity.
  - exists 0. left. split; reflexivity.
  - repeat constructor.
Defined.

(** C2 as stated fails: this document has a valid date range and no
    [<record>], and [_parse_xml] raises [ValueError] on its [pct], not the
    no-traffic-records [UploadError]. *)
Lemma C2_counterexample :
  ~ (Doc.valid_date_range Samples.doc_pct_abc_no_records ->
     Forall (fun e => Doc.skipped e = true)
            (ET.findall Samples.doc_pct_abc_no_records "record") ->
     _parse_xml (Samples.parses_to Samples.doc_pct_abc_no_records) [] "report.xml"
     = Raise (Models.UploadError2 Messages.no_traffic_records "report.xml")).
Proof.
  intros H.
  assert (V : Doc.valid_date_range Samples.doc_pct_abc_no_records)
    by (eexists; eexists; split; vm_compute; reflexivity).
  specialize (H V ltac:(constructor)).
  vm_compute in H. discriminate.
Qed.

Lemma C3_round_trip_witness :
  exists report,
    _parse_xml (Samples.parses_to Samples.doc_without_skipped) [] "report.xml"
      = Ok report
    /\ List.length (Models.records report)
       = List.length (ET.findall Samples.doc_without_skipped "record")
    /\ Forall2 Doc.maps_to (ET.findall Samples.doc_without_skipped "record")
         (Models.records report).
Proof.
  apply (C3_round_trip (Samples.parses_to Samples.doc_without_skipped) []
           "report.xml" Samples.doc_without_skipped).
  - reflexivity.
  - eexists; eexists; split; vm_compute; reflexivity.
  - exists 0. left. split; reflexivity.
  - discriminate.
  - repeat constructor.
    + exists 5. right. exists "5". repeat split.
    + exists 0. left. split; reflexivity.
Defined.

(** C3 as stated fails: the one [<record>] of the first document has a
    source address and the count ["abc"], and [_parse_xml] raises
    [ValueError]; the second document has no [<record>] at all, and
    [_parse_xml] raises the no-traffic-records [UploadError] instead of
    returning a report without records. *)
Lemma C3_counterexample :
  ~ (Doc.valid_date_range Samples.doc_count_abc ->
     Forall (fun e => Doc.kept e = true) (ET.findall Samples.doc_count_abc "record") ->
     exists report,
       _parse_xml (Samples.parses_to Samples.doc_count_abc) [] "report.xml"
         = Ok report
       /\ List.length (Models.records report)
          = List.length (ET.findall Samples.doc_count_abc "record"))
  /\ ~ (Doc.valid_date_range Samples.doc_no_records ->
        Forall (fun e => Doc.kept e = true) (ET.findall Samples.doc_no_records "record") ->
        exists report,
          _parse_xml (Samples.parses_to Samples.doc_no_records) [] "report.xml"
            = Ok report
          /\ List.length (Models.records report)
             = List.length (ET.findall Samples.doc_no_records "record")).
Proof.
  split; intros H.
  - destruct H as (report & H & _).
    + eexists; eexists; split; vm_compute; reflexivity.
    + repeat constructor.
    + vm_compute in H. discriminate.
  - destruct H as (report & H & _).
    + eexists; eexists; split; vm_compute; reflexivity.
    + constructor.
    + vm_compute in H. discriminate.
Qed.

Lemma C4_skip_law_witness :
  _parse_xml (Samples.parses_by_first_byte Samples.skip_documents) [x01] "report.xml"
  = _parse_xml (Samples.parses_by_first_byte Samples.skip_documents) [x02] "report.xml"
  /\ forall report,
       _parse_xml (Samples.parses_by_first_byte Samples.skip_documents) [x01]
         "report.xml" = Ok report ->
       Forall2 Doc.maps_to
         (filter Doc.kept (ET.findall Samples.doc_without_skipped "record"))
         (Models.records report).
Proof.
  exact (C4_skip_law (Samples.parses_by_first_byte Samples.skip_documents)
           [x01] [x02] "report.xml" "feedback" None
           (firstn 3 (ET.children Samples.doc_with_skipped))
           [Samples.record_192_0_2_7] Samples.record_without_ip
           eq_refl eq_refl eq_refl eq_refl).
Defined.

Lemma C5_pct_witness :
  _parse_xml (Samples.parses_to Samples.doc_pct_abc) [] "report.xml"
  = Raise ValueError.
Proof.
  apply (proj1 (C5_pct (Samples.parses_to Samples.doc_pct_abc) [] "report.xml"
                  Samples.doc_pct_abc eq_refl
                  ltac:(eexists; eexists; split; vm_compute; reflexivity)) "abc").
  - reflexivity.
  - discriminate.
  - reflexivity.
Defined.

(** C5 as stated fails: with ["abc"] as [pct] no report is returned, so
    none with [pct] 0. *)
Lemma C5_counterexample :
  ~ (exists report,
       _parse_xml (Samples.parses_to Samples.doc_pct_abc) [] "report.xml"
         = Ok report
       /\ Models.pct report = 0).
Proof.
  intros (report & H & _). vm_compute in H. discriminate.
Qed.

Lemma C9_defaults_witness :
  exists report,
    _parse_xml (Samples.parses_to Samples.doc_defaults) [] "report.xml" = Ok report
    /\ Models.domain report = "desconocido"
    /\ Models.pct report = 0
    /\ Models.report_id report = "report.xml".
Proof.
  destruct (_parse_xml (Samples.parses_to Samples.doc_defaults) [] "report.xml")
    as [report|e] eqn:H; [|vm_compute in H; discriminate].
  exists report.
  destruct (C9_defaults (Samples.parses_to Samples.doc_defaults) [] "report.xml"
              Samples.doc_defaults report eq_refl H) as (A & B & C).
  split; [reflexivity|].
  split; [apply A|split; [apply B|apply C]]; reflexivity.
Defined.

Lemma C10_empty_as_absent_witness :
  exists report,
    _parse_xml (Samples.parses_to Samples.doc_empty_fields) [] "report.xml"
      = Ok report
    /\ Models.report_id report = "report.xml"
    /\ Models.domain report = "desconocido"
    /\ Models.pct report = 0
    /\ Doc.kept Samples.record_without_ip = false.
Proof.
  destruct (_parse_xml (Samples.parses_to Samples.doc_empty_fields) [] "report.xml")
    as [report|e] eqn:H; [|vm_compute in H; discriminate].
  exists report.
  destruct (C10_empty_as_absent (Samples.parses_to Samples.doc_empty_fields) []
              "report.xml" Samples.doc_empty_fields report eq_refl H)
    as (A & B & C & _ & D).
  split; [reflexivity|].
  split; [apply A|split; [apply B|split; [apply C|apply D]]];
    right; eexists; (split; [vm_compute; reflexivity|]); cbn; auto.
Defined.

Lemma C6_unparseable_xml_without_filename_witness :
  _parse_xml Samples.unparseable [x3c; x61] "report.xml"
  = Raise (UploadError (Messages.unparseable_xml "report.xml") None)
  /\ (Py.endswith (Py.lower "report.xml") ".gz" = false ->
      Py.endswith (Py.lower "report.xml") ".zip" = false ->
      parse_report_file Samples.unparseable Samples.gzip_stored Samples.not_a_zip
        [x3c; x61] "report.xml"
      = gen_raise (UploadError (Messages.unparseable_xml "report.xml") None)).
Proof.
  apply (C6_unparseable_xml_without_filename Samples.unparseable
           Samples.gzip_stored Samples.not_a_zip [x3c; x61] "report.xml").
  reflexivity.
Defined.

Lemma C7_gzip_error_not_caught_witness :
  parse_report_file Samples.unparseable (Samples.gzip_raises EOFError)
    Samples.not_a_zip [x1f; x8b] "report.xml.gz"
  = gen_raise EOFError.
Proof.
  apply (C7_gzip_error_not_caught Samples.unparseable (Samples.gzip_raises EOFError)
           Samples.not_a_zip [x1f; x8b] "report.xml.gz" EOFError);
    reflexivity.
Defined.

Lemma C8_zip_fan_out_witness :
  let g := parse_report_file (Samples.parses_by_first_byte Samples.three_documents)
             Samples.gzip_stored (Samples.opens_as Samples.archive_bad_second)
             [] "Reports.ZIP" in
  exists k, (k <= List.length (Doc.file_members Samples.archive_bad_second))%nat
    /\ Forall2 (fun info report =>
                  Doc.member_report (Samples.parses_by_first_byte Samples.three_documents)
                    Samples.archive_bad_second info = Ok report
                  /\ Models.filename report = zipfile.filename info)
         (firstn k (Doc.file_members Samples.archive_bad_second)) (yielded g)
    /\ match raised g with
       | None => k = List.length (Doc.file_members Samples.archive_bad_second)
       | Some e =>
           exists info,
             nth_error (Doc.file_members Samples.archive_bad_second) k = Some info
             /\ Doc.member_failure (Samples.parses_by_first_byte Samples.three_documents)
                  Samples.archive_bad_second "Reports.ZIP" info e
       end.
Proof.
  apply (C8_zip_fan_out (Samples.parses_by_first_byte Samples.three_documents)
           Samples.gzip_stored (Samples.opens_as Samples.archive_bad_second)
           [] "Reports.ZIP" Samples.archive_bad_second); reflexivity.
Defined.

(** ** More on the dispatcher *)

Section DispatcherMore.

Import Models.

Variable fromstring : Py.bytes -> ET.fromstring_result.
Variable gzip_decompress : Py.bytes -> result Py.bytes.
Variable ZipFile : Py.bytes -> result zipfile.ZipFile.

Lemma parse_xml_ok_root (xml_bytes : Py.bytes) (name : string) (report : Report) :
  _parse_xml fromstring xml_bytes name = Ok report ->
  exists root, fromstring xml_bytes = ET.Parsed root.
Proof.
  unfold _parse_xml.
  destruct (fromstring xml_bytes) as [root| | |]; [eauto|discriminate..].
Qed.

Lemma parse_xml_records (xml_bytes : Py.bytes) (name : string) (report : Report) :
  _parse_xml fromstring xml_bytes name = Ok report ->
  records report <> nil
  /\ Forall (fun r => source_ip r <> EmptyString) (records report).
Proof.
  intros H. destruct (parse_xml_ok_root _ _ _ H) as [root P].
  destruct (parse_xml_ok _ _ _ _ _ P H) as (ds & de & c & rs & _ & _ & _ & -> & N & F).
  cbn [set_records records]. split; [exact N|].
  clear - F. induction F as [|e r es rs M _ IH]; constructor; [|exact IH].
  now destruct M as (_ & S & _).
Qed.

(** The outcome of one [yield _parse_xml(data, name)]. *)
Lemma yield_one (data : Py.bytes) (name : string) :
  let g := match _parse_xml fromstring data name with
           | Ok report => gen_yield report gen_return
           | Raise e => gen_raise e
           end in
  (exists report, _parse_xml fromstring data name = Ok report
                  /\ g = {| yielded := [report]; raised := None |})
  \/ (exists e, _parse_xml fromstring data name = Raise e
                /\ g = {| yielded := []; raised := Some e |}).
Proof.
  cbn zeta. destruct (_parse_xml fromstring data name) as [report|e];
    [left|right]; eauto.
Qed.

(** X1.  A file whose name ends neither in [.gz] nor in [.zip], in any
    letter case, is parsed as it is, whatever its bytes: the outcome does
    not depend on gzip or zipfile, and it is either one report, after
    which the generator ends, or the exception of [_parse_xml] with
    nothing yielded. *)
Theorem X1_raw_xml_passthrough (data : Py.bytes) (name : string)
    (other_gzip : Py.bytes -> result Py.bytes)
    (other_zip : Py.bytes -> result zipfile.ZipFile) :
  Py.endswith (Py.lower name) ".gz" = false ->
  Py.endswith (Py.lower name) ".zip" = false ->
  let g := parse_report_file fromstring gzip_decompress ZipFile data name in
  g = parse_report_file fromstring other_gzip other_zip data name
  /\ ((exists report, _parse_xml fromstring data name = Ok report
                      /\ yielded g = [report] /\ raised g = None)
      \/ (exists e, _parse_xml fromstring data name = Raise e
                    /\ yielded g = [] /\ raised g = Some e)).
Proof.
  intros G Z. unfold parse_report_file. rewrite G, Z. cbn zeta.
  split; [reflexivity|].
  destruct (_parse_xml fromstring data name) as [report|e];
    [left|right]; eauto.
Qed.

(** X2.  A [.gz] file: when [gzip.decompress] raises an [OSError], the
    generator yields nothing and raises the corrupt-gzip [UploadError]
    with the file name; when it returns, the decompressed bytes are parsed
    under the outer file name, giving one report with that name or the
    exception of [_parse_xml].  The zip library is not used, also for a
    name such as [a.zip.gz]. *)
Theorem X2_gzip_branch (data : Py.bytes) (name : string)
    (other_zip : Py.bytes -> result zipfile.ZipFile) :
  Py.endswith (Py.lower name) ".gz" = true ->
  let g := parse_report_file fromstring gzip_decompress ZipFile data name in
  g = parse_report_file fromstring gzip_decompress other_zip data name
  /\ (forall e, gzip_decompress data = Raise e -> is_OSError e = true ->
        yielded g = []
        /\ raised g = Some (UploadError Messages.corrupt_gzip (Some name)))
  /\ (forall xml, gzip_decompress data = Ok xml ->
        (exists report, _parse_xml fromstring xml name = Ok report
                        /\ filename report = name
                        /\ yielded g = [report] /\ raised g = None)
        \/ (exists e, _parse_xml fromstring xml name = Raise e
                      /\ yielded g = [] /\ raised g = Some e)).
Proof.
  intros G. unfold parse_report_file. rewrite G. cbn zeta.
  split; [reflexivity|]. split.
  - intros e D O. rewrite D, O. split; reflexivity.
  - intros xml D. rewrite D.
    destruct (_parse_xml fromstring xml name) as [report|e] eqn:P;
      [left|right]; eauto.
    exists report. repeat split. eapply parse_xml_filename; eassumption.
Qed.

(** X3.  A [.zip] file that does not open: for [BadZipFile] the generator
    yields nothing and raises the corrupt-zip [UploadError] with the file
    name; gzip is not used. *)
Theorem X3_corrupt_zip (data : Py.bytes) (name : string)
    (other_gzip : Py.bytes -> result Py.bytes) :
  Py.endswith (Py.lower name) ".zip" = true ->
  ZipFile data = Raise BadZipFile ->
  let g := parse_report_file fromstring gzip_decompress ZipFile data name in
  g = parse_report_file fromstring other_gzip ZipFile data name
  /\ yielded g = []
  /\ raised g = Some (UploadError Messages.corrupt_zip (Some name)).
Proof.
  intros Z O. unfold parse_report_file.
  rewrite (zip_is_not_gz _ Z), Z, O. cbn zeta. repeat split.
Qed.

Lemma zip_loop_yields (zf : zipfile.ZipFile) (outer : string)
    (infos : list zipfile.ZipInfo) :
  Forall (fun report => exists info,
            In info infos
            /\ Doc.is_directory info = false
            /\ Doc.member_report fromstring zf info = Ok report)
         (yielded (zip_loop fromstring zf infos outer)).
Proof.
  induction infos as [|info infos IH]; [constructor|].
  assert (IH' : Forall (fun report => exists i,
            In i (info :: infos)
            /\ Doc.is_directory i = false
            /\ Doc.member_report fromstring zf i = Ok report)
         (yielded (zip_loop fromstring zf infos outer))).
  { eapply Forall_impl; [|exact IH].
    intros r (i & I & D & P). exists i. repeat split; auto. now right. }
  cbn [zip_loop]. fold (Doc.is_directory info).
  destruct (Doc.is_directory info) eqn:D; [exact IH'|].
  fold (Doc.member_report fromstring zf info).
  destruct (Doc.member_report fromstring zf info) as [report|e] eqn:P;
    [|constructor].
  cbn [gen_yield yielded]. constructor; [|exact IH'].
  exists info. repeat split; auto. now left.
Qed.

Lemma member_report_ok (zf : zipfile.ZipFile) (info : zipfile.ZipInfo)
    (report : Report) :
  Doc.member_report fromstring zf info = Ok report ->
  exists xml, zipfile.read zf (zipfile.filename info) = Ok xml
              /\ _parse_xml fromstring xml (zipfile.filename info) = Ok report.
Proof.
  unfold Doc.member_report.
  destruct (zipfile.read zf (zipfile.filename info)) as [xml|e]; cbn [bind];
    [eauto|discriminate].
Qed.

(** X4.  Whatever the file, every report the generator yields is one
    [_parse_xml] returned for some bytes under the report's own file name;
    it has at least one record, and every record has a non-empty source
    address.  The file name of the report is the name of the uploaded
    file, unless that is a zip: then the archive opened, and the report is
    what reading and parsing one of its members gives, a member of
    [infolist()] that is not a directory and whose name is the report's
    file name. *)
Theorem X4_yielded_reports (data : Py.bytes) (name : string) (report : Report) :
  In report (yielded (parse_report_file fromstring gzip_decompress ZipFile data name)) ->
  (exists xml, _parse_xml fromstring xml (filename report) = Ok report)
  /\ records report <> nil
  /\ Forall (fun r => source_ip r <> EmptyString) (records report)
  /\ (Py.endswith (Py.lower name) ".gz" = true
      \/ Py.endswith (Py.lower name) ".zip" = false ->
      filename report = name)
  /\ (Py.endswith (Py.lower name) ".gz" = false ->
      Py.endswith (Py.lower name) ".zip" = true ->
      exists zf info,
        ZipFile data = Ok zf
        /\ In info (zipfile.infolist zf)
        /\ Doc.is_directory info = false
        /\ Py.endswith (filename report) "/" = false
        /\ filename report = zipfile.filename info
        /\ Doc.member_report fromstring zf info = Ok report).
Proof.
  intros I.
  assert (H : exists xml nm, _parse_xml fromstring xml nm = Ok report
              /\ (Py.endswith (Py.lower name) ".gz" = true
                  \/ Py.endswith (Py.lower name) ".zip" = false -> nm = name)
              /\ (Py.endswith (Py.lower name) ".gz" = false ->
                  Py.endswith (Py.lower name) ".zip" = true ->
                  exists zf info,
                    ZipFile data = Ok zf
                    /\ In info (zipfile.infolist zf)
                    /\ Doc.is_directory info = false
                    /\ nm = zipfile.filename info
                    /\ Doc.member_report fromstring zf info = Ok report)).
  { revert I. unfold parse_report_file.
    destruct (Py.endswith (Py.lower name) ".gz").
    - destruct (gzip_decompress data) as [xml|e].
      + destruct (_parse_xml fromstring xml name) as [r|e] eqn:P; cbn; [|tauto].
        intros [<-|[]]. exists xml, name. repeat split; auto; discriminate.
      + destruct (is_OSError e); cbn; tauto.
    - destruct (Py.endswith (Py.lower name) ".zip") eqn:Z.
      + destruct (ZipFile data) as [zf|e]; [|cbn; tauto].
        intros I. pose proof (zip_loop_yields zf name (zipfile.infolist zf)) as F.
        rewrite Forall_forall in F.
        destruct (F _ I) as (info & M & D & P).
        destruct (member_report_ok _ _ _ P) as (xml & _ & Q).
        exists xml, (zipfile.filename info). split; [exact Q|]. split.
        * intros [?|?]; discriminate.
        * intros _ _. exists zf, info. repeat split; auto.
      + destruct (_parse_xml fromstring data name) as [r|e] eqn:P; cbn; [|tauto].
        intros [<-|[]]. exists data, name. repeat split; auto; discriminate. }
  destruct H as (xml & nm & P & N & A).
  pose proof (parse_xml_filename _ _ _ _ P) as E. subst nm.
  destruct (parse_xml_records _ _ _ P) as [R S].
  split; [eauto|]. split; [exact R|]. split; [exact S|]. split; [exact N|].
  intros G Z. destruct (A G Z) as (zf & info & O & M & D & F & Q).
  exists zf, info. repeat split; auto.
  rewrite F. exact D.
Qed.

End DispatcherMore.

Section ParseXmlMore.

Import Models.

Variable fromstring : Py.bytes -> ET.fromstring_result.

(** X5.  The exceptions of [_parse_xml]: the unparseable-XML [UploadError]
    without file name, the date-range and the no-traffic-records
    [UploadError] with the file name, [ValueError] (a [pct] or [count]
    that is not a number, or an encoding the XML parser does not
    support), [LookupError] (an encoding it does not know), and [OSError]
    or [OverflowError] (a date the platform cannot break down). *)
Theorem X5_parse_xml_exceptions (xml_bytes : Py.bytes) (name : string) (e : exn) :
  _parse_xml fromstring xml_bytes name = Raise e ->
  e = UploadError (Messages.unparseable_xml name) None
  \/ e = UploadError Messages.invalid_date_range (Some name)
  \/ e = UploadError Messages.no_traffic_records (Some name)
  \/ e = ValueError \/ e = LookupError \/ e = OSError \/ e = OverflowError.
Proof.
  unfold _parse_xml. destruct (fromstring xml_bytes) as [root| | |].
  2,3,4:(intros H; injection H as <-; tauto).
  fold (Doc.metadata root) (Doc.policy root).
  destruct (_ts _) as [ds|e1] eqn:B; cbn [bind].
  2:{ intros H; injection H as <-. destruct (ts_raises _ _ B) as [-> | ->]; tauto. }
  destruct (_ts (_find_text (Doc.metadata root) "date_range/end")) as [de|e1] eqn:E;
    cbn [bind].
  2:{ intros H; injection H as <-. destruct (ts_raises _ _ E) as [-> | ->]; tauto. }
  destruct ds as [ds|]; [destruct de as [de|]|];
    try (intros H; injection H as <-; right; left; reflexivity).
  destruct (Py.int _) as [pct|e1] eqn:Pc; cbn [bind].
  2:{ intros H; injection H as <-. rewrite (int_raises _ _ Pc). tauto. }
  destruct (record_loop _ _) as [r|e1] eqn:L; cbn [bind].
  2:{ intros H; injection H as <-. rewrite (record_loop_raises _ _ _ L). tauto. }
  destruct (records r); [|discriminate].
  intros H; injection H as <-. right; right; left; reflexivity.
Qed.

End ParseXmlMore.

(** ** More on names and on the sections of a document *)

Section NamesAndSections.

Import Models.

Variable fromstring : Py.bytes -> ET.fromstring_result.

Lemma rev_append_app (s acc : string) :
  Py.rev_append s acc = (Py.rev s ++ acc)%string.
Proof.
  unfold Py.rev. revert acc.
  induction s as [|c s IH]; intros acc; cbn [Py.rev_append]; [reflexivity|].
  rewrite (IH (String c acc)), (IH (String c EmptyString)).
  generalize (Py.rev_append s EmptyString). intros r.
  induction r as [|d r IHr]; cbn; [reflexivity|now rewrite IHr].
Qed.

Lemma rev_append_append (a b acc : string) :
  Py.rev_append (a ++ b) acc = Py.rev_append b (Py.rev_append a acc).
Proof.
  revert acc. induction a as [|c a IH]; intros acc; cbn; [reflexivity|apply IH].
Qed.

Lemma rev_app (a b : string) :
  Py.rev (a ++ b) = (Py.rev b ++ Py.rev a)%string.
Proof.
  unfold Py.rev at 1. rewrite rev_append_append. apply rev_append_app.
Qed.

Lemma lower_app (a b : string) :
  Py.lower (a ++ b) = (Py.lower a ++ Py.lower b)%string.
Proof.
  induction a as [|c a IH]; cbn; [reflexivity|now rewrite IH].
Qed.

Lemma prefix_app (s t : string) : String.prefix s (s ++ t) = true.
Proof.
  induction s as [|c s IH]; cbn; [now destruct t|].
  destruct (ascii_dec c c); [exact IH|congruence].
Qed.

Lemma endswith_app (stem ext suffix : string) :
  Py.lower ext = suffix ->
  Py.endswith (Py.lower (stem ++ ext)) suffix = true.
Proof.
  intros <-. unfold Py.endswith. rewrite lower_app, rev_app. apply prefix_app.
Qed.

(** X6.  [parse_report_file] reads the archive type off the end of the
    file name whatever the letter case.  For a name made of any stem and
    an ending that is [.gz] once in lower case, it is the gzip branch
    that runs: an [OSError] of [gzip.decompress] becomes the corrupt-gzip
    [UploadError], any other exception passes, and the decompressed bytes
    are parsed under the name as it was given.  For an ending that is
    [.zip] once in lower case it is the zip branch, and not the gzip
    branch: the archive is opened and its members are read, and gzip is
    not called. *)
Theorem X6_extension_any_case (stem ext : string) (data : Py.bytes)
    (gzip_decompress other_gzip : Py.bytes -> result Py.bytes)
    (ZipFile other_zip : Py.bytes -> result zipfile.ZipFile) :
  (Py.lower ext = ".gz" ->
   Py.endswith (Py.lower (stem ++ ext)) ".gz" = true
   /\ parse_report_file fromstring gzip_decompress ZipFile data (stem ++ ext)
      = parse_report_file fromstring gzip_decompress other_zip data (stem ++ ext)
   /\ parse_report_file fromstring gzip_decompress ZipFile data (stem ++ ext)
      = match gzip_decompress data with
        | Raise e =>
            if is_OSError e
            then gen_raise (UploadError Messages.corrupt_gzip (Some (stem ++ ext)))
            else gen_raise e
        | Ok xml =>
            match _parse_xml fromstring xml (stem ++ ext) with
            | Ok report => gen_yield report gen_return
            | Raise e => gen_raise e
            end
        end)
  /\ (Py.lower ext = ".zip" ->
      Py.endswith (Py.lower (stem ++ ext)) ".zip" = true
      /\ Py.endswith (Py.lower (stem ++ ext)) ".gz" = false
      /\ parse_report_file fromstring gzip_decompress ZipFile data (stem ++ ext)
         = parse_report_file fromstring other_gzip ZipFile data (stem ++ ext)
      /\ parse_report_file fromstring gzip_decompress ZipFile data (stem ++ ext)
         = match ZipFile data with
           | Raise e => gen_raise (zip_except (stem ++ ext) e)
           | Ok zf => zip_loop fromstring zf (zipfile.infolist zf) (stem ++ ext)
           end).
Proof.
  split; intros H.
  - pose proof (endswith_app stem ext _ H) as G.
    split; [exact G|]. unfold parse_report_file. rewrite G. cbn zeta.
    split; reflexivity.
  - pose proof (endswith_app stem ext _ H) as Z.
    pose proof (zip_is_not_gz _ Z) as G.
    split; [exact Z|]. split; [exact G|].
    unfold parse_report_file. rewrite G, Z. cbn zeta.
    split; reflexivity.
Qed.

Lemma hd_error_app_first {A : Type} (l1 l2 l3 : list A) :
  l1 <> nil -> hd_error (l1 ++ l2) = hd_error (l1 ++ l3).
Proof.
  destruct l1; [congruence|reflexivity].
Qed.

Lemma find_remove_later (t : string) (x : option string)
    (pre post : list ET.Element) (e first : ET.Element) (path : string) :
  ET.split_path path = [path] ->
  In first pre -> ET.tag first = path ->
  ET.find (ET.Elem t x (pre ++ e :: post)) path
  = ET.find (ET.Elem t x (pre ++ post)) path.
Proof.
  intros S I T. unfold ET.find. rewrite !findall_filter by assumption.
  rewrite !filter_app. apply hd_error_app_first.
  intros N.
  assert (F : In first (filter (fun c => String.eqb (ET.tag c) path) pre)).
  { apply filter_In. split; [exact I|]. rewrite T. apply String.eqb_refl. }
  rewrite N in F. destruct F.
Qed.

(** X7.  Only the first [report_metadata] and the first
    [policy_published] child of the root are read: taking a later one
    out of the document changes nothing in what [_parse_xml] returns or
    raises. *)
Theorem X7_first_section_wins (with_later without_later : Py.bytes)
    (name t : string) (x : option string) (pre post : list ET.Element)
    (e first : ET.Element) :
  fromstring with_later = ET.Parsed (ET.Elem t x (pre ++ e :: post)) ->
  fromstring without_later = ET.Parsed (ET.Elem t x (pre ++ post)) ->
  ET.tag e = "report_metadata" \/ ET.tag e = "policy_published" ->
  In first pre ->
  ET.tag first = ET.tag e ->
  _parse_xml fromstring with_later name
  = _parse_xml fromstring without_later name.
Proof.
  intros P1 P2 T I F.
  rewrite (parse_xml_parsed _ _ _ _ P1), (parse_xml_parsed _ _ _ _ P2).
  unfold Doc.begin_text, Doc.end_text, Doc.pct_text, Doc.header,
    Doc.metadata, Doc.policy.
  assert (M : ET.find (ET.Elem t x (pre ++ e :: post)) "report_metadata"
              = ET.find (ET.Elem t x (pre ++ post)) "report_metadata").
  { destruct T as [T|T].
    - apply (find_remove_later t x pre post e first); [reflexivity|exact I|congruence].
    - apply find_remove; [reflexivity|now rewrite T]. }
  assert (Q : ET.find (ET.Elem t x (pre ++ e :: post)) "policy_published"
              = ET.find (ET.Elem t x (pre ++ post)) "policy_published").
  { destruct T as [T|T].
    - apply find_remove; [reflexivity|now rewrite T].
    - apply (find_remove_later t x pre post e first); [reflexivity|exact I|congruence]. }
  assert (R : ET.findall (ET.Elem t x (pre ++ e :: post)) "record"
              = ET.findall (ET.Elem t x (pre ++ post)) "record").
  { rewrite !findall_filter by reflexivity. rewrite !filter_app. cbn [filter].
    now destruct T as [-> | ->]. }
  now rewrite !M, !Q, R.
Qed.

(** X8.  When the root has no [report_metadata] child, or when the first
    one has no child element, the date range is taken as missing,
    whatever the rest of the document holds: [_parse_xml] raises the
    date-range [UploadError]. *)
Theorem X8_empty_metadata (xml_bytes : Py.bytes) (name : string)
    (root : ET.Element) :
  fromstring xml_bytes = ET.Parsed root ->
  ET.find root "report_metadata" = None
  \/ (exists m, ET.find root "report_metadata" = Some m /\ ET.children m = []) ->
  _parse_xml fromstring xml_bytes name
  = Raise (UploadError Messages.invalid_date_range (Some name)).
Proof.
  intros P H. rewrite (parse_xml_parsed _ _ _ _ P).
  assert (M : Doc.metadata root = ET.new "report_metadata").
  { unfold Doc.metadata. destruct H as [-> | (m & -> & C)]; [reflexivity|].
    unfold ET.or_element, ET.truthy. now rewrite C. }
  unfold Doc.begin_text, Doc.end_text. rewrite M. reflexivity.
Qed.

End NamesAndSections.

(** ** The methods of the model classes *)

Section ModelMethods.

Import Models Methods.

Lemma dict_get_set_same (d : Dict.dict) (k : string) (v default : Z) :
  Dict.get (Dict.set d k v) k default = v.
Proof.
  induction d as [|[k' v'] d IH]; cbn.
  - now rewrite String.eqb_refl.
  - destruct (String.eqb k' k) eqn:E; cbn; rewrite E; [reflexivity|exact IH].
Qed.

Lemma dict_get_set_other (d : Dict.dict) (k k' : string) (v default : Z) :
  k <> k' ->
  Dict.get (Dict.set d k v) k' default = Dict.get d k' default.
Proof.
  intros N. induction d as [|[k0 v0] d IH]; cbn.
  - destruct (String.eqb k k') eqn:E; [|reflexivity].
    apply String.eqb_eq in E. congruence.
  - destruct (String.eqb k0 k) eqn:E; cbn.
    + apply String.eqb_eq in E. subst k0.
      destruct (String.eqb k k') eqn:E'; [|reflexivity].
      apply String.eqb_eq in E'. congruence.
    + now rewrite IH.
Qed.

Lemma dict_keys_set (d : Dict.dict) (k k' : string) (v : Z) :
  In k' (Dict.keys (Dict.set d k v)) <-> k' = k \/ In k' (Dict.keys d).
Proof.
  unfold Dict.keys. induction d as [|[k0 v0] d IH]; cbn.
  - intuition.
  - destruct (String.eqb k0 k) eqn:E; cbn.
    + apply String.eqb_eq in E. subst k0. intuition.
    + rewrite IH. intuition.
Qed.

Lemma dict_keys_set_nodup (d : Dict.dict) (k : string) (v : Z) :
  NoDup (Dict.keys d) -> NoDup (Dict.keys (Dict.set d k v)).
Proof.
  unfold Dict.keys. induction d as [|[k0 v0] d IH]; cbn; intros H.
  - constructor; [intros []|constructor].
  - inversion H as [|? ? N H']; subst.
    destruct (String.eqb k0 k) eqn:E; cbn.
    + now constructor.
    + constructor; [|now apply IH].
      intros I. apply (dict_keys_set d k k0 v) in I.
      destruct I as [->|I]; [|now apply N].
      now rewrite String.eqb_refl in E.
Qed.

Lemma dict_sum_set (d : Dict.dict) (k : string) (v : Z) :
  Dict.sum (Dict.values (Dict.set d k v))
  = Dict.sum (Dict.values d) - Dict.get d k 0 + v.
Proof.
  unfold Dict.values, Dict.sum. induction d as [|[k0 v0] d IH]; cbn.
  - lia.
  - destruct (String.eqb k0 k); cbn; [lia|]. rewrite IH. lia.
Qed.

Lemma total_of_cons (k : string) (r : ReportRecord) (rs : list ReportRecord) :
  total_of k (r :: rs)
  = (if String.eqb (label r) k then count r else 0) + total_of k rs.
Proof.
  unfold total_of. cbn [filter].
  destruct (String.eqb (label r) k); reflexivity.
Qed.

Lemma summary_loop_get (rs : list ReportRecord) :
  forall counts k,
    Dict.get (summary_loop rs counts) k 0 = Dict.get counts k 0 + total_of k rs.
Proof.
  induction rs as [|r rs IH]; intros counts k.
  - change (total_of k []) with 0. cbn [summary_loop]. lia.
  - cbn [summary_loop]. cbv zeta.
    change (Py.or_str (disposition r) "unknown") with (label r). rewrite IH, total_of_cons.
    destruct (String.eqb (label r) k) eqn:E.
    + apply String.eqb_eq in E. subst k. rewrite dict_get_set_same. lia.
    + rewrite dict_get_set_other; [lia|].
      intros N. rewrite N in E. now rewrite String.eqb_refl in E.
Qed.

Lemma summary_loop_keys (rs : list ReportRecord) :
  forall counts k,
    In k (Dict.keys (summary_loop rs counts))
    <-> In k (Dict.keys counts) \/ exists r, In r rs /\ label r = k.
Proof.
  induction rs as [|r rs IH]; intros counts k.
  - cbn. split; [auto|]. intros [H|(r & [] & _)]. exact H.
  - cbn [summary_loop]. cbv zeta.
    change (Py.or_str (disposition r) "unknown") with (label r). rewrite IH, dict_keys_set. split.
    + intros [[->|H]|(r' & I & L)].
      * right. exists r. split; [now left|reflexivity].
      * now left.
      * right. exists r'. split; [now right|exact L].
    + intros [H|(r' & [<-|I] & L)].
      * left. now right.
      * left. left. now symmetry.
      * right. eauto.
Qed.

Lemma summary_loop_nodup (rs : list ReportRecord) :
  forall counts, NoDup (Dict.keys counts) ->
                 NoDup (Dict.keys (summary_loop rs counts)).
Proof.
  induction rs as [|r rs IH]; intros counts H; [exact H|].
  cbn [summary_loop]. apply IH. now apply dict_keys_set_nodup.
Qed.

Lemma summary_loop_sum (rs : list ReportRecord) :
  forall counts,
    Dict.sum (Dict.values (summary_loop rs counts))
    = Dict.sum (Dict.values counts) + Dict.sum (map count rs).
Proof.
  induction rs as [|r rs IH]; intros counts.
  - change (Dict.sum (map count [])) with 0. cbn [summary_loop]. lia.
  - cbn [summary_loop]. cbv zeta. rewrite IH, dict_sum_set.
    change (Dict.sum (map count (r :: rs)))
      with (count r + Dict.sum (map count rs)).
    lia.
Qed.

(** X9.  [summary_counts] gives, under each label, the counts of the
    records with that label added up, a record without disposition (none
    or empty) being counted under ["unknown"]; and its keys are the labels
    that occur among the records. *)
Theorem X9_summary_counts_lookup (report : Report) (k : string) :
  Dict.get (summary_counts report) k 0 = total_of k (records report)
  /\ (In k (Dict.keys (summary_counts report))
      <-> exists r, In r (records report)
                    /\ Py.or_str (disposition r) "unknown" = k).
Proof.
  unfold summary_counts. split.
  - now rewrite summary_loop_get.
  - rewrite summary_loop_keys. cbn. unfold label. tauto.
Qed.

(** X10.  In [summary_counts] no label comes twice, and the counts add up
    to the total of the counts of the records: no message is lost or
    counted twice. *)
Theorem X10_summary_counts_total (report : Report) :
  NoDup (Dict.keys (summary_counts report))
  /\ Dict.sum (Dict.values (summary_counts report))
     = Dict.sum (map count (records report)).
Proof.
  unfold summary_counts. split.
  - apply summary_loop_nodup. constructor.
  - now rewrite summary_loop_sum.
Qed.

(** X11.  [identifier] is never empty: it is [header_from] when that is
    not empty, else [envelope_from] when that is not empty, else
    ["Unknown"]. *)
Theorem X11_identifier (r : ReportRecord) :
  identifier r <> EmptyString
  /\ (Py.truthy (header_from r) = true -> header_from r = Some (identifier r))
  /\ (Py.truthy (header_from r) = false ->
      Py.truthy (envelope_from r) = true ->
      envelope_from r = Some (identifier r))
  /\ (Py.truthy (header_from r) = false ->
      Py.truthy (envelope_from r) = false ->
      identifier r = "Unknown").
Proof.
  unfold identifier.
  destruct (header_from r) as [[|c s]|]; destruct (envelope_from r) as [[|d t]|];
    cbn; repeat split; intros; try discriminate; reflexivity.
Qed.

Lemma alignment_status_shape (r : ReportRecord) :
  exists dkim spf,
    alignment_status r = ("dkim:" ++ dkim ++ " / spf:" ++ spf)%string
    /\ dkim <> EmptyString /\ spf <> EmptyString.
Proof.
  unfold alignment_status. do 2 eexists. split; [reflexivity|].
  split; [destruct (dkim_aligned r) as [[|c s]|]|destruct (spf_aligned r) as [[|c s]|]];
    cbn; discriminate.
Qed.

End ModelMethods.

(** ** The upload route *)

Section UploadRoute.

Import Models Routes Uploaded.

Variable fromstring : Py.bytes -> ET.fromstring_result.
Variable gzip_decompress : Py.bytes -> result Py.bytes.
Variable ZipFile : Py.bytes -> result zipfile.ZipFile.

Lemma known_find (l : list Report) (rid : string) :
  known (map report_id l) rid
  = match find (fun r => String.eqb (report_id r) rid) l with
    | Some _ => true
    | None => false
    end.
Proof.
  unfold known. induction l as [|r l IH]; cbn; [reflexivity|].
  destruct (String.eqb (report_id r) rid); [reflexivity|exact IH].
Qed.

Lemma known_app (seen : list string) (rid : string) :
  known seen rid = false -> ~ In rid seen.
Proof.
  unfold known. intros H I.
  assert (E : existsb (fun s => String.eqb s rid) seen = true).
  { apply existsb_exists. exists rid. split; [exact I|apply String.eqb_refl]. }
  congruence.
Qed.

Lemma known_in (seen : list string) (rid : string) :
  known seen rid = true -> In rid seen.
Proof.
  unfold known. intros H. apply existsb_exists in H.
  destruct H as (s & I & E). apply String.eqb_eq in E. now subst s.
Qed.

(** The rows of a session after a flush and after an [add]. *)
Lemma rows_flushed (c f p : list Report) :
  rows {| committed := c; flushed := (f ++ p)%list; pending := [] |}
  = rows {| committed := c; flushed := f; pending := p |}.
Proof.
  unfold rows. cbn. now rewrite app_nil_r.
Qed.

Lemma rows_added (c f p : list Report) (r : Report) :
  rows (add {| committed := c; flushed := (f ++ p)%list; pending := [] |} r)
  = (rows {| committed := c; flushed := f; pending := p |} ++ [r])%list.
Proof.
  unfold rows, add. cbn. now rewrite !app_assoc.
Qed.

Lemma loop_flushes_cons (p : list Report) (seen : list string)
    (r : Report) (rest : list Report) :
  loop_flushes p seen (r :: rest)
  = forallb storable p
    && (if known seen (report_id r) then loop_flushes [] seen rest
        else loop_flushes [r] (seen ++ [report_id r]) rest).
Proof.
  destruct rest as [|r' rest].
  - cbn. rewrite app_nil_r. now destruct (known seen (report_id r)); rewrite andb_true_r.
  - unfold loop_flushes.
    change (removelast (r :: r' :: rest)) with (r :: removelast (r' :: rest)).
    cbn [new_reports]. rewrite forallb_app.
    destruct (known seen (report_id r)); reflexivity.
Qed.

Lemma loop_flushes_initial (seen : list string) (reports : list Report) :
  loop_flushes [] seen reports
  = forallb storable (new_reports seen (removelast reports)).
Proof.
  destruct reports; reflexivity.
Qed.

(** The new reports of a sequence without its last report come first
    among the new reports of the sequence. *)
Lemma new_reports_removelast (reports : list Report) :
  forall seen, exists tail,
    new_reports seen reports
    = (new_reports seen (removelast reports) ++ tail)%list.
Proof.
  induction reports as [|r rest IH]; intros seen; [now exists []|].
  destruct rest as [|r' rest].
  - cbn. eexists. reflexivity.
  - change (removelast (r :: r' :: rest)) with (r :: removelast (r' :: rest)).
    remember (r' :: rest) as tl. cbn [new_reports].
    destruct (known seen (report_id r)).
    + apply IH.
    + destruct (IH (seen ++ [report_id r])%list) as [tail E].
      exists tail. rewrite E. reflexivity.
Qed.

Lemma storable_new_flushes (seen : list string) (reports : list Report) :
  forallb storable (new_reports seen reports) = true ->
  loop_flushes [] seen reports = true.
Proof.
  rewrite loop_flushes_initial.
  destruct (new_reports_removelast reports seen) as [tail ->].
  rewrite forallb_app. intros H. now apply andb_true_iff in H.
Qed.

Lemma new_reports_incl (reports : list Report) :
  forall seen, incl (new_reports seen reports) reports.
Proof.
  induction reports as [|r rest IH]; intros seen x; cbn; [tauto|].
  destruct (known seen (report_id r)).
  - intros I. right. exact (IH _ _ I).
  - intros [<-|I]; [now left|right; exact (IH _ _ I)].
Qed.

Lemma new_reports_length (reports : list Report) :
  forall seen,
    (List.length (new_reports seen reports)
     + List.length (repeated_reports seen reports)
     = List.length reports)%nat.
Proof.
  induction reports as [|r rest IH]; intros seen; cbn; [reflexivity|].
  destruct (known seen (report_id r)); cbn [List.length].
  - rewrite <- (IH seen). lia.
  - rewrite <- (IH (seen ++ [report_id r])%list). lia.
Qed.

Lemma new_reports_NoDup (reports : list Report) :
  forall seen,
    NoDup seen ->
    NoDup (seen ++ map report_id (new_reports seen reports)).
Proof.
  induction reports as [|r rest IH]; intros seen N; cbn.
  - now rewrite app_nil_r.
  - destruct (known seen (report_id r)) eqn:K; [now apply IH|].
    cbn [map].
    change (report_id r :: map report_id (new_reports (seen ++ [report_id r]) rest))
      with ([report_id r] ++ map report_id (new_reports (seen ++ [report_id r]) rest))%list.
    rewrite app_assoc. apply IH.
    apply known_app in K.
    rewrite <- (rev_involutive (seen ++ [report_id r])).
    apply NoDup_rev. rewrite rev_app_distr. cbn.
    constructor; [rewrite <- in_rev; exact K|now apply NoDup_rev].
Qed.

Lemma new_reports_cover (reports : list Report) :
  forall seen r,
    In r reports ->
    In (report_id r) (seen ++ map report_id (new_reports seen reports)).
Proof.
  induction reports as [|r0 rest IH]; intros seen r; cbn; [tauto|].
  destruct (known seen (report_id r0)) eqn:K.
  - intros [<-|I]; [|now apply IH].
    apply in_or_app. left. now apply known_in.
  - assert (E : (seen ++ map report_id (r0 :: new_reports (seen ++ [report_id r0]) rest)
                 = (seen ++ [report_id r0])
                   ++ map report_id (new_reports (seen ++ [report_id r0]) rest))%list).
    { cbn [map]. now rewrite <- app_assoc. }
    rewrite E. intros [<-|I]; [|now apply IH].
    apply in_or_app. left. apply in_or_app. right. now left.
Qed.

Lemma repeated_reports_known (reports : list Report) :
  forall seen r,
    In r (repeated_reports seen reports) ->
    In (report_id r) (seen ++ map report_id (new_reports seen reports)).
Proof.
  induction reports as [|r0 rest IH]; intros seen r; cbn; [tauto|].
  destruct (known seen (report_id r0)) eqn:K.
  - intros [<-|I]; [|now apply IH].
    apply in_or_app. left. now apply known_in.
  - assert (E : (seen ++ map report_id (r0 :: new_reports (seen ++ [report_id r0]) rest)
                 = (seen ++ [report_id r0])
                   ++ map report_id (new_reports (seen ++ [report_id r0]) rest))%list).
    { cbn [map]. now rewrite <- app_assoc. }
    rewrite E. intros I. now apply IH.
Qed.

Lemma already_loaded_info (l : list Report) :
  Forall (fun f : flash => snd f = "info") (map already_loaded l).
Proof.
  induction l; constructor; [reflexivity|assumption].
Qed.

(** The loop when one of its flushes raises: it ends there, with the
    messages flashed so far, and nothing is committed. *)
Lemma upload_loop_fails (reports : list Report) :
  forall st,
    loop_flushes (pending (db_session st)) (map report_id (rows (db_session st)))
      reports = false ->
    exists st' infos,
      upload_loop reports st = (st', Some OverflowError)
      /\ committed (db_session st') = committed (db_session st)
      /\ flashed st' = (flashed st ++ infos)%list
      /\ Forall (fun f : flash => snd f = "info") infos.
Proof.
  induction reports as [|r rest IH]; intros [[c f p] fl n]; [discriminate|].
  cbn [db_session pending]. rewrite loop_flushes_cons.
  cbn [upload_loop]. unfold first_by_report_id, flush.
  cbn [db_session pending committed flushed].
  destruct (forallb storable p) eqn:P; cbn [andb bind].
  2:{ intros _. exists {| db_session := {| committed := c; flushed := f; pending := p |};
                         flashed := fl; reports_saved := n |}, [].
      cbn. rewrite app_nil_r. repeat split. constructor. }
  cbn [committed flushed].
  assert (K : known (map report_id (rows {| committed := c; flushed := f; pending := p |}))
                (report_id r)
              = match find (fun r0 => String.eqb (report_id r0) (report_id r))
                        (c ++ f ++ p)%list with
                | Some _ => true
                | None => false
                end) by apply known_find.
  rewrite K.
  destruct (find (fun r0 => String.eqb (report_id r0) (report_id r)) (c ++ f ++ p)%list)
    as [existing|]; intros H.
  - destruct (IH {| db_session := {| committed := c; flushed := (f ++ p)%list;
                                     pending := [] |};
                    flashed := (fl ++ [(Routes.already_loaded (report_id r), "info")])%list;
                    reports_saved := n |})
      as (st' & infos & E & C & F & I).
    { cbn [db_session pending]. now rewrite rows_flushed. }
    exists st', ((Routes.already_loaded (report_id r), "info") :: infos).
    cbn [db_session committed flashed] in *.
    split; [exact E|]. split; [exact C|].
    split; [rewrite F; now rewrite <- app_assoc|].
    constructor; [reflexivity|exact I].
  - destruct (IH {| db_session := add {| committed := c; flushed := (f ++ p)%list;
                                         pending := [] |} r;
                    flashed := fl;
                    reports_saved := n + 1 |})
      as (st' & infos & E & C & F & I).
    { cbn [db_session]. rewrite rows_added, map_app. exact H. }
    exists st', infos.
    cbn [db_session committed flashed add] in *.
    repeat split; assumption.
Qed.

(** The loop when every flush goes through: the new reports are added in
    order, the other ones are flashed, and what is left pending is
    storable when the new reports are. *)
Lemma upload_loop_succeeds (reports : list Report) :
  forall st,
    let seen := map report_id (rows (db_session st)) in
    loop_flushes (pending (db_session st)) seen reports = true ->
    exists s',
      upload_loop reports st
      = ({| db_session := s';
            flashed :=
              (flashed st ++ map already_loaded (repeated_reports seen reports))%list;
            reports_saved :=
              reports_saved st
              + Z.of_nat (List.length (new_reports seen reports)) |}, None)
      /\ committed s' = committed (db_session st)
      /\ (flushed s' ++ pending s'
          = flushed (db_session st) ++ pending (db_session st)
            ++ new_reports seen reports)%list
      /\ forallb storable (pending s')
         = forallb storable (pending (db_session st) ++ new_reports seen reports).
Proof.
  induction reports as [|r rest IH]; intros [[c f p] fl n]; cbn zeta;
    cbn [db_session pending committed flushed flashed reports_saved].
  - intros _. exists {| committed := c; flushed := f; pending := p |}.
    cbn. rewrite !app_nil_r, Z.add_0_r. repeat split.
  - rewrite loop_flushes_cons.
    cbn [upload_loop new_reports repeated_reports].
    unfold first_by_report_id, flush.
    cbn [db_session pending committed flushed].
    destruct (forallb storable p) eqn:P; cbn [andb bind]; [|discriminate].
    cbn [committed flushed].
    assert (K : known (map report_id (rows {| committed := c; flushed := f; pending := p |}))
                  (report_id r)
                = match find (fun r0 => String.eqb (report_id r0) (report_id r))
                          (c ++ f ++ p)%list with
                  | Some _ => true
                  | None => false
                  end) by apply known_find.
    rewrite K.
    destruct (find (fun r0 => String.eqb (report_id r0) (report_id r)) (c ++ f ++ p)%list)
      as [existing|]; intros H.
    + destruct (IH {| db_session := {| committed := c; flushed := (f ++ p)%list;
                                       pending := [] |};
                      flashed := (fl ++ [(Routes.already_loaded (report_id r), "info")])%list;
                      reports_saved := n |})
        as (s' & E & C & F & S).
      { cbn [db_session pending]. now rewrite rows_flushed. }
      cbn zeta in E, F, S.
      cbn [db_session pending committed flushed flashed reports_saved] in *.
      rewrite rows_flushed in E, F, S.
      exists s'. rewrite E. split.
      { cbn [map]. now rewrite <- app_assoc. }
      split; [exact C|]. split.
      * rewrite F. cbn [app]. now rewrite <- app_assoc.
      * rewrite S. cbn [app]. now rewrite forallb_app, P.
    + destruct (IH {| db_session := add {| committed := c; flushed := (f ++ p)%list;
                                           pending := [] |} r;
                      flashed := fl;
                      reports_saved := n + 1 |})
        as (s' & E & C & F & S).
      { cbn [db_session]. rewrite rows_added, map_app. exact H. }
      cbn zeta in E, F, S.
      cbn [db_session pending committed flushed flashed reports_saved add] in *.
      change {| committed := c; flushed := (f ++ p)%list; pending := ([] ++ [r])%list |}
        with (add {| committed := c; flushed := (f ++ p)%list; pending := [] |} r)
        in E, F, S.
      rewrite rows_added, map_app in E, F, S. cbn [map] in E, F, S.
      exists s'. rewrite E. split.
      { cbn [List.length]. rewrite Nat2Z.inj_succ.
        do 2 f_equal. lia. }
      split; [exact C|]. split.
      * rewrite F. cbn [app]. now rewrite <- app_assoc.
      * rewrite S. cbn [app]. now rewrite forallb_app, P.
Qed.

(** [upload] on a file with a name, in the three ways it can go. *)
Lemma upload_outcome (file : werkzeug.FileStorage) (db : list Report) :
  werkzeug.filename file <> EmptyString ->
  let g := parse_report_file fromstring gzip_decompress ZipFile
             (werkzeug.stream file) (werkzeug.filename file) in
  let seen := map report_id db in
  let new := new_reports seen (yielded g) in
  let old := repeated_reports seen (yielded g) in
  let out := upload fromstring gzip_decompress ZipFile (Some file) db in
  (loop_flushes [] seen (yielded g) = false ->
   fst out = db
   /\ exists infos,
        snd out = (infos ++ [(unexpected OverflowError, "danger")])%list
        /\ Forall (fun f : flash => snd f = "info") infos)
  /\ (loop_flushes [] seen (yielded g) = true ->
      forall exc, raised g = Some exc ->
      out = (db, (map already_loaded old
                  ++ [(if is_UploadError exc then str_of_exception exc
                       else unexpected exc, "danger")])%list))
  /\ (loop_flushes [] seen (yielded g) = true ->
      raised g = None ->
      out = if forallb storable new
            then ((db ++ new)%list,
                  (map already_loaded old
                   ++ [(loaded (Z.of_nat (List.length new)), "success")])%list)
            else (db, (map already_loaded old
                       ++ [(unexpected OverflowError, "danger")])%list)).
Proof.
  intros NE g seen new old out.
  assert (U : out
              = let (st, failed) :=
                  upload_loop (yielded g)
                    {| db_session := {| committed := db; flushed := []; pending := [] |};
                       flashed := []; reports_saved := 0 |} in
                match failed with
                | Some exc => upload_except st exc
                | None =>
                    match raised g with
                    | Some exc => upload_except st exc
                    | None =>
                        match commit (db_session st) with
                        | Raise exc => upload_except st exc
                        | Ok s =>
                            (committed s,
                             (flashed st ++ [(loaded (reports_saved st), "success")])%list)
                        end
                    end
                end).
  { unfold out, upload.
    destruct (String.eqb (werkzeug.filename file) "") eqn:E; [|reflexivity].
    apply String.eqb_eq in E. congruence. }
  assert (R : map report_id
                (rows {| committed := db; flushed := []; pending := [] |}) = seen).
  { unfold rows. cbn. now rewrite app_nil_r. }
  split; [|split].
  - intros L.
    destruct (upload_loop_fails (yielded g)
                {| db_session := {| committed := db; flushed := []; pending := [] |};
                   flashed := []; reports_saved := 0 |})
      as (st' & infos & E & C & F & I).
    { cbn [db_session pending]. now rewrite R. }
    rewrite U, E. unfold upload_except. cbn [fst snd rollback committed].
    split; [exact C|]. exists infos. rewrite F. cbn [flashed app is_UploadError].
    split; [reflexivity|exact I].
  - intros L exc Rg.
    destruct (upload_loop_succeeds (yielded g)
                {| db_session := {| committed := db; flushed := []; pending := [] |};
                   flashed := []; reports_saved := 0 |})
      as (s' & E & C & F & S).
    { cbn [db_session pending]. now rewrite R. }
    cbn zeta in E. cbn [db_session flashed reports_saved committed] in *.
    rewrite R in E.
    rewrite U, E, Rg. unfold upload_except.
    cbn [db_session flashed rollback committed app]. rewrite C.
    now destruct (is_UploadError exc).
  - intros L Rg.
    destruct (upload_loop_succeeds (yielded g)
                {| db_session := {| committed := db; flushed := []; pending := [] |};
                   flashed := []; reports_saved := 0 |})
      as (s' & E & C & F & S).
    { cbn [db_session pending]. now rewrite R. }
    cbn zeta in E, F, S.
    cbn [db_session flashed reports_saved committed flushed pending app] in *.
    rewrite R in E, F, S. fold new in E, F, S. fold old in E.
    rewrite U, E, Rg. unfold commit, flush, upload_except.
    cbn [db_session flashed reports_saved app]. rewrite S.
    destruct (forallb storable new); cbn [bind committed flushed rollback is_UploadError].
    + now rewrite C, F.
    + now rewrite C.
Qed.

(** X12.  The upload appends and never makes a duplicate: whatever is
    posted, the rows that were committed stay as they are, the new rows
    come after them, and when no two rows had the same [report_id] before,
    none have after. *)
Theorem X12_upload_appends_unique (file : option werkzeug.FileStorage)
    (db : list Report) :
  exists new,
    fst (upload fromstring gzip_decompress ZipFile file db) = (db ++ new)%list
    /\ (NoDup (map report_id db) -> NoDup (map report_id (db ++ new))).
Proof.
  destruct file as [file|].
  2:{ exists []. cbn. rewrite app_nil_r. auto. }
  destruct (String.eqb (werkzeug.filename file) "") eqn:E.
  { exists []. unfold upload. rewrite E. cbn. rewrite app_nil_r. auto. }
  apply String.eqb_neq in E.
  destruct (upload_outcome file db E) as (A & B & C).
  set (g := parse_report_file fromstring gzip_decompress ZipFile
              (werkzeug.stream file) (werkzeug.filename file)) in *.
  cbn zeta in A, B, C.
  destruct (loop_flushes [] (map report_id db) (yielded g)) eqn:L.
  - destruct (raised g) as [exc|] eqn:Rg.
    + exists []. rewrite (B eq_refl exc eq_refl). cbn [fst].
      rewrite app_nil_r. auto.
    + rewrite (C eq_refl eq_refl).
      destruct (forallb storable (new_reports (map report_id db) (yielded g))).
      * exists (new_reports (map report_id db) (yielded g)). cbn [fst].
        split; [reflexivity|]. intros N. rewrite map_app.
        now apply new_reports_NoDup.
      * exists []. cbn [fst]. rewrite app_nil_r. auto.
  - destruct (A eq_refl) as [F _]. exists []. rewrite F, app_nil_r. auto.
Qed.

(** X13.  The upload is all or nothing: when the generator ends with an
    exception, also after it has yielded reports, the committed rows are
    those from before.  The messages are one ["info"] for each yielded
    report that is not new and then a ["danger"] one, which is the text
    of the exception for an [UploadError]; this is so when the new
    reports but the last yielded can be inserted.  When one of them has
    a [pct] or a [count] outside of 64 bits, the query for the report
    after it raises [OverflowError] first, and that is what the last
    message shows. *)
Theorem X13_upload_all_or_nothing (file : werkzeug.FileStorage)
    (db : list Report) (exc : exn) :
  werkzeug.filename file <> EmptyString ->
  let g := parse_report_file fromstring gzip_decompress ZipFile
             (werkzeug.stream file) (werkzeug.filename file) in
  raised g = Some exc ->
  let out := upload fromstring gzip_decompress ZipFile (Some file) db in
  let flushed_by_loop := new_reports (map report_id db) (removelast (yielded g)) in
  fst out = db
  /\ (forallb storable flushed_by_loop = true ->
      snd out
      = (map already_loaded (repeated_reports (map report_id db) (yielded g))
         ++ [(if is_UploadError exc then str_of_exception exc
              else unexpected exc, "danger")])%list)
  /\ (forallb storable flushed_by_loop = false ->
      exists infos,
        snd out = (infos ++ [(unexpected OverflowError, "danger")])%list
        /\ Forall (fun f : flash => snd f = "info") infos).
Proof.
  intros NE g Rg out fl.
  destruct (upload_outcome file db NE) as (A & B & _).
  fold g in A, B. cbn zeta in A, B. fold out in A, B.
  rewrite loop_flushes_initial in A, B. fold fl in A, B.
  split; [|split].
  - destruct (forallb storable fl).
    + now rewrite (B eq_refl exc Rg).
    + now destruct (A eq_refl).
  - intros L. now rewrite (B L exc Rg).
  - intros L. now destruct (A L).
Qed.

(** X14.  When the generator ends normally, the reports it yielded that
    come with a [report_id] for the first time are the new rows, in
    order, and the others get their ["info"] message: the new rows are
    committed after those from before and the last message gives their
    number.  This is so when every new row fits the table; when one has a
    [pct] or a [count] outside of 64 bits, nothing is committed and the
    last message shows the [OverflowError].  Every yielded report is a new
    row or has its message, and its [report_id] is stored, from before or
    as a new row. *)
Theorem X14_upload_commit (file : werkzeug.FileStorage) (db : list Report) :
  werkzeug.filename file <> EmptyString ->
  let g := parse_report_file fromstring gzip_decompress ZipFile
             (werkzeug.stream file) (werkzeug.filename file) in
  raised g = None ->
  let new := new_reports (map report_id db) (yielded g) in
  let old := repeated_reports (map report_id db) (yielded g) in
  let out := upload fromstring gzip_decompress ZipFile (Some file) db in
  (forallb storable new = true ->
   out = ((db ++ new)%list,
          (map already_loaded old
           ++ [(loaded (Z.of_nat (List.length new)), "success")])%list))
  /\ (forallb storable new = false ->
      fst out = db
      /\ exists infos,
           snd out = (infos ++ [(unexpected OverflowError, "danger")])%list
           /\ Forall (fun f : flash => snd f = "info") infos)
  /\ incl new (yielded g)
  /\ (List.length new + List.length old = List.length (yielded g))%nat
  /\ (forall r, In r (yielded g) -> In (report_id r) (map report_id (db ++ new)))
  /\ (forall r, In r old -> In (report_id r) (map report_id (db ++ new))).
Proof.
  intros NE g Rg new old out.
  destruct (upload_outcome file db NE) as (A & _ & C).
  fold g in A, C. cbn zeta in A, C. fold out new old in A, C.
  split; [|split; [|split; [|split; [|split]]]].
  - intros S. rewrite (C (storable_new_flushes _ _ S) Rg). now rewrite S.
  - intros S.
    destruct (loop_flushes [] (map report_id db) (yielded g)) eqn:L.
    + rewrite (C eq_refl Rg), S. cbn [fst snd]. split; [reflexivity|].
      exists (map already_loaded old). split; [reflexivity|].
      apply already_loaded_info.
    + exact (A eq_refl).
  - apply new_reports_incl.
  - apply new_reports_length.
  - intros r I. rewrite map_app. now apply new_reports_cover.
  - intros r I. rewrite map_app. now apply repeated_reports_known.
Qed.

End UploadRoute.

(** ** The settings and schedule routes *)

Section FormRoutes.

Import Tables Routes.

(** X15.  [create_schedule] converts [days_back] before it looks at the
    name: text that [int] rejects raises [ValueError] whatever the other
    fields.  With a number, a missing [name] or [recipient] leaves the
    table as it is, with a warning.  With both, the row is added and
    committed: a number outside of 64 bits raises [OverflowError] and no
    row is stored; otherwise the rows of the table stay and one row goes
    after them.  The new row was never sent, has the number for
    [days_back], 7 for an empty one, ["semanal"] for an empty [frequency]
    and no domain filter for an empty one. *)
Theorem X15_create_schedule (request_form : form)
    (schedules : list ScheduledReport) :
  (forall s, request_form "days_back" = Some s -> s <> EmptyString ->
             Py.int_of_str s = Raise ValueError ->
             create_schedule request_form schedules = Raise ValueError)
  /\ (forall n,
        Py.int (Py.or_int (request_form "days_back") 7) = Ok n ->
        (Py.truthy (request_form "name") && Py.truthy (request_form "recipient")
           = false ->
         create_schedule request_form schedules
         = Ok (schedules, (complete_name_and_recipient, "warning")))
        /\ (Py.truthy (request_form "name") && Py.truthy (request_form "recipient")
              = true ->
            sqlite3.fits_integer n = false ->
            create_schedule request_form schedules = Raise OverflowError)
        /\ (Py.truthy (request_form "name") && Py.truthy (request_form "recipient")
              = true ->
            sqlite3.fits_integer n = true ->
            exists row,
              create_schedule request_form schedules
              = Ok ((schedules ++ [row])%list, (schedule_created, "success"))
              /\ days_back row = Some n))
  /\ (forall out fl,
        create_schedule request_form schedules = Ok (out, fl) ->
        (Py.truthy (request_form "name") && Py.truthy (request_form "recipient")
           = false ->
         out = schedules /\ fl = (complete_name_and_recipient, "warning"))
        /\ (Py.truthy (request_form "name") && Py.truthy (request_form "recipient")
              = true ->
            exists row,
              out = (schedules ++ [row])%list
              /\ fl = (schedule_created, "success")
              /\ name row = request_form "name"
              /\ recipient row = request_form "recipient"
              /\ last_sent_at row = None
              /\ (exists n, days_back row = Some n /\ - 2 ^ 63 <= n < 2 ^ 63)
              /\ (Py.truthy (request_form "days_back") = false ->
                  days_back row = Some 7)
              /\ (Py.truthy (request_form "frequency") = false ->
                  frequency row = Some "semanal")
              /\ (Py.truthy (request_form "domain_filter") = false ->
                  domain_filter row = None))).
Proof.
  unfold create_schedule. split; [|split].
  - intros s D N I. rewrite D. destruct s as [|c s]; [congruence|].
    cbn [Py.or_int Py.int]. rewrite I. reflexivity.
  - intros n D. rewrite D. cbn [bind].
    unfold add_and_commit. cbn [days_back].
    destruct (Py.truthy (request_form "name"));
      destruct (Py.truthy (request_form "recipient")); cbn [negb orb andb];
      (split; [|split]); try discriminate; try reflexivity.
    + intros _ F. now rewrite F.
    + intros _ F. rewrite F. cbn [bind]. eexists. split; reflexivity.
  - intros out fl.
    destruct (Py.int (Py.or_int (request_form "days_back") 7)) as [days|e] eqn:D;
      cbn [bind]; [|discriminate].
    unfold add_and_commit. cbn [days_back].
    destruct (Py.truthy (request_form "name"));
      destruct (Py.truthy (request_form "recipient")); cbn [negb orb andb];
      try (intros H; injection H as <- <-; (split; [intros T|intros T]);
           try discriminate; split; reflexivity).
    destruct (sqlite3.fits_integer days) eqn:F; cbn [bind]; [|discriminate].
    intros H; injection H as <- <-. split; [discriminate|]. intros _.
    eexists. repeat split.
    + exists days. split; [reflexivity|].
      unfold sqlite3.fits_integer in F. apply andb_true_iff in F.
      destruct F as [F1 F2]. apply Z.leb_le in F1. apply Z.ltb_lt in F2. lia.
    + intros T. rewrite (int_or_int_falsy _ 7 T) in D. cbn. congruence.
    + intros T. cbn. now rewrite (or_str_falsy _ _ T).
    + intros T. cbn. unfold PyOr.or_opt. now rewrite T.
Qed.

Lemma or_opt_idem (a b : option string) :
  PyOr.or_opt a (PyOr.or_opt a b) = PyOr.or_opt a b.
Proof.
  unfold PyOr.or_opt. now destruct (Py.truthy a).
Qed.

Lemma or_None_int_or (n : Z) : PyOr.int_or (PyOr.or_None n) 0 = n.
Proof.
  unfold PyOr.or_None, PyOr.int_or.
  destruct (n =? 0) eqn:E; [apply Z.eqb_eq in E; congruence|now rewrite E].
Qed.

Lemma int_or_twice (p : option Z) :
  PyOr.int_or (PyOr.or_None (PyOr.int_or p 0)) 0 = PyOr.int_or p 0.
Proof. apply or_None_int_or. Qed.

(** The port an update stores. *)
Lemma port_update (v : option string) (old : option Z) (n : Z) :
  Py.int (Py.or_int v (PyOr.int_or old 0)) = Ok n ->
  Py.int (Py.or_int v (PyOr.int_or (PyOr.or_None n) 0)) = Ok n.
Proof.
  destruct (Py.truthy v) eqn:T.
  - destruct v as [[|c s]|]; try discriminate. cbn. auto.
  - rewrite !(int_or_int_falsy _ _ T). intros H. injection H as <-.
    now rewrite int_or_twice.
Qed.

(** X16.  Posting the mail form twice is the same as posting it once: an
    update of the settings it has produced changes nothing. *)
Theorem X16_update_settings_idempotent (request_form : form)
    (settings settings' : MailSettings) :
  update_settings request_form settings = Ok settings' ->
  update_settings request_form settings' = Ok settings'.
Proof.
  unfold update_settings.
  destruct (Py.int (Py.or_int (request_form "mail_port") _)) as [mp|e] eqn:M;
    cbn [bind]; [|discriminate].
  destruct (Py.int (Py.or_int (request_form "smtp_port") _)) as [sp|e] eqn:S;
    cbn [bind]; [|discriminate].
  intros H. injection H as <-.
  cbn [mail_server mail_port connection_type username password use_ssl
       smtp_server smtp_port use_tls sender].
  rewrite (port_update _ _ _ M), (port_update _ _ _ S). cbn [bind].
  rewrite !or_opt_idem.
  now destruct (Py.truthy (request_form "password")).
Qed.

(** X17.  What an update of the settings keeps: a port is never stored as
    0 (it is stored as [None]); a password that is set stays set, the form
    cannot clear it; a text field left empty keeps its value; and the two
    flags are on only when their box is sent. *)
Theorem X17_update_settings_keeps (request_form : form)
    (settings settings' : MailSettings) :
  update_settings request_form settings = Ok settings' ->
  mail_port settings' <> Some 0
  /\ smtp_port settings' <> Some 0
  /\ (Py.truthy (password settings) = true ->
      Py.truthy (password settings') = true)
  /\ (Py.truthy (request_form "mail_server") = false ->
      mail_server settings' = mail_server settings)
  /\ (Py.truthy (request_form "smtp_server") = false ->
      smtp_server settings' = smtp_server settings)
  /\ (Py.truthy (request_form "username") = false ->
      username settings' = username settings)
  /\ (Py.truthy (request_form "password") = false ->
      password settings' = password settings)
  /\ (Py.truthy (request_form "sender") = false ->
      sender settings' = sender settings)
  /\ use_ssl settings' = Some (Py.truthy (request_form "use_ssl"))
  /\ use_tls settings' = Some (Py.truthy (request_form "use_tls")).
Proof.
  unfold update_settings.
  destruct (Py.int (Py.or_int (request_form "mail_port") _)) as [mp|e] eqn:M;
    cbn [bind]; [|discriminate].
  destruct (Py.int (Py.or_int (request_form "smtp_port") _)) as [sp|e] eqn:S;
    cbn [bind]; [|discriminate].
  intros H. injection H as <-.
  cbn [mail_server mail_port connection_type username password use_ssl
       smtp_server smtp_port use_tls sender].
  assert (Z0 : forall n, PyOr.or_None n <> Some 0).
  { intros n. unfold PyOr.or_None. destruct (n =? 0) eqn:E; [discriminate|].
    intros H. injection H as ->. discriminate. }
  unfold PyOr.or_opt.
  repeat split; auto; try (intros F; now rewrite F).
  intros T. destruct (Py.truthy (request_form "password")) eqn:P; assumption.
Qed.

End FormRoutes.

(** ** Elements the parser does not know, and archives without files *)

Section Tolerance.

Import Models.

Variable fromstring : Py.bytes -> ET.fromstring_result.

(** X20.  A child of the root that is neither a [report_metadata], a
    [policy_published] nor a [record] is not looked at: with or without
    it, [_parse_xml] returns the same report or raises the same
    exception. *)
Theorem X20_unknown_elements_ignored (with_element without_element : Py.bytes)
    (name t : string) (x : option string) (pre post : list ET.Element)
    (e : ET.Element) :
  fromstring with_element = ET.Parsed (ET.Elem t x (pre ++ e :: post)) ->
  fromstring without_element = ET.Parsed (ET.Elem t x (pre ++ post)) ->
  ET.tag e <> "report_metadata" ->
  ET.tag e <> "policy_published" ->
  ET.tag e <> "record" ->
  _parse_xml fromstring with_element name
  = _parse_xml fromstring without_element name.
Proof.
  intros P1 P2 T1 T2 T3.
  apply String.eqb_neq in T1, T2, T3.
  rewrite (parse_xml_parsed _ _ _ _ P1), (parse_xml_parsed _ _ _ _ P2).
  unfold Doc.begin_text, Doc.end_text, Doc.pct_text, Doc.header,
    Doc.metadata, Doc.policy.
  rewrite !(find_remove t x pre post e "report_metadata") by (reflexivity || assumption).
  rewrite !(find_remove t x pre post e "policy_published") by (reflexivity || assumption).
  assert (R : ET.findall (ET.Elem t x (pre ++ e :: post)) "record"
              = ET.findall (ET.Elem t x (pre ++ post)) "record").
  { rewrite !findall_filter by reflexivity. rewrite !filter_app. cbn [filter].
    now rewrite T3. }
  now rewrite R.
Qed.

End Tolerance.

Section EmptyArchive.

Import Models Routes.

Variable fromstring : Py.bytes -> ET.fromstring_result.
Variable gzip_decompress : Py.bytes -> result Py.bytes.
Variable ZipFile : Py.bytes -> result zipfile.ZipFile.

Lemma zip_loop_directories (zf : zipfile.ZipFile) (outer : string)
    (infos : list zipfile.ZipInfo) :
  filter (fun info => negb (Doc.is_directory info)) infos = [] ->
  zip_loop fromstring zf infos outer = gen_return.
Proof.
  induction infos as [|info infos IH]; [reflexivity|].
  cbn [filter zip_loop]. fold (Doc.is_directory info).
  destruct (Doc.is_directory info); cbn [negb]; [exact IH|discriminate].
Qed.

Lemma endswith_nonempty (s suffix : string) :
  suffix <> EmptyString -> Py.endswith s suffix = true -> s <> EmptyString.
Proof.
  intros N H ->. unfold Py.endswith in H.
  change (Py.rev "") with EmptyString in H.
  destruct (Py.rev suffix) as [|c r] eqn:R; [|discriminate].
  apply N. destruct suffix as [|d suffix]; [reflexivity|].
  unfold Py.rev in R. cbn [Py.rev_append] in R.
  rewrite rev_append_app in R. destruct (Py.rev suffix); discriminate.
Qed.

(** X21.  An archive that opens and holds no file, only directory entries
    or nothing at all, is not an error: the generator yields nothing and
    ends normally, and the upload commits nothing and flashes that 0
    reports were loaded. *)
Theorem X21_empty_archive (data : Py.bytes) (name : string)
    (zf : zipfile.ZipFile) (db : list Report) :
  Py.endswith (Py.lower name) ".zip" = true ->
  ZipFile data = Ok zf ->
  Doc.file_members zf = [] ->
  parse_report_file fromstring gzip_decompress ZipFile data name = gen_return
  /\ upload fromstring gzip_decompress ZipFile
       (Some {| werkzeug.stream := data; werkzeug.filename := name |}) db
     = (db, [(loaded 0, "success")]).
Proof.
  intros Z O M.
  assert (G : parse_report_file fromstring gzip_decompress ZipFile data name
              = gen_return).
  { unfold parse_report_file. rewrite (zip_is_not_gz _ Z), Z, O.
    now apply zip_loop_directories. }
  split; [exact G|].
  unfold upload. cbn [werkzeug.stream werkzeug.filename].
  assert (N : String.eqb name "" = false).
  { apply String.eqb_neq. intros ->. discriminate. }
  rewrite N. cbn zeta. rewrite G. cbn. now rewrite app_nil_r.
Qed.

End EmptyArchive.

(** ** The further properties at samples *)

Lemma X1_raw_xml_passthrough_witness :
  let g := parse_report_file (Samples.parses_to Samples.doc_scenario)
             (Samples.gzip_raises EOFError) Samples.not_a_zip [] "report.xml" in
  g = parse_report_file (Samples.parses_to Samples.doc_scenario)
        Samples.gzip_stored (Samples.opens_as Samples.archive) [] "report.xml"
  /\ ((exists report,
         _parse_xml (Samples.parses_to Samples.doc_scenario) [] "report.xml"
           = Ok report
         /\ yielded g = [report] /\ raised g = None)
      \/ (exists e,
            _parse_xml (Samples.parses_to Samples.doc_scenario) [] "report.xml"
              = Raise e
            /\ yielded g = [] /\ raised g = Some e)).
Proof.
  apply (X1_raw_xml_passthrough (Samples.parses_to Samples.doc_scenario)
           (Samples.gzip_raises EOFError) Samples.not_a_zip [] "report.xml"
           Samples.gzip_stored (Samples.opens_as Samples.archive));
    reflexivity.
Defined.

Lemma X2_gzip_branch_witness :
  let g := parse_report_file (Samples.parses_to Samples.doc_scenario)
             Samples.gzip_stored Samples.not_a_zip [] "a.zip.GZ" in
  g = parse_report_file (Samples.parses_to Samples.doc_scenario)
        Samples.gzip_stored (Samples.opens_as Samples.archive) [] "a.zip.GZ"
  /\ (forall e, Samples.gzip_stored [] = Raise e -> is_OSError e = true ->
        yielded g = []
        /\ raised g = Some (UploadError Messages.corrupt_gzip (Some "a.zip.GZ")))
  /\ (forall xml, Samples.gzip_stored [] = Ok xml ->
        (exists report,
           _parse_xml (Samples.parses_to Samples.doc_scenario) xml "a.zip.GZ"
             = Ok report
           /\ Models.filename report = "a.zip.GZ"
           /\ yielded g = [report] /\ raised g = None)
        \/ (exists e,
              _parse_xml (Samples.parses_to Samples.doc_scenario) xml "a.zip.GZ"
                = Raise e
              /\ yielded g = [] /\ raised g = Some e)).
Proof.
  apply (X2_gzip_branch (Samples.parses_to Samples.doc_scenario)
           Samples.gzip_stored Samples.not_a_zip [] "a.zip.GZ"
           (Samples.opens_as Samples.archive)).
  reflexivity.
Defined.

Lemma X3_corrupt_zip_witness :
  let g := parse_report_file Samples.unparseable Samples.gzip_stored
             Samples.not_a_zip [] "reports.zip" in
  g = parse_report_file Samples.unparseable (Samples.gzip_raises EOFError)
        Samples.not_a_zip [] "reports.zip"
  /\ yielded g = []
  /\ raised g = Some (UploadError Messages.corrupt_zip (Some "reports.zip")).
Proof.
  apply (X3_corrupt_zip Samples.unparseable Samples.gzip_stored
           Samples.not_a_zip [] "reports.zip" (Samples.gzip_raises EOFError));
    reflexivity.
Defined.

Lemma X4_yielded_reports_witness :
  exists report,
    In report
       (yielded (parse_report_file
                   (Samples.parses_by_first_byte Samples.three_documents)
                   Samples.gzip_stored (Samples.opens_as Samples.archive)
                   [] "Reports.ZIP"))
    /\ (exists xml,
          _parse_xml (Samples.parses_by_first_byte Samples.three_documents)
            xml (Models.filename report) = Ok report)
    /\ Models.records report <> nil
    /\ Forall (fun r => Models.source_ip r <> EmptyString) (Models.records report)
    /\ (Py.endswith (Py.lower "Reports.ZIP") ".gz" = true
        \/ Py.endswith (Py.lower "Reports.ZIP") ".zip" = false ->
        Models.filename report = "Reports.ZIP")
    /\ (Py.endswith (Py.lower "Reports.ZIP") ".gz" = false ->
        Py.endswith (Py.lower "Reports.ZIP") ".zip" = true ->
        exists zf info,
          Samples.opens_as Samples.archive [] = Ok zf
          /\ In info (zipfile.infolist zf)
          /\ Doc.is_directory info = false
          /\ Py.endswith (Models.filename report) "/" = false
          /\ Models.filename report = zipfile.filename info
          /\ Doc.member_report
               (Samples.parses_by_first_byte Samples.three_documents) zf info
             = Ok report).
Proof.
  assert (E : exists report rest,
            yielded (parse_report_file
                       (Samples.parses_by_first_byte Samples.three_documents)
                       Samples.gzip_stored (Samples.opens_as Samples.archive)
                       [] "Reports.ZIP") = report :: rest)
    by (vm_compute; eauto).
  destruct E as (report & rest & E).
  assert (I : In report
                (yielded (parse_report_file
                            (Samples.parses_by_first_byte Samples.three_documents)
                            Samples.gzip_stored (Samples.opens_as Samples.archive)
                            [] "Reports.ZIP")))
    by (rewrite E; now left).
  exists report. split; [exact I|].
  exact (X4_yielded_reports _ _ _ _ _ _ I).
Defined.

Lemma X5_parse_xml_exceptions_witness :
  ValueError = UploadError (Messages.unparseable_xml "report.xml") None
  \/ ValueError = UploadError Messages.invalid_date_range (Some "report.xml")
  \/ ValueError = UploadError Messages.no_traffic_records (Some "report.xml")
  \/ ValueError = ValueError \/ ValueError = LookupError
  \/ ValueError = OSError \/ ValueError = OverflowError.
Proof.
  apply (X5_parse_xml_exceptions (Samples.parses_to Samples.doc_pct_abc) []
           "report.xml" ValueError).
  vm_compute. reflexivity.
Defined.

Lemma X6_extension_any_case_witness :
  (Py.lower ".Gz" = ".gz"
   /\ Py.endswith (Py.lower "Report.XML.Gz") ".gz" = true
   /\ parse_report_file (Samples.parses_by_first_byte Samples.three_documents)
        Samples.gzip_stored (Samples.opens_as Samples.archive) [] "Report.XML.Gz"
      = parse_report_file (Samples.parses_by_first_byte Samples.three_documents)
          Samples.gzip_stored Samples.not_a_zip [] "Report.XML.Gz")
  /\ (Py.lower ".ZIP" = ".zip"
      /\ Py.endswith (Py.lower "Reports.ZIP") ".zip" = true
      /\ Py.endswith (Py.lower "Reports.ZIP") ".gz" = false
      /\ parse_report_file (Samples.parses_by_first_byte Samples.three_documents)
           Samples.gzip_stored (Samples.opens_as Samples.archive) [] "Reports.ZIP"
         = parse_report_file (Samples.parses_by_first_byte Samples.three_documents)
             (Samples.gzip_raises OSError) (Samples.opens_as Samples.archive)
             [] "Reports.ZIP").
Proof.
  split.
  - split; [reflexivity|].
    destruct (proj1 (X6_extension_any_case
                       (Samples.parses_by_first_byte Samples.three_documents)
                       "Report.XML" ".Gz" [] Samples.gzip_stored Samples.gzip_stored
                       (Samples.opens_as Samples.archive) Samples.not_a_zip)
                    eq_refl) as (G & I & _).
    split; [exact G|exact I].
  - split; [reflexivity|].
    destruct (proj2 (X6_extension_any_case
                       (Samples.parses_by_first_byte Samples.three_documents)
                       "Reports" ".ZIP" [] Samples.gzip_stored
                       (Samples.gzip_raises OSError)
                       (Samples.opens_as Samples.archive) Samples.not_a_zip)
                    eq_refl) as (Z & G & I & _).
    split; [exact Z|]. split; [exact G|exact I].
Defined.

Lemma X7_first_section_wins_witness :
  _parse_xml (Samples.parses_by_first_byte MoreSamples.metadata_documents)
    [x01] "report.xml"
  = _parse_xml (Samples.parses_by_first_byte MoreSamples.metadata_documents)
      [x02] "report.xml".
Proof.
  apply (X7_first_section_wins
           (Samples.parses_by_first_byte MoreSamples.metadata_documents)
           [x01] [x02] "report.xml" "feedback" None
           [MoreSamples.metadata_2023; MoreSamples.policy_example;
            Samples.record_10_0_0_1]
           [] MoreSamples.metadata_other MoreSamples.metadata_2023).
  - reflexivity.
  - reflexivity.
  - left. reflexivity.
  - left. reflexivity.
  - reflexivity.
Defined.

Lemma X8_empty_metadata_witness :
  _parse_xml (Samples.parses_to MoreSamples.doc_empty_first_metadata) [] "report.xml"
  = Raise (UploadError Messages.invalid_date_range (Some "report.xml")).
Proof.
  apply (X8_empty_metadata (Samples.parses_to MoreSamples.doc_empty_first_metadata)
           [] "report.xml" MoreSamples.doc_empty_first_metadata).
  - reflexivity.
  - right. exists (Samples.empty "report_metadata"). split; reflexivity.
Defined.

Lemma X13_upload_all_or_nothing_witness :
  fst (Routes.upload (Samples.parses_by_first_byte Samples.three_documents)
         Samples.gzip_stored (Samples.opens_as Samples.archive_bad_second)
         (Some MoreSamples.zip_upload) []) = []
  /\ snd (Routes.upload (Samples.parses_by_first_byte Samples.three_documents)
            Samples.gzip_stored (Samples.opens_as Samples.archive_bad_second)
            (Some MoreSamples.zip_upload) [])
     = [(Routes.str_of_exception
           (UploadError (Messages.unparseable_xml "dir/b.xml") None), "danger")].
Proof.
  destruct (X13_upload_all_or_nothing
              (Samples.parses_by_first_byte Samples.three_documents)
              Samples.gzip_stored (Samples.opens_as Samples.archive_bad_second)
              MoreSamples.zip_upload []
              (UploadError (Messages.unparseable_xml "dir/b.xml") None))
    as (A & B & _).
  - discriminate.
  - vm_compute. reflexivity.
  - split; [exact A|]. rewrite B; reflexivity.
Defined.

Lemma X14_upload_commit_witness :
  (exists first second,
     yielded (parse_report_file
                (Samples.parses_by_first_byte Samples.three_documents)
                Samples.gzip_stored (Samples.opens_as MoreSamples.archive_twice)
                [] "Reports.ZIP") = [first; first; second]
     /\ Routes.upload (Samples.parses_by_first_byte Samples.three_documents)
          Samples.gzip_stored (Samples.opens_as MoreSamples.archive_twice)
          (Some MoreSamples.zip_upload) []
        = ([first; second],
           [(Routes.already_loaded "r-1", "info"); (Routes.loaded 2, "success")]))
  /\ fst (Routes.upload (Samples.parses_by_first_byte MoreSamples.huge_documents)
            Samples.gzip_stored (Samples.opens_as Samples.archive)
            (Some MoreSamples.zip_upload) []) = []
  /\ exists infos,
       snd (Routes.upload (Samples.parses_by_first_byte MoreSamples.huge_documents)
              Samples.gzip_stored (Samples.opens_as Samples.archive)
              (Some MoreSamples.zip_upload) [])
       = (infos ++ [(Routes.unexpected OverflowError, "danger")])%list
       /\ Forall (fun f : Routes.flash => snd f = "info") infos.
Proof.
  split.
  - destruct (X14_upload_commit
                (Samples.parses_by_first_byte Samples.three_documents)
                Samples.gzip_stored (Samples.opens_as MoreSamples.archive_twice)
                MoreSamples.zip_upload []) as (A & _).
    + discriminate.
    + vm_compute. reflexivity.
    + eexists. eexists. split; [vm_compute; reflexivity|].
      rewrite A; [vm_compute; reflexivity|vm_compute; reflexivity].
  - destruct (X14_upload_commit
                (Samples.parses_by_first_byte MoreSamples.huge_documents)
                Samples.gzip_stored (Samples.opens_as Samples.archive)
                MoreSamples.zip_upload []) as (_ & B & _).
    + discriminate.
    + vm_compute. reflexivity.
    + apply B. vm_compute. reflexivity.
Defined.

Lemma X15_create_schedule_witness :
  Routes.create_schedule MoreSamples.schedule_form_bad_days [] = Raise ValueError
  /\ Routes.create_schedule MoreSamples.schedule_form_huge_days [MoreSamples.weekly]
     = Raise OverflowError
  /\ exists row,
       Routes.create_schedule MoreSamples.schedule_form [MoreSamples.weekly]
       = Ok ([MoreSamples.weekly; row], (Routes.schedule_created, "success"))
       /\ Tables.days_back row = Some 7
       /\ Tables.frequency row = Some "semanal"
       /\ Tables.domain_filter row = None.
Proof.
  split; [|split].
  - apply (proj1 (X15_create_schedule MoreSamples.schedule_form_bad_days [])
             "a week"); [reflexivity|discriminate|reflexivity].
  - apply (proj1 (proj2 (X15_create_schedule MoreSamples.schedule_form_huge_days
                           [MoreSamples.weekly]))
             9223372036854775808); reflexivity.
  - destruct (Routes.create_schedule MoreSamples.schedule_form [MoreSamples.weekly])
      as [[out fl]|e] eqn:H; [|vm_compute in H; discriminate].
    destruct (proj2 (proj2 (X15_create_schedule MoreSamples.schedule_form
                              [MoreSamples.weekly])) out fl H) as [_ A].
    destruct (A eq_refl) as (row & -> & -> & _ & _ & _ & _ & D & F & N).
    exists row. repeat split; [apply D|apply F|apply N]; reflexivity.
Defined.

Lemma X16_update_settings_idempotent_witness :
  exists settings',
    Routes.update_settings MoreSamples.mail_form MoreSamples.old_settings
      = Ok settings'
    /\ Routes.update_settings MoreSamples.mail_form settings' = Ok settings'.
Proof.
  destruct (Routes.update_settings MoreSamples.mail_form MoreSamples.old_settings)
    as [settings'|e] eqn:H; [|vm_compute in H; discriminate].
  exists settings'. split; [reflexivity|].
  exact (X16_update_settings_idempotent _ _ _ H).
Defined.

Lemma X17_update_settings_keeps_witness :
  exists settings',
    Routes.update_settings MoreSamples.mail_form MoreSamples.old_settings
      = Ok settings'
    /\ Tables.mail_port settings' <> Some 0
    /\ Tables.password settings' = Some "secret"
    /\ Tables.use_ssl settings' = Some false.
Proof.
  destruct (Routes.update_settings MoreSamples.mail_form MoreSamples.old_settings)
    as [settings'|e] eqn:H; [|vm_compute in H; discriminate].
  exists settings'. split; [reflexivity|].
  destruct (X17_update_settings_keeps _ _ _ H)
    as (A & _ & _ & _ & _ & _ & B & _ & C & _).
  split; [exact A|]. split; [now apply B|exact C].
Defined.

Lemma X20_unknown_elements_ignored_witness :
  _parse_xml (Samples.parses_by_first_byte MoreSamples.version_documents)
    [x01] "report.xml"
  = _parse_xml (Samples.parses_by_first_byte MoreSamples.version_documents)
      [x02] "report.xml".
Proof.
  apply (X20_unknown_elements_ignored
           (Samples.parses_by_first_byte MoreSamples.version_documents)
           [x01] [x02] "report.xml" "feedback" None []
           [MoreSamples.metadata_2023; MoreSamples.policy_example;
            Samples.record_10_0_0_1]
           (Samples.leaf "version" "1.0"));
    try reflexivity; discriminate.
Defined.

Lemma X21_empty_archive_witness :
  parse_report_file Samples.unparseable Samples.gzip_stored
    (Samples.opens_as MoreSamples.archive_of_directories) [] "empty.zip"
  = gen_return
  /\ Routes.upload Samples.unparseable Samples.gzip_stored
       (Samples.opens_as MoreSamples.archive_of_directories)
       (Some {| werkzeug.stream := []; werkzeug.filename := "empty.zip" |}) []
     = ([], [(Routes.loaded 0, "success")]).
Proof.
  apply (X21_empty_archive Samples.unparseable Samples.gzip_stored
           (Samples.opens_as MoreSamples.archive_of_directories)
           [] "empty.zip" MoreSamples.archive_of_directories []);
    reflexivity.
Defined.
